(** * Grana Zen backend: the transaction / balance / budget engine

    A shallow embedding of [src/models/Despesa.js], [src/models/Receita.js]
    and [src/models/Orcamento.js], and the properties of the consistency
    engine they implement.

    Modelling conventions.
    - Monetary amounts ([valor], [saldo_atual], the card limits and the budget
      totals) are exact integers (think of minor units).  The rounding of
      JavaScript doubles is outside the model; integers of ordinary size are
      represented exactly by doubles, so the concrete evaluations below are
      also evaluations of the JavaScript code.
    - The storage layer (the Supabase client) is a record of finite maps, one
      per table, threaded through every operation.  Reads are reliable.  The
      primary write of a ledger operation and the upsert of the reconciliation
      take the error reported by the storage layer, if any, as an argument.
    - A date column holds a calendar date ['YYYY-MM-DD'], embedded as a
      record of year, month and day.
    - Columns that no modelled operation reads ([nome], [category_id],
      [observacoes], the tag tables) are left out. *)

From stdpp Require Import gmap strings list fin_maps sorting.
From Stdlib Require Import ZArith Lia.

#[local] Open Scope Z_scope.

(** ** Data model *)

Inductive Status := pendente | confirmada | cancelada.

#[global] Instance Status_eq_dec : EqDecision Status.
Proof. solve_decision. Defined.

Inductive TipoConta := conta_corrente | cartao_credito | dinheiro_vivo.

(** ['receita'] or ['despesa'], the [tipo] argument of [updateOrcamento]. *)
Inductive Tipo := TReceita | TDespesa.

(** ['add'] or ['subtract'], the [operation] argument. *)
Inductive Operation := OpAdd | OpSubtract.

(** A calendar date as the text ['YYYY-MM-DD'] denotes it. *)
Record Data := mkData { d_ano : Z; d_mes : Z; d_dia : Z }.

#[global] Instance Data_eq_dec : EqDecision Data.
Proof. solve_decision. Defined.

Record Account := mkAccount {
  acc_user_id : string;
  acc_tipo_conta : TipoConta;
  acc_saldo_atual : Z;
  acc_ativo : bool
}.

(** A row of [gzen_cartao_credito], keyed by [account_id]. *)
Record Cartao := mkCartao {
  limite_total : Z;
  limite_disponivel : Z
}.

(** A row of [gzen_despesas]. *)
Record DespesaRow := mkDespesa {
  dp_id : string;
  dp_user_id : string;
  dp_account_id : string;
  dp_valor : Z;
  dp_data_despesa : Data;
  dp_status : Status;
  dp_ativo : bool;
  dp_eh_pagamento_fatura : bool;
  dp_cartao_origem_id : option string
}.

(** A row of [gzen_receitas]. *)
Record ReceitaRow := mkReceita {
  rc_id : string;
  rc_user_id : string;
  rc_account_id : string;
  rc_valor : Z;
  rc_data_receita : Data;
  rc_status : Status;
  rc_ativo : bool;
  rc_eh_salario : bool
}.

(** A row of [gzen_orcamento].  The table is keyed by its unique triple
    [(user_id, mes, ano)] (the conflict target of the upsert in
    [Orcamento.recalcular]); an update [.eq('id', orcamento.id)] of a row
    found through that triple is an update at the triple.  [meta_economia] is
    [None] while only the database default has been applied to it. *)
Record OrcamentoRow := mkOrcamento {
  receita_total : Z;
  despesa_total : Z;
  saldo_atual : Z;
  meta_economia : option Z
}.

Record DB := mkDB {
  gzen_accounts : gmap string Account;
  gzen_cartao_credito : gmap string Cartao;
  gzen_despesas : gmap string DespesaRow;
  gzen_receitas : gmap string ReceitaRow;
  gzen_orcamento : gmap (string * Z * Z) OrcamentoRow
}.

Definition set_accounts (f : gmap string Account → gmap string Account) (db : DB) : DB :=
  mkDB (f (gzen_accounts db)) (gzen_cartao_credito db) (gzen_despesas db)
       (gzen_receitas db) (gzen_orcamento db).

Definition set_cartoes (f : gmap string Cartao → gmap string Cartao) (db : DB) : DB :=
  mkDB (gzen_accounts db) (f (gzen_cartao_credito db)) (gzen_despesas db)
       (gzen_receitas db) (gzen_orcamento db).

Definition set_despesas (f : gmap string DespesaRow → gmap string DespesaRow) (db : DB) : DB :=
  mkDB (gzen_accounts db) (gzen_cartao_credito db) (f (gzen_despesas db))
       (gzen_receitas db) (gzen_orcamento db).

Definition set_receitas (f : gmap string ReceitaRow → gmap string ReceitaRow) (db : DB) : DB :=
  mkDB (gzen_accounts db) (gzen_cartao_credito db) (gzen_despesas db)
       (f (gzen_receitas db)) (gzen_orcamento db).

Definition set_orcamento
    (f : gmap (string * Z * Z) OrcamentoRow → gmap (string * Z * Z) OrcamentoRow)
    (db : DB) : DB :=
  mkDB (gzen_accounts db) (gzen_cartao_credito db) (gzen_despesas db)
       (gzen_receitas db) (f (gzen_orcamento db)).

(** ** Effects: every operation is a state transformer over the store *)

Definition Efeito (A : Type) : Type := DB → A * DB.

#[global] Instance Efeito_ret : MRet Efeito := λ A a db, (a, db).
#[global] Instance Efeito_bind : MBind Efeito :=
  λ A B f m db, let '(a, db') := m db in f a db'.

Definition exec {A} (m : Efeito A) (db : DB) : DB := (m db).2.
Definition eval {A} (m : Efeito A) (db : DB) : A := (m db).1.

(** A query and a write on the store. *)
Definition consulta {A} (f : DB → A) : Efeito A := λ db, (f db, db).
Definition modifica (f : DB → DB) : Efeito unit := λ db, (tt, f db).

(** What the ledger operations hand back: [{ x, error: null }] or
    [{ x: null, error: message }]. *)
Inductive Resultado (A : Type) :=
  | Ok (a : A)
  | Erro (msg : string).
Arguments Ok {A} a.
Arguments Erro {A} msg.

(** ** Dates *)

Definition bissexto (y : Z) : bool :=
  (y mod 4 =? 0) && (negb (y mod 100 =? 0) || (y mod 400 =? 0)).

Definition diasNoMes (y m : Z) : Z :=
  if m =? 2 then (if bissexto y then 29 else 28)
  else if (m =? 4) || (m =? 6) || (m =? 9) || (m =? 11) then 30
  else 31.

Definition data_valida (d : Data) : bool :=
  (1 <=? d_mes d) && (d_mes d <=? 12) &&
  (1 <=? d_dia d) && (d_dia d <=? diasNoMes (d_ano d) (d_mes d)).

(** Order of dates, as the database compares a date column with a literal. *)
Definition data_leb (a b : Data) : bool :=
  (d_ano a <? d_ano b) ||
  ((d_ano a =? d_ano b) &&
   ((d_mes a <? d_mes b) || ((d_mes a =? d_mes b) && (d_dia a <=? d_dia b)))).

(** The day before [d]. *)
Definition vespera (d : Data) : Data :=
  if 1 <? d_dia d then mkData (d_ano d) (d_mes d) (d_dia d - 1)
  else if 1 <? d_mes d
       then mkData (d_ano d) (d_mes d - 1) (diasNoMes (d_ano d) (d_mes d - 1))
       else mkData (d_ano d - 1) 12 31.

(** [new Date(data)] for a date-only text is the instant 00:00 UTC of that
    day.  [getMonth] and [getFullYear] then read the calendar of the
    server's local time zone at that instant: east of Greenwich (or on it) it
    is still the same day, west of it it is the evening before.  [tz] is the
    server's offset from UTC in minutes, between -24h and +24h (real zones
    lie between -12h and +14h); the result is the local calendar date. *)
Definition newDate (tz : Z) (data : Data) : Data :=
  if 0 <=? tz then data else vespera data.

(** [getMonth] counts months from zero. *)
Definition getMonth (local : Data) : Z := d_mes local - 1.
Definition getFullYear (local : Data) : Z := d_ano local.

(** [new Date(s + 'T00:00:00-03:00').toISOString().split('T')[0]]: midnight
    at UTC-3 is 03:00 UTC of the same day, so the UTC date printed by
    [toISOString] is [s] again. *)
Definition dataSaoPauloISO (s : Data) : Data := s.

(** [new Date(ano, mes, 0).getDate()]: day zero of month index [mes] is the
    last day of month index [mes - 1]; the constructor carries month overflow
    into the year and reads a year 0..99 as 1900 + year. *)
Definition ultimoDiaDoMes (ano mes : Z) : Z :=
  let y0 := if (0 <=? ano) && (ano <=? 99) then 1900 + ano else ano in
  diasNoMes (y0 + (mes - 1) / 12) ((mes - 1) mod 12 + 1).

(** JavaScript's [a || b] on an optional number [a]: [undefined] and [0] are
    both falsy. *)
Definition js_or (a : option Z) (b : Z) : Z :=
  match a with
  | Some v => if v =? 0 then b else v
  | None => b
  end.

Definition quando (b : bool) (m : Efeito unit) : Efeito unit :=
  if b then m else mret tt.

Definition confirmado (s : Status) : bool := bool_decide (s = confirmada).

(** ** BalanceMutator and BudgetAggregator

    [updateAccountBalance] and [updateOrcamento] are written out twice in
    the source, once as static methods of [Despesa] and once of [Receita],
    with the same text (the [Despesa] copy also selects [tipo_conta], which
    it never reads).  They are embedded once and named in both modules. *)

Definition com_saldo (account : Account) (novoSaldo : Z) : Account :=
  mkAccount (acc_user_id account) (acc_tipo_conta account) novoSaldo (acc_ativo account).

Definition updateAccountBalance (accountId : string) (valor : Z) (operation : Operation)
    : Efeito unit :=
  account ← consulta (λ db, gzen_accounts db !! accountId);
  match account with
  | Some account =>
      let novoSaldo :=
        match operation with
        | OpAdd => acc_saldo_atual account + valor
        | OpSubtract => acc_saldo_atual account - valor
        end in
      modifica (set_accounts <[accountId := com_saldo account novoSaldo]>)
  | None => mret tt
  end.

(** The period key [updateOrcamento] derives from a transaction date. *)
Definition periodoDe (tz : Z) (data : Data) : Z * Z :=
  let dataObj := newDate tz data in
  (getMonth dataObj + 1, getFullYear dataObj).

Definition updateOrcamento (tz : Z) (userId : string) (data : Data) (valor : Z)
    (tipo : Tipo) (operation : Operation) : Efeito unit :=
  let dataObj := newDate tz data in
  let mes := getMonth dataObj + 1 in
  let ano := getFullYear dataObj in
  orcamento ← consulta (λ db, gzen_orcamento db !! (userId, mes, ano));
  match orcamento with
  | None =>
      let novoOrcamento :=
        mkOrcamento (match tipo with TReceita => valor | TDespesa => 0 end)
                    (match tipo with TDespesa => valor | TReceita => 0 end)
                    (match tipo with TReceita => valor | TDespesa => - valor end)
                    None in
      modifica (set_orcamento <[(userId, mes, ano) := novoOrcamento]>)
  | Some orcamento =>
      let multiplicador := match operation with OpAdd => 1 | OpSubtract => -1 end in
      let valorAtualizado := valor * multiplicador in
      let updates_receita_total :=
        match tipo with
        | TReceita => Some (receita_total orcamento + valorAtualizado)
        | TDespesa => None
        end in
      let updates_despesa_total :=
        match tipo with
        | TReceita => None
        | TDespesa => Some (despesa_total orcamento + valorAtualizado)
        end in
      let novaReceita := js_or updates_receita_total (receita_total orcamento) in
      let novaDespesa := js_or updates_despesa_total (despesa_total orcamento) in
      let updates_saldo_atual := novaReceita - novaDespesa in
      let atualizado :=
        mkOrcamento (default (receita_total orcamento) updates_receita_total)
                    (default (despesa_total orcamento) updates_despesa_total)
                    updates_saldo_atual
                    (meta_economia orcamento) in
      modifica (set_orcamento <[(userId, mes, ano) := atualizado]>)
  end.

(** ** TransactionLedger, expense variant *)

(** The validated payload of [Despesa.create]. *)
Record DespesaData := mkDespesaData {
  dd_account_id : string;
  dd_valor : Z;
  dd_data_despesa : Data;
  dd_status : Status;
  dd_eh_pagamento_fatura : bool;
  dd_cartao_origem_id : option string
}.

(** The validated patch of [Despesa.update]: every field is optional. *)
Record UpdateDespesaData := mkUpdateDespesaData {
  ud_account_id : option string;
  ud_valor : option Z;
  ud_data_despesa : option Data;
  ud_status : option Status;
  ud_eh_pagamento_fatura : option bool;
  ud_cartao_origem_id : option string
}.

(** [.eq('account_id', despesa.cartao_origem_id).single()] on the card table. *)
Definition selectCartao (cartaoId : option string) (db : DB) : option Cartao :=
  match cartaoId with
  | Some c => gzen_cartao_credito db !! c
  | None => None
  end.

(** [.update({ limite_disponivel }).eq('account_id', despesa.cartao_origem_id)]. *)
Definition updateLimiteDisponivel (cartaoId : option string) (limite : Z) : Efeito unit :=
  match cartaoId with
  | Some c =>
      modifica (set_cartoes (λ t,
        match t !! c with
        | Some cartao => <[c := mkCartao (limite_total cartao) limite]> t
        | None => t
        end))
  | None => mret tt
  end.

(** [despesa.eh_pagamento_fatura && despesa.cartao_origem_id] as a condition. *)
Definition ehPagamentoFatura (despesa : DespesaRow) : bool :=
  dp_eh_pagamento_fatura despesa && bool_decide (is_Some (dp_cartao_origem_id despesa)).

Module Despesa.

Definition updateAccountBalance := updateAccountBalance.
Definition updateOrcamento := updateOrcamento.

Definition processarPagamentoFatura (despesa : DespesaRow) : Efeito unit :=
  updateAccountBalance (dp_account_id despesa) (dp_valor despesa) OpSubtract ;;
  cartao ← consulta (selectCartao (dp_cartao_origem_id despesa));
  match cartao with
  | Some cartao =>
      let novoLimiteDisponivel := limite_disponivel cartao + dp_valor despesa in
      let limiteAtualizado := Z.min novoLimiteDisponivel (limite_total cartao) in
      updateLimiteDisponivel (dp_cartao_origem_id despesa) limiteAtualizado
  | None => mret tt
  end.

Definition processarDespesa (tz : Z) (despesa : DespesaRow) (userId : string)
    : Efeito unit :=
  (if ehPagamentoFatura despesa
   then processarPagamentoFatura despesa
   else updateAccountBalance (dp_account_id despesa) (dp_valor despesa) OpSubtract) ;;
  updateOrcamento tz userId (dp_data_despesa despesa) (dp_valor despesa) TDespesa OpAdd.

Definition reverterDespesa (tz : Z) (despesa : DespesaRow) (userId : string)
    : Efeito unit :=
  (if ehPagamentoFatura despesa
   then
     updateAccountBalance (dp_account_id despesa) (dp_valor despesa) OpAdd ;;
     cartao ← consulta (selectCartao (dp_cartao_origem_id despesa));
     match cartao with
     | Some cartao =>
         let novoLimiteDisponivel := limite_disponivel cartao - dp_valor despesa in
         let limiteAtualizado := Z.max novoLimiteDisponivel 0 in
         updateLimiteDisponivel (dp_cartao_origem_id despesa) limiteAtualizado
     | None => mret tt
     end
   else updateAccountBalance (dp_account_id despesa) (dp_valor despesa) OpAdd) ;;
  updateOrcamento tz userId (dp_data_despesa despesa) (dp_valor despesa) TDespesa OpSubtract.

Definition handleBalanceUpdates (tz : Z) (despesaAntiga despesaNova : DespesaRow)
    (userId : string) : Efeito unit :=
  quando (confirmado (dp_status despesaAntiga) && negb (confirmado (dp_status despesaNova)))
         (reverterDespesa tz despesaAntiga userId) ;;
  quando (negb (confirmado (dp_status despesaAntiga)) && confirmado (dp_status despesaNova))
         (processarDespesa tz despesaNova userId) ;;
  quando (confirmado (dp_status despesaAntiga) && confirmado (dp_status despesaNova))
         (reverterDespesa tz despesaAntiga userId ;;
          processarDespesa tz despesaNova userId).

(** The lookup filters on [id] and [user_id] only. *)
Definition findById (despesaId userId : string) : Efeito (option DespesaRow) :=
  consulta (λ db,
    match gzen_despesas db !! despesaId with
    | Some despesa =>
        if bool_decide (dp_user_id despesa = userId) then Some despesa else None
    | None => None
    end).

(** [novoId] is the identifier the database gives the new row;
    [despesaError] is the error of the insert, if any. *)
Definition create (tz : Z) (userId : string) (despesaData : DespesaData)
    (novoId : string) (despesaError : option string)
    : Efeito (Resultado DespesaRow) :=
  let dataDespesa := dataSaoPauloISO (dd_data_despesa despesaData) in
  match despesaError with
  | Some message => mret (Erro message)
  | None =>
      let despesa :=
        mkDespesa novoId userId (dd_account_id despesaData) (dd_valor despesaData)
                  dataDespesa (dd_status despesaData) true
                  (dd_eh_pagamento_fatura despesaData)
                  (dd_cartao_origem_id despesaData) in
      modifica (set_despesas <[novoId := despesa]>) ;;
      quando (confirmado (dp_status despesa)) (processarDespesa tz despesa userId) ;;
      mret (Ok despesa)
  end.

Definition aplicaUpdate (updateData : UpdateDespesaData) (despesa : DespesaRow)
    : DespesaRow :=
  mkDespesa (dp_id despesa) (dp_user_id despesa)
            (default (dp_account_id despesa) (ud_account_id updateData))
            (default (dp_valor despesa) (ud_valor updateData))
            (default (dp_data_despesa despesa)
                     (dataSaoPauloISO <$> ud_data_despesa updateData))
            (default (dp_status despesa) (ud_status updateData))
            (dp_ativo despesa)
            (default (dp_eh_pagamento_fatura despesa) (ud_eh_pagamento_fatura updateData))
            (match ud_cartao_origem_id updateData with
             | Some c => Some c
             | None => dp_cartao_origem_id despesa
             end).

(** [error] is the error of the update of the row, if any. *)
Definition update (tz : Z) (despesaId userId : string) (updateData : UpdateDespesaData)
    (error : option string) : Efeito (Resultado DespesaRow) :=
  despesaAtual ← findById despesaId userId;
  match despesaAtual with
  | None => mret (Erro "Despesa não encontrada")
  | Some despesaAtual =>
      match error with
      | Some message => mret (Erro message)
      | None =>
          let despesa := aplicaUpdate updateData despesaAtual in
          modifica (set_despesas <[despesaId := despesa]>) ;;
          handleBalanceUpdates tz despesaAtual despesa userId ;;
          mret (Ok despesa)
      end
  end.

Definition com_ativo_false (despesa : DespesaRow) : DespesaRow :=
  mkDespesa (dp_id despesa) (dp_user_id despesa) (dp_account_id despesa)
            (dp_valor despesa) (dp_data_despesa despesa) (dp_status despesa) false
            (dp_eh_pagamento_fatura despesa) (dp_cartao_origem_id despesa).

(** [error] is the error of the write of the [ativo] flag, if any. *)
Definition delete (tz : Z) (despesaId userId : string) (error : option string)
    : Efeito (Resultado unit) :=
  despesa ← findById despesaId userId;
  match despesa with
  | None => mret (Erro "Despesa não encontrada")
  | Some despesa =>
      match error with
      | Some message => mret (Erro message)
      | None =>
          modifica (set_despesas <[despesaId := com_ativo_false despesa]>) ;;
          quando (confirmado (dp_status despesa)) (reverterDespesa tz despesa userId) ;;
          mret (Ok tt)
      end
  end.

End Despesa.

(** ** TransactionLedger, income variant *)

(** The validated payload of [Receita.create]. *)
Record ReceitaData := mkReceitaData {
  rd_account_id : string;
  rd_valor : Z;
  rd_data_receita : Data;
  rd_status : Status;
  rd_eh_salario : bool
}.

(** The validated patch of [Receita.update]. *)
Record UpdateReceitaData := mkUpdateReceitaData {
  ur_account_id : option string;
  ur_valor : option Z;
  ur_data_receita : option Data;
  ur_status : option Status;
  ur_eh_salario : option bool
}.

Module Receita.

Definition updateAccountBalance := updateAccountBalance.
Definition updateOrcamento := updateOrcamento.

Definition findById (receitaId userId : string) : Efeito (option ReceitaRow) :=
  consulta (λ db,
    match gzen_receitas db !! receitaId with
    | Some receita =>
        if bool_decide (rc_user_id receita = userId) then Some receita else None
    | None => None
    end).

Definition create (tz : Z) (userId : string) (receitaData : ReceitaData)
    (novoId : string) (receitaError : option string)
    : Efeito (Resultado ReceitaRow) :=
  let dataReceita := dataSaoPauloISO (rd_data_receita receitaData) in
  match receitaError with
  | Some message => mret (Erro message)
  | None =>
      let receita :=
        mkReceita novoId userId (rd_account_id receitaData) (rd_valor receitaData)
                  dataReceita (rd_status receitaData) true
                  (rd_eh_salario receitaData) in
      modifica (set_receitas <[novoId := receita]>) ;;
      quando (confirmado (rc_status receita))
        (updateAccountBalance (rc_account_id receita) (rc_valor receita) OpAdd ;;
         updateOrcamento tz userId (rc_data_receita receita) (rc_valor receita)
                         TReceita OpAdd) ;;
      mret (Ok receita)
  end.

Definition handleBalanceUpdates (tz : Z) (receitaAntiga receitaNova : ReceitaRow)
    (userId : string) : Efeito unit :=
  quando (confirmado (rc_status receitaAntiga) && negb (confirmado (rc_status receitaNova)))
    (updateAccountBalance (rc_account_id receitaAntiga) (rc_valor receitaAntiga) OpSubtract ;;
     updateOrcamento tz userId (rc_data_receita receitaAntiga) (rc_valor receitaAntiga)
                     TReceita OpSubtract) ;;
  quando (negb (confirmado (rc_status receitaAntiga)) && confirmado (rc_status receitaNova))
    (updateAccountBalance (rc_account_id receitaNova) (rc_valor receitaNova) OpAdd ;;
     updateOrcamento tz userId (rc_data_receita receitaNova) (rc_valor receitaNova)
                     TReceita OpAdd) ;;
  quando (confirmado (rc_status receitaAntiga) && confirmado (rc_status receitaNova))
    (updateAccountBalance (rc_account_id receitaAntiga) (rc_valor receitaAntiga) OpSubtract ;;
     updateOrcamento tz userId (rc_data_receita receitaAntiga) (rc_valor receitaAntiga)
                     TReceita OpSubtract ;;
     updateAccountBalance (rc_account_id receitaNova) (rc_valor receitaNova) OpAdd ;;
     updateOrcamento tz userId (rc_data_receita receitaNova) (rc_valor receitaNova)
                     TReceita OpAdd).

Definition aplicaUpdate (updateData : UpdateReceitaData) (receita : ReceitaRow)
    : ReceitaRow :=
  mkReceita (rc_id receita) (rc_user_id receita)
            (default (rc_account_id receita) (ur_account_id updateData))
            (default (rc_valor receita) (ur_valor updateData))
            (default (rc_data_receita receita)
                     (dataSaoPauloISO <$> ur_data_receita updateData))
            (default (rc_status receita) (ur_status updateData))
            (rc_ativo receita)
            (default (rc_eh_salario receita) (ur_eh_salario updateData)).

Definition update (tz : Z) (receitaId userId : string) (updateData : UpdateReceitaData)
    (error : option string) : Efeito (Resultado ReceitaRow) :=
  receitaAtual ← findById receitaId userId;
  match receitaAtual with
  | None => mret (Erro "Receita não encontrada")
  | Some receitaAtual =>
      match error with
      | Some message => mret (Erro message)
      | None =>
          let receita := aplicaUpdate updateData receitaAtual in
          modifica (set_receitas <[receitaId := receita]>) ;;
          handleBalanceUpdates tz receitaAtual receita userId ;;
          mret (Ok receita)
      end
  end.

Definition com_ativo_false (receita : ReceitaRow) : ReceitaRow :=
  mkReceita (rc_id receita) (rc_user_id receita) (rc_account_id receita)
            (rc_valor receita) (rc_data_receita receita) (rc_status receita) false
            (rc_eh_salario receita).

Definition delete (tz : Z) (receitaId userId : string) (error : option string)
    : Efeito (Resultado unit) :=
  receita ← findById receitaId userId;
  match receita with
  | None => mret (Erro "Receita não encontrada")
  | Some receita =>
      match error with
      | Some message => mret (Erro message)
      | None =>
          modifica (set_receitas <[receitaId := com_ativo_false receita]>) ;;
          quando (confirmado (rc_status receita))
            (updateAccountBalance (rc_account_id receita) (rc_valor receita) OpSubtract ;;
             updateOrcamento tz userId (rc_data_receita receita) (rc_valor receita)
                             TReceita OpSubtract) ;;
          mret (Ok tt)
      end
  end.

End Receita.

(** ** BudgetPeriodResolver and reconciliation *)

(** [array.reduce((sum, x) => sum + parseFloat(x.valor), 0)]. *)
Definition reduceValor {A} (valor : A → Z) (rows : list A) : Z :=
  foldl (λ sum x, sum + valor x) 0 rows.

Module Orcamento.

(** [createError] is the error of the insert of the zeroed row, if any;
    the method answers [null] on an error. *)
Definition findOrCreateByPeriod (userId : string) (mes ano : Z)
    (createError : option string) : Efeito (option OrcamentoRow) :=
  orcamento ← consulta (λ db, gzen_orcamento db !! (userId, mes, ano));
  match orcamento with
  | Some orcamento => mret (Some orcamento)
  | None =>
      match createError with
      | Some _ => mret None
      | None =>
          let novoOrcamento := mkOrcamento 0 0 0 (Some 0) in
          modifica (set_orcamento <[(userId, mes, ano) := novoOrcamento]>) ;;
          mret (Some novoOrcamento)
      end
  end.

(** The rows of [gzen_receitas] selected by
    [.eq('user_id').eq('status','confirmada').eq('ativo',true)
     .gte('data_receita', dataInicio).lte('data_receita', dataFim)]. *)
Definition selectReceitas (userId : string) (dataInicio dataFim : Data) (db : DB)
    : list ReceitaRow :=
  filter (λ r, rc_user_id r = userId ∧ rc_status r = confirmada ∧ rc_ativo r = true ∧
               data_leb dataInicio (rc_data_receita r) = true ∧
               data_leb (rc_data_receita r) dataFim = true)
         (map_to_list (gzen_receitas db)).*2.

Definition selectDespesas (userId : string) (dataInicio dataFim : Data) (db : DB)
    : list DespesaRow :=
  filter (λ d, dp_user_id d = userId ∧ dp_status d = confirmada ∧ dp_ativo d = true ∧
               data_leb dataInicio (dp_data_despesa d) = true ∧
               data_leb (dp_data_despesa d) dataFim = true)
         (map_to_list (gzen_despesas db)).*2.

(** [.upsert([{ user_id, mes, ano, receita_total, despesa_total,
    saldo_atual }], { onConflict: 'user_id,mes,ano' })]: the three totals
    are written, the other columns of an existing row are kept. *)
Definition upsertTotais (userId : string) (mes ano : Z)
    (receitaTotal despesaTotal saldoAtual : Z) : Efeito OrcamentoRow :=
  existente ← consulta (λ db, gzen_orcamento db !! (userId, mes, ano));
  let orcamento :=
    mkOrcamento receitaTotal despesaTotal saldoAtual
                (match existente with Some o => meta_economia o | None => None end) in
  modifica (set_orcamento <[(userId, mes, ano) := orcamento]>) ;;
  mret orcamento.

(** [error] is the error of the upsert, if any. *)
Definition recalcular (userId : string) (mes ano : Z) (error : option string)
    : Efeito (Resultado OrcamentoRow) :=
  let dataInicio := mkData ano mes 1 in
  let ultimoDia := ultimoDiaDoMes ano mes in
  let dataFim := mkData ano mes ultimoDia in
  receitas ← consulta (selectReceitas userId dataInicio dataFim);
  despesas ← consulta (selectDespesas userId dataInicio dataFim);
  let receitaTotal := js_or (Some (reduceValor rc_valor receitas)) 0 in
  let despesaTotal := js_or (Some (reduceValor dp_valor despesas)) 0 in
  let saldoAtual := receitaTotal - despesaTotal in
  match error with
  | Some message => mret (Erro message)
  | None =>
      orcamento ← upsertTotais userId mes ano receitaTotal despesaTotal saldoAtual;
      mret (Ok orcamento)
  end.

End Orcamento.

(** ** Observations on the store and the properties under study *)

(** The consistency invariant of a budget period row. *)
Definition invariante (o : OrcamentoRow) : Prop :=
  saldo_atual o = receita_total o - despesa_total o.

Definition orcamentoConsistente (db : DB) : Prop :=
  ∀ periodo o, gzen_orcamento db !! periodo = Some o → invariante o.

(** The balance of an account, when the account exists. *)
Definition saldoDe (db : DB) (accountId : string) : option Z :=
  acc_saldo_atual <$> gzen_accounts db !! accountId.

(** The available limit of a card, when the card exists. *)
Definition limiteDisponivelDe (db : DB) (cartaoId : string) : option Z :=
  limite_disponivel <$> gzen_cartao_credito db !! cartaoId.

(** The totals of a period; a period without a row reads as the zeroed row
    that [Orcamento.findOrCreateByPeriod] would create for it. *)
Definition despesaTotalDe (db : DB) (periodo : string * Z * Z) : Z :=
  from_option despesa_total 0 (gzen_orcamento db !! periodo).

Definition receitaTotalDe (db : DB) (periodo : string * Z * Z) : Z :=
  from_option receita_total 0 (gzen_orcamento db !! periodo).

(** The derived state: everything but the ledger tables themselves. *)
Definition derivado (db : DB)
    : gmap string Account * gmap string Cartao * gmap (string * Z * Z) OrcamentoRow :=
  (gzen_accounts db, gzen_cartao_credito db, gzen_orcamento db).

(** What one balance mutation does to an account row. *)
Definition ajustaSaldo (valor : Z) (operation : Operation) (account : Account) : Account :=
  com_saldo account
    match operation with
    | OpAdd => acc_saldo_atual account + valor
    | OpSubtract => acc_saldo_atual account - valor
    end.

(** What the forward and the reverse step of an invoice payment do to a
    card row. *)
Definition restauraLimite (valor : Z) (cartao : Cartao) : Cartao :=
  mkCartao (limite_total cartao)
           (Z.min (limite_disponivel cartao + valor) (limite_total cartao)).

Definition reduzLimite (valor : Z) (cartao : Cartao) : Cartao :=
  mkCartao (limite_total cartao) (Z.max (limite_disponivel cartao - valor) 0).

Definition noCartao (f : Cartao → Cartao) (cartaoId : option string) (db : DB) : DB :=
  match cartaoId with
  | Some c => set_cartoes (alter f c) db
  | None => db
  end.

(** The direct sum of the reconciliation property: the amounts of the
    owner's active, confirmed transactions dated in month [mes] of [ano]. *)
Definition somaDireta {A} (valor : A → Z) (rows : list A) : Z :=
  foldr (λ x soma, valor x + soma) 0 rows.

Definition receitaDoPeriodo (owner : string) (mes ano : Z) (r : ReceitaRow) : Prop :=
  rc_user_id r = owner ∧ rc_ativo r = true ∧ rc_status r = confirmada ∧
  d_mes (rc_data_receita r) = mes ∧ d_ano (rc_data_receita r) = ano.

Definition despesaDoPeriodo (owner : string) (mes ano : Z) (d : DespesaRow) : Prop :=
  dp_user_id d = owner ∧ dp_ativo d = true ∧ dp_status d = confirmada ∧
  d_mes (dp_data_despesa d) = mes ∧ d_ano (dp_data_despesa d) = ano.

#[global] Instance receitaDoPeriodo_dec owner mes ano r :
  Decision (receitaDoPeriodo owner mes ano r).
Proof. unfold receitaDoPeriodo. apply _. Defined.

#[global] Instance despesaDoPeriodo_dec owner mes ano d :
  Decision (despesaDoPeriodo owner mes ano d).
Proof. unfold despesaDoPeriodo. apply _. Defined.

Definition somaDiretaReceitas (db : DB) (owner : string) (mes ano : Z) : Z :=
  somaDireta rc_valor
    (filter (receitaDoPeriodo owner mes ano) (map_to_list (gzen_receitas db)).*2).

Definition somaDiretaDespesas (db : DB) (owner : string) (mes ano : Z) : Z :=
  somaDireta dp_valor
    (filter (despesaDoPeriodo owner mes ano) (map_to_list (gzen_despesas db)).*2).

(** Every stored transaction date is a date of the calendar, as a date
    column guarantees. *)
Definition datasValidas (db : DB) : bool :=
  forallb (λ r, data_valida (rc_data_receita r)) (map_to_list (gzen_receitas db)).*2 &&
  forallb (λ d, data_valida (dp_data_despesa d)) (map_to_list (gzen_despesas db)).*2.

(** The row [updateOrcamento] leaves at the period it resolves, from the row
    it found there. *)
Definition proximoOrcamento (tipo : Tipo) (operation : Operation) (valor : Z)
    (existente : option OrcamentoRow) : OrcamentoRow :=
  match existente with
  | None =>
      mkOrcamento (match tipo with TReceita => valor | TDespesa => 0 end)
                  (match tipo with TDespesa => valor | TReceita => 0 end)
                  (match tipo with TReceita => valor | TDespesa => - valor end)
                  None
  | Some o =>
      let delta := valor * match operation with OpAdd => 1 | OpSubtract => -1 end in
      match tipo with
      | TReceita =>
          mkOrcamento (receita_total o + delta) (despesa_total o)
                      (js_or (Some (receita_total o + delta)) (receita_total o)
                       - despesa_total o)
                      (meta_economia o)
      | TDespesa =>
          mkOrcamento (receita_total o) (despesa_total o + delta)
                      (receita_total o
                       - js_or (Some (despesa_total o + delta)) (despesa_total o))
                      (meta_economia o)
      end
  end.

Definition chaveOrcamento (tz : Z) (userId : string) (data : Data) : string * Z * Z :=
  (userId, (periodoDe tz data).1, (periodoDe tz data).2).

Definition passoOrcamento (tz : Z) (userId : string) (data : Data) (valor : Z)
    (tipo : Tipo) (operation : Operation) (db : DB) : DB :=
  set_orcamento (λ t, <[chaveOrcamento tz userId data :=
                          proximoOrcamento tipo operation valor
                            (t !! chaveOrcamento tz userId data)]> t) db.

(** The account and card part of applying and of reversing an expense. *)
Definition passoContaDespesa (operation : Operation) (despesa : DespesaRow) (db : DB) : DB :=
  let db1 := set_accounts (alter (ajustaSaldo (dp_valor despesa) operation)
                                 (dp_account_id despesa)) db in
  if ehPagamentoFatura despesa
  then noCartao (match operation with
                 | OpSubtract => restauraLimite (dp_valor despesa)
                 | OpAdd => reduzLimite (dp_valor despesa)
                 end) (dp_cartao_origem_id despesa) db1
  else db1.

(** The account and budget steps of applying ([OpAdd]) and of reversing
    ([OpSubtract]) an income. *)

Definition passoReceita (tz : Z) (userId : string) (operation : Operation)
    (receita : ReceitaRow) (db : DB) : DB :=
  passoOrcamento tz userId (rc_data_receita receita) (rc_valor receita) TReceita operation
    (set_accounts (alter (ajustaSaldo (rc_valor receita) operation)
                         (rc_account_id receita)) db).


(** ** Sample data for the concrete instances *)

Definition ex_data : Data := mkData 2024 3 15.

Definition ex_conta (saldo : Z) : Account := mkAccount "u" conta_corrente saldo true.

(** An invoice payment of [valor] from account A towards card C. *)
Definition ex_pagamento (valor : Z) : DespesaRow :=
  mkDespesa "d1" "u" "A" valor ex_data confirmada true true (Some "C").

(** A store with account A and card C. *)
Definition ex_db_cartao (saldo total disponivel valor : Z) : DB :=
  mkDB {[ "A" := ex_conta saldo ]} {[ "C" := mkCartao total disponivel ]}
       {[ "d1" := ex_pagamento valor ]} ∅ ∅.

(** A store with account A alone. *)
Definition ex_db_conta (saldo : Z) : DB := mkDB {[ "A" := ex_conta saldo ]} ∅ ∅ ∅ ∅.

(** A plain expense of [valor] against account A. *)
Definition ex_despesa (valor : Z) (status : Status) (ativo : bool) : DespesaRow :=
  mkDespesa "d1" "u" "A" valor ex_data status ativo false None.

Definition ex_receita (valor : Z) (status : Status) (ativo : bool) : ReceitaRow :=
  mkReceita "r1" "u" "A" valor ex_data status ativo false.

(** A store holding the expense [d1] and the income [r1] against account A,
    with the row of their period. *)
Definition ex_db_ledger (contas : gmap string Account) (despesa : DespesaRow)
    (receita : ReceitaRow) (orcamento : OrcamentoRow) : DB :=
  mkDB contas ∅ {[ "d1" := despesa ]} {[ "r1" := receita ]} {[ ("u", 3, 2024) := orcamento ]}.


(** ** Further observations and the read side of the models *)

(** The incremental totals of a period agree with the ledger: the stored
    expense (income) total is the direct sum over the owner's active,
    confirmed expenses (incomes) of that month. *)
Definition despesasAcompanham (db : DB) (owner : string) (mes ano : Z) : Prop :=
  despesaTotalDe db (owner, mes, ano) = somaDiretaDespesas db owner mes ano.

Definition receitasAcompanham (db : DB) (owner : string) (mes ano : Z) : Prop :=
  receitaTotalDe db (owner, mes, ano) = somaDiretaReceitas db owner mes ano.

(** What a row adds to the direct sum of a period. *)
Definition parcelaDespesa (owner : string) (mes ano : Z) (d : DespesaRow) : Z :=
  if decide (despesaDoPeriodo owner mes ano d) then dp_valor d else 0.

Definition parcelaReceita (owner : string) (mes ano : Z) (r : ReceitaRow) : Z :=
  if decide (receitaDoPeriodo owner mes ano r) then rc_valor r else 0.

(** ** Monthly summaries ([getResumoMensal]) *)

(** The object [resumo] of [Receita.getResumoMensal]. *)
Record ResumoReceitas := mkResumoReceitas {
  rr_total_confirmadas : Z;
  rr_total_pendentes : Z;
  rr_total_salarios : Z;
  rr_total_outras : Z;
  rr_quantidade_receitas : Z
}.

(** The object [resumo] of [Despesa.getResumoMensal]; [por_categoria] is the
    object used as a map from category name to amount. *)
Record ResumoDespesas := mkResumoDespesas {
  rs_total_confirmadas : Z;
  rs_total_pendentes : Z;
  rs_total_pagamento_faturas : Z;
  rs_total_outras : Z;
  rs_quantidade_despesas : Z;
  rs_por_categoria : gmap string Z
}.

Module ReceitaResumo.

(** The rows selected by
    [.eq('user_id').eq('ativo', true).gte('data_receita', dataInicio)
     .lte('data_receita', dataFim)]. *)
Definition selectReceitas (userId : string) (dataInicio dataFim : Data) (db : DB)
    : list ReceitaRow :=
  filter (λ r, rc_user_id r = userId ∧ rc_ativo r = true ∧
               data_leb dataInicio (rc_data_receita r) = true ∧
               data_leb (rc_data_receita r) dataFim = true)
         (map_to_list (gzen_receitas db)).*2.

(** The body of [receitas.forEach]. *)
Definition acumula (resumo : ResumoReceitas) (receita : ReceitaRow) : ResumoReceitas :=
  let valor := rc_valor receita in
  let total_confirmadas :=
    if bool_decide (rc_status receita = confirmada)
    then rr_total_confirmadas resumo + valor else rr_total_confirmadas resumo in
  let total_pendentes :=
    if bool_decide (rc_status receita = confirmada) then rr_total_pendentes resumo
    else if bool_decide (rc_status receita = pendente)
         then rr_total_pendentes resumo + valor else rr_total_pendentes resumo in
  let total_salarios :=
    if rc_eh_salario receita then rr_total_salarios resumo + valor
    else rr_total_salarios resumo in
  let total_outras :=
    if rc_eh_salario receita then rr_total_outras resumo
    else rr_total_outras resumo + valor in
  mkResumoReceitas total_confirmadas total_pendentes total_salarios total_outras
                   (rr_quantidade_receitas resumo).

(** [error] is the error of the query, if any; the method answers [null]
    on an error. *)
Definition getResumoMensal (userId : string) (mes ano : Z) (error : option string)
    : Efeito (option ResumoReceitas) :=
  let dataInicio := mkData ano mes 1 in
  let ultimoDia := ultimoDiaDoMes ano mes in
  let dataFim := mkData ano mes ultimoDia in
  receitas ← consulta (selectReceitas userId dataInicio dataFim);
  match error with
  | Some _ => mret None
  | None =>
      let resumo := mkResumoReceitas 0 0 0 0 (Z.of_nat (length receitas)) in
      mret (Some (foldl acumula resumo receitas))
  end.

End ReceitaResumo.

Module DespesaResumo.

Definition selectDespesas (userId : string) (dataInicio dataFim : Data) (db : DB)
    : list DespesaRow :=
  filter (λ d, dp_user_id d = userId ∧ dp_ativo d = true ∧
               data_leb dataInicio (dp_data_despesa d) = true ∧
               data_leb (dp_data_despesa d) dataFim = true)
         (map_to_list (gzen_despesas db)).*2.

(** [despesa.gzen_categories?.nome || 'Sem categoria'].  [categoriaNome]
    is the embedded resource [gzen_categories(nome)] as the storage layer
    resolves it for the expense with the given id: [None] when the expense
    has no category. *)
Definition categoriaDe (categoriaNome : string → option string) (despesa : DespesaRow)
    : string :=
  match categoriaNome (dp_id despesa) with
  | Some nome => if decide (nome = "") then "Sem categoria" else nome
  | None => "Sem categoria"
  end.

(** The body of [despesas.forEach].  [por_categoria] is read as a map of
    its own keys: a category named like a member that every JS object
    inherits ([constructor], [toString], ...) is outside this model. *)
Definition acumula (categoriaNome : string → option string)
    (resumo : ResumoDespesas) (despesa : DespesaRow) : ResumoDespesas :=
  let valor := dp_valor despesa in
  let total_confirmadas :=
    if bool_decide (dp_status despesa = confirmada)
    then rs_total_confirmadas resumo + valor else rs_total_confirmadas resumo in
  let total_pendentes :=
    if bool_decide (dp_status despesa = confirmada) then rs_total_pendentes resumo
    else if bool_decide (dp_status despesa = pendente)
         then rs_total_pendentes resumo + valor else rs_total_pendentes resumo in
  let total_pagamento_faturas :=
    if dp_eh_pagamento_fatura despesa then rs_total_pagamento_faturas resumo + valor
    else rs_total_pagamento_faturas resumo in
  let total_outras :=
    if dp_eh_pagamento_fatura despesa then rs_total_outras resumo
    else rs_total_outras resumo + valor in
  let categoria := categoriaDe categoriaNome despesa in
  let atual := js_or (rs_por_categoria resumo !! categoria) 0 in
  mkResumoDespesas total_confirmadas total_pendentes total_pagamento_faturas total_outras
                   (rs_quantidade_despesas resumo)
                   (<[categoria := atual + valor]> (rs_por_categoria resumo)).

Definition getResumoMensal (categoriaNome : string → option string)
    (userId : string) (mes ano : Z) (error : option string)
    : Efeito (option ResumoDespesas) :=
  let dataInicio := mkData ano mes 1 in
  let ultimoDia := ultimoDiaDoMes ano mes in
  let dataFim := mkData ano mes ultimoDia in
  despesas ← consulta (selectDespesas userId dataInicio dataFim);
  match error with
  | Some _ => mret None
  | None =>
      let resumo := mkResumoDespesas 0 0 0 0 (Z.of_nat (length despesas)) ∅ in
      mret (Some (foldl (acumula categoriaNome) resumo despesas))
  end.

End DespesaResumo.


(** ** The budget goal ([Orcamento.update]) and the yearly summary *)

(** The answer of a controller: [res.status(code).json({ success, message,
    data })]. *)
Record Resposta (A : Type) := mkResposta {
  res_status : Z;
  res_success : bool;
  res_message : string;
  res_data : option A
}.
Arguments mkResposta {A} _ _ _ _.
Arguments res_status {A} _.
Arguments res_success {A} _.
Arguments res_message {A} _.
Arguments res_data {A} _.

(** The body of the budget update as [orcamentoSchema] reads it;
    [observacoes] is not a column of the modelled row. *)
Record OrcamentoBody := mkOrcamentoBody {
  ob_mes : Z;
  ob_ano : Z;
  ob_meta_economia : option Z
}.

(** [orcamentoSchema.parse] succeeds. *)
Definition orcamentoSchema (body : OrcamentoBody) : bool :=
  (1 <=? ob_mes body) && (ob_mes body <=? 12) &&
  (2020 <=? ob_ano body) && (ob_ano body <=? 2050) &&
  match ob_meta_economia body with
  | Some meta => 0 <=? meta
  | None => true
  end.

Module OrcamentoMeta.

(** [Orcamento.update(userId, mes, ano, updateData)] for a patch whose
    [mes] and [ano] are the ones filtered on, as the controller passes it:
    the period columns are rewritten with their own values.  [.single()]
    fails with the message [semLinha] of the storage layer when no row
    matches; [error] is any other error of the write. *)
Definition update (userId : string) (mes ano : Z) (updateData : OrcamentoBody)
    (semLinha : string) (error : option string) : Efeito (Resultado OrcamentoRow) :=
  existente ← consulta (λ db, gzen_orcamento db !! (userId, mes, ano));
  match existente, error with
  | _, Some message => mret (Erro message)
  | None, None => mret (Erro semLinha)
  | Some existente, None =>
      let orcamento :=
        mkOrcamento (receita_total existente) (despesa_total existente)
                    (saldo_atual existente)
                    (match ob_meta_economia updateData with
                     | Some meta => Some meta
                     | None => meta_economia existente
                     end) in
      modifica (set_orcamento <[(userId, mes, ano) := orcamento]>) ;;
      mret (Ok orcamento)
  end.

End OrcamentoMeta.

Module OrcamentoController.

(** [OrcamentoController.update]: a body that does not parse is answered
    with 400 before anything is read. *)
Definition update (userId : string) (body : OrcamentoBody)
    (semLinha : string) (error : option string) : Efeito (Resposta OrcamentoRow) :=
  if orcamentoSchema body
  then
    r ← OrcamentoMeta.update userId (ob_mes body) (ob_ano body) body semLinha error;
    match r with
    | Erro message => mret (mkResposta 400 false message None)
    | Ok orcamento =>
        mret (mkResposta 200 true "Orçamento atualizado com sucesso" (Some orcamento))
    end
  else mret (mkResposta 400 false "Dados inválidos" None).

End OrcamentoController.

(** A budget row with its [mes] column. *)
Definition OrcamentoDoMes : Type := Z * OrcamentoRow.

(** [{ ...orc, saldo_calculado }]. *)
Record OrcamentoComSaldo := mkOrcamentoComSaldo {
  ocs_mes : Z;
  ocs_orcamento : OrcamentoRow;
  saldo_calculado : Z
}.

(** The object [resumo] of [Orcamento.getResumoAnual]; [meta_economia_ano]
    is [None] when the sum is not a number, which is what adding
    [parseFloat(null)] gives. *)
Record ResumoAnual := mkResumoAnual {
  ra_ano : Z;
  receita_total_ano : Z;
  despesa_total_ano : Z;
  saldo_total_ano : Z;
  meta_economia_ano : option Z;
  melhor_mes : option OrcamentoComSaldo;
  pior_mes : option OrcamentoComSaldo;
  meses : list OrcamentoDoMes
}.

(** [.order('mes')]. *)
Definition porMes (a b : OrcamentoDoMes) : Prop := a.1 ≤ b.1.

#[global] Instance porMes_dec a b : Decision (porMes a b).
Proof. unfold porMes. apply _. Defined.

#[global] Instance porMes_total : Total porMes.
Proof. intros a b. unfold porMes. lia. Qed.

(** [array.reduce(f)] without an initial value, on a non-empty array. *)
Definition reduce1 {A} (f : A → A → A) (l : list A) : option A :=
  match l with
  | [] => None
  | x :: l => Some (foldl f x l)
  end.

Module OrcamentoResumo.

(** [.eq('user_id', userId).eq('ano', ano).order('mes')]. *)
Definition selectOrcamentos (userId : string) (ano : Z) (db : DB) : list OrcamentoDoMes :=
  merge_sort porMes
    (omap (λ linha : string * Z * Z * OrcamentoRow,
             let '(u, m, a, o) := linha in
             if decide (u = userId ∧ a = ano) then Some (m, o) else None)
          (map_to_list (gzen_orcamento db))).

Definition comSaldo (orc : OrcamentoDoMes) : OrcamentoComSaldo :=
  mkOrcamentoComSaldo orc.1 orc.2 (receita_total orc.2 - despesa_total orc.2).

(** The body of [orcamentos.forEach]. *)
Definition acumula (resumo : ResumoAnual) (orc : OrcamentoDoMes) : ResumoAnual :=
  mkResumoAnual (ra_ano resumo)
    (receita_total_ano resumo + receita_total orc.2)
    (despesa_total_ano resumo + despesa_total orc.2)
    (saldo_total_ano resumo)
    (match meta_economia_ano resumo, meta_economia orc.2 with
     | Some soma, Some meta => Some (soma + meta)
     | _, _ => None
     end)
    (melhor_mes resumo) (pior_mes resumo) (meses resumo).

Definition melhor (prev current : OrcamentoComSaldo) : OrcamentoComSaldo :=
  if saldo_calculado current <? saldo_calculado prev then prev else current.

Definition pior (prev current : OrcamentoComSaldo) : OrcamentoComSaldo :=
  if saldo_calculado prev <? saldo_calculado current then prev else current.

(** [error] is the error of the query, if any; the method answers [null]
    on an error. *)
Definition getResumoAnual (userId : string) (ano : Z) (error : option string)
    : Efeito (option ResumoAnual) :=
  orcamentos ← consulta (selectOrcamentos userId ano);
  match error with
  | Some _ => mret None
  | None =>
      let resumo := mkResumoAnual ano 0 0 0 (Some 0) None None orcamentos in
      if 0 <? Z.of_nat (length orcamentos)
      then
        let resumo := foldl acumula resumo orcamentos in
        let orcamentosComSaldo := comSaldo <$> orcamentos in
        mret (Some (mkResumoAnual (ra_ano resumo)
                      (receita_total_ano resumo) (despesa_total_ano resumo)
                      (receita_total_ano resumo - despesa_total_ano resumo)
                      (meta_economia_ano resumo)
                      (reduce1 melhor orcamentosComSaldo)
                      (reduce1 pior orcamentosComSaldo)
                      (meses resumo)))
      else mret (Some resumo)
  end.

End OrcamentoResumo.

(** A store with the rows of two months of one year. *)
Definition ex_db_ano (marco abril : OrcamentoRow) : DB :=
  mkDB ∅ ∅ ∅ ∅ {[ ("u", 3, 2024) := marco; ("u", 4, 2024) := abril ]}.

(** ** The controllers of the ledger *)

#[global] Instance TipoConta_eq_dec : EqDecision TipoConta.
Proof. solve_decision. Defined.

(** An account row with its [id]. *)
Definition AccountComId : Type := string * Account.

Module FinanceData.

(** [if (tipo) query = query.eq('tipo_conta', tipo)]. *)
Definition doTipo (tipo : option TipoConta) (account : Account) : bool :=
  match tipo with
  | Some t => bool_decide (acc_tipo_conta account = t)
  | None => true
  end.

(** [.eq('user_id', userId).eq('ativo', true)], and [.eq('tipo_conta',
    tipo)] when [tipo] is given; the method answers [[]] on a query error.
    The order by name is not modelled: the callers look an account up by
    its identifier, which no two rows share. *)
Definition getUserAccounts (userId : string) (tipo : option TipoConta)
    (error : option string) : Efeito (list AccountComId) :=
  accounts ← consulta (λ db,
    filter (λ acc : AccountComId,
              acc_user_id acc.2 = userId ∧ acc_ativo acc.2 = true ∧
              doTipo tipo acc.2 = true)
           (map_to_list (gzen_accounts db)));
  match error with
  | Some _ => mret []
  | None => mret accounts
  end.

End FinanceData.

(** The block of [DespesaController.create] that validates an invoice
    payment: the message of the 400 answer, if any.  An identifier that is
    given is a UUID, so it is never the empty text. *)
Definition validaPagamentoFatura (validatedData : DespesaData)
    (userAccounts : list AccountComId) (accountExists : AccountComId) : option string :=
  if dd_eh_pagamento_fatura validatedData
  then
    match dd_cartao_origem_id validatedData with
    | None => Some "Para pagamento de fatura, informe o cartão de origem"
    | Some cartaoId =>
        match List.find (λ acc : AccountComId,
                           bool_decide (acc.1 = cartaoId) &&
                           bool_decide (acc_tipo_conta acc.2 = cartao_credito))
                        userAccounts with
        | None => Some "Cartão de origem não encontrado ou não é um cartão de crédito"
        | Some _ =>
            if bool_decide (acc_tipo_conta accountExists.2 = cartao_credito)
            then Some "Não é possível pagar fatura usando outro cartão de crédito"
            else None
        end
    end
  else None.

Module DespesaController.

(** [validatedData] is the parsed body; [accountsError], [novoId] and
    [despesaError] are what the storage layer answers to the account query
    and to the insert. *)
Definition create (tz : Z) (userId : string) (validatedData : DespesaData)
    (accountsError : option string) (novoId : string) (despesaError : option string)
    : Efeito (Resposta DespesaRow) :=
  userAccounts ← FinanceData.getUserAccounts userId None accountsError;
  match List.find (λ acc : AccountComId,
                     bool_decide (acc.1 = dd_account_id validatedData)) userAccounts with
  | None =>
      mret (mkResposta 400 false "Conta não encontrada ou não pertence ao usuário" None)
  | Some accountExists =>
      match validaPagamentoFatura validatedData userAccounts accountExists with
      | Some message => mret (mkResposta 400 false message None)
      | None =>
          r ← Despesa.create tz userId validatedData novoId despesaError;
          match r with
          | Erro message => mret (mkResposta 400 false message None)
          | Ok despesa =>
              mret (mkResposta 201 true "Despesa criada com sucesso" (Some despesa))
          end
      end
  end.

(** The account is looked up only when the patch names an account other
    than the stored one. *)
Definition update (tz : Z) (id userId : string) (validatedData : UpdateDespesaData)
    (accountsError : option string) (error : option string)
    : Efeito (Resposta DespesaRow) :=
  despesaExistente ← Despesa.findById id userId;
  match despesaExistente with
  | None => mret (mkResposta 404 false "Despesa não encontrada" None)
  | Some despesaExistente =>
      accountExists ←
        match ud_account_id validatedData with
        | Some accountId =>
            if bool_decide (accountId ≠ dp_account_id despesaExistente)
            then
              userAccounts ← FinanceData.getUserAccounts userId None accountsError;
              mret (bool_decide (is_Some
                      (List.find (λ acc : AccountComId, bool_decide (acc.1 = accountId))
                                 userAccounts)))
            else mret true
        | None => mret true
        end;
      if accountExists : bool
      then
        r ← Despesa.update tz id userId validatedData error;
        match r with
        | Erro message => mret (mkResposta 400 false message None)
        | Ok despesa =>
            mret (mkResposta 200 true "Despesa atualizada com sucesso" (Some despesa))
        end
      else
        mret (mkResposta 400 false
                "Nova conta não encontrada ou não pertence ao usuário" None)
  end.

End DespesaController.

(** JavaScript's [!a] and [a > b] on optional numbers: [undefined] and [0]
    are falsy, and a comparison with [undefined] is false. *)
Definition js_not (a : option Z) : bool :=
  match a with
  | Some v => v =? 0
  | None => true
  end.

Definition js_gt (a b : option Z) : bool :=
  match a, b with
  | Some x, Some y => y <? x
  | _, _ => false
  end.

Module ReceitaController.

(** [parcelaSalario] and [totalParcelasSalario] are the two optional
    fields of the parsed body that the ledger row of the model does not
    keep. *)
Definition create (tz : Z) (userId : string) (validatedData : ReceitaData)
    (parcelaSalario totalParcelasSalario : option Z)
    (accountsError : option string) (novoId : string) (receitaError : option string)
    : Efeito (Resposta ReceitaRow) :=
  userAccounts ← FinanceData.getUserAccounts userId None accountsError;
  match List.find (λ acc : AccountComId,
                     bool_decide (acc.1 = rd_account_id validatedData)) userAccounts with
  | None =>
      mret (mkResposta 400 false "Conta não encontrada ou não pertence ao usuário" None)
  | Some _ =>
      if rd_eh_salario validatedData &&
         (js_not parcelaSalario || js_not totalParcelasSalario)
      then mret (mkResposta 400 false
                   "Para salários, informe a parcela e total de parcelas" None)
      else if rd_eh_salario validatedData && js_gt parcelaSalario totalParcelasSalario
      then mret (mkResposta 400 false
                   "Parcela não pode ser maior que o total de parcelas" None)
      else
        r ← Receita.create tz userId validatedData novoId receitaError;
        match r with
        | Erro message => mret (mkResposta 400 false message None)
        | Ok receita =>
            mret (mkResposta 201 true "Receita criada com sucesso" (Some receita))
        end
  end.

End ReceitaController.

(** The active account [accountId] of the user that passes the test [q],
    read from the account table. *)
Definition contaDoUsuario (userId : string) (q : Account → bool) (db : DB)
    (accountId : string) : option AccountComId :=
  match gzen_accounts db !! accountId with
  | Some account =>
      if bool_decide (acc_user_id account = userId) && acc_ativo account && q account
      then Some (accountId, account)
      else None
  | None => None
  end.

(** A store with the account A of user u and the card account C of
    [dono], with its card row. *)
Definition ex_db_contas (dono : string) (saldo total disponivel : Z) : DB :=
  mkDB {[ "A" := ex_conta saldo; "C" := mkAccount dono cartao_credito 0 true ]}
       {[ "C" := mkCartao total disponivel ]} ∅ ∅ ∅.

(** The store of [ex_db_contas] with the confirmed expense [d1] of user u
    on account A and the row of its period. *)
Definition ex_db_edicao (dono : string) (total disponivel valor : Z) : DB :=
  mkDB {[ "A" := ex_conta 1000; "C" := mkAccount dono cartao_credito 0 true ]}
       {[ "C" := mkCartao total disponivel ]}
       {[ "d1" := ex_despesa valor confirmada true ]} ∅
       {[ ("u", 3, 2024) := mkOrcamento 0 valor (- valor) None ]}.

(** ** Accounts ([Account] and its controller) *)

(** JavaScript's truthiness of an optional text and of an optional number:
    [undefined], the empty text and [0] are falsy. *)
Definition js_texto (a : option string) : bool :=
  match a with
  | Some s => negb (bool_decide (s = ""))
  | None => false
  end.

Definition js_numero (a : option Z) : bool := negb (js_not a).

(** The body of an account creation as the schema of its type delivers
    it.  The columns that the store of the model does not hold ([nome],
    [nome_banco], [bandeira], ...) are left out; the tables
    [gzen_conta_corrente] and [gzen_dinheiro_vivo] are not part of the
    store, so the insert of their detail row shows only through its
    error. *)
Record AccountData := mkAccountData {
  ad_tipo_conta : TipoConta;
  ad_saldo_atual : option Z;
  ad_ativo : option bool;
  ad_limite_total : Z;
  ad_limite_disponivel : Z
}.

(** [contaCorrenteSchema], [cartaoCreditoSchema] and [dinheiroVivoSchema]
    on the fields of the model; the fields left out are taken to pass. *)
Definition accountSchema (body : AccountData) : bool :=
  match ad_tipo_conta body with
  | conta_corrente | dinheiro_vivo => 0 <=? default 0 (ad_saldo_atual body)
  | cartao_credito => (0 <=? ad_limite_total body) && (0 <=? ad_limite_disponivel body)
  end.

(** The patch of an account update, every field optional. *)
Record UpdateAccountData := mkUpdateAccountData {
  ua_nome : option string;
  ua_saldo_atual : option Z;
  ua_ativo : option bool;
  ua_nome_banco : option string;
  ua_agencia : option string;
  ua_numero_conta : option string;
  ua_tipo_conta_corrente : option string;
  ua_bandeira : option string;
  ua_limite_total : option Z;
  ua_limite_disponivel : option Z;
  ua_vencimento_fatura : option Z;
  ua_melhor_data_compra : option Z;
  ua_descricao : option string
}.

(** An account with its [detalhes]; only the card details are part of the
    store. *)
Definition AccountComDetalhes : Type := string * Account * option Cartao.

Module Account.

(** [novoId] is the identifier the database gives the new row;
    [accountError] and [detalhesError] are the errors of the two inserts,
    if any.  Nothing undoes the first insert when the second fails. *)
Definition create (userId : string) (accountData : AccountData) (novoId : string)
    (accountError detalhesError : option string) : Efeito (Resultado AccountComDetalhes) :=
  match accountError with
  | Some message => mret (Erro message)
  | None =>
      let account :=
        mkAccount userId (ad_tipo_conta accountData)
                  (js_or (ad_saldo_atual accountData) 0)
                  (default true (ad_ativo accountData)) in
      modifica (set_accounts <[novoId := account]>) ;;
      match detalhesError with
      | Some message => mret (Erro message)
      | None =>
          match ad_tipo_conta accountData with
          | cartao_credito =>
              let cartao :=
                mkCartao (ad_limite_total accountData) (ad_limite_disponivel accountData) in
              modifica (set_cartoes <[novoId := cartao]>) ;;
              mret (Ok (novoId, account, Some cartao))
          | _ => mret (Ok (novoId, account, None))
          end
      end
  end.

(** [.eq('id', accountId).eq('user_id', userId).single()]: the [ativo]
    flag is not part of the filter. *)
Definition selectAccount (accountId userId : string) (db : DB) : option Account :=
  match gzen_accounts db !! accountId with
  | Some account => if bool_decide (acc_user_id account = userId) then Some account else None
  | None => None
  end.

Definition detalhesDe (accountId : string) (account : Account) (db : DB) : option Cartao :=
  match acc_tipo_conta account with
  | cartao_credito => gzen_cartao_credito db !! accountId
  | _ => None
  end.

Definition findById (accountId userId : string) : Efeito (option AccountComDetalhes) :=
  account ← consulta (selectAccount accountId userId);
  match account with
  | None => mret None
  | Some account =>
      detalhes ← consulta (detalhesDe accountId account);
      mret (Some (accountId, account, detalhes))
  end.

(** [Object.keys(baseData).length > 0]: the patch has a column of the main
    table. *)
Definition temBaseData (updateData : UpdateAccountData) : bool :=
  bool_decide (is_Some (ua_nome updateData)) ||
  bool_decide (is_Some (ua_saldo_atual updateData)) ||
  bool_decide (is_Some (ua_ativo updateData)).

Definition aplicaBaseData (updateData : UpdateAccountData) (account : Account) : Account :=
  mkAccount (acc_user_id account) (acc_tipo_conta account)
            (default (acc_saldo_atual account) (ua_saldo_atual updateData))
            (default (acc_ativo account) (ua_ativo updateData)).

(** The test that guards the update of the detail row of each type. *)
Definition temDetalhes (updateData : UpdateAccountData) (tipo : TipoConta) : bool :=
  match tipo with
  | conta_corrente =>
      js_texto (ua_nome_banco updateData) || js_texto (ua_agencia updateData) ||
      js_texto (ua_numero_conta updateData) || js_texto (ua_tipo_conta_corrente updateData)
  | cartao_credito =>
      js_texto (ua_nome_banco updateData) || js_texto (ua_bandeira updateData) ||
      js_numero (ua_limite_total updateData) || js_numero (ua_limite_disponivel updateData) ||
      js_numero (ua_vencimento_fatura updateData) ||
      js_numero (ua_melhor_data_compra updateData)
  | dinheiro_vivo => bool_decide (is_Some (ua_descricao updateData))
  end.

Definition aplicaDetalhes (updateData : UpdateAccountData) (cartao : Cartao) : Cartao :=
  mkCartao (default (limite_total cartao) (ua_limite_total updateData))
           (default (limite_disponivel cartao) (ua_limite_disponivel updateData)).

(** [semLinha] is the message of [.single()] when no row matches,
    [erroNulo] the message of the exception that reading [tipo_conta] of
    [null] raises; [accountError] and [detalhesError] are the other errors
    of the two writes, if any. *)
Definition update (accountId userId : string) (updateData : UpdateAccountData)
    (semLinha erroNulo : string) (accountError detalhesError : option string)
    : Efeito (Resultado AccountComDetalhes) :=
  existente ← consulta (selectAccount accountId userId);
  let naTabelaPrincipal : Efeito (Resultado Account) :=
    if temBaseData updateData
    then
      match existente, accountError with
      | _, Some message => mret (Erro message)
      | None, None => mret (Erro semLinha)
      | Some existente, None =>
          let account := aplicaBaseData updateData existente in
          modifica (set_accounts <[accountId := account]>) ;;
          mret (Ok account)
      end
    else
      match existente with
      | Some existente => mret (Ok existente)
      | None => mret (Erro erroNulo)
      end in
  account ← naTabelaPrincipal;
  match account with
  | Erro message => mret (Erro message)
  | Ok account =>
      if temDetalhes updateData (acc_tipo_conta account)
      then
        match detalhesError with
        | Some message => mret (Erro message)
        | None =>
            match acc_tipo_conta account with
            | cartao_credito =>
                cartao ← consulta (λ db, gzen_cartao_credito db !! accountId);
                match cartao with
                | None => mret (Erro semLinha)
                | Some cartao =>
                    let atualizado := aplicaDetalhes updateData cartao in
                    modifica (set_cartoes <[accountId := atualizado]>) ;;
                    mret (Ok (accountId, account, Some atualizado))
                end
            | _ => mret (Ok (accountId, account, None))
            end
        end
      else
        detalhes ← consulta (detalhesDe accountId account);
        mret (Ok (accountId, account, detalhes))
  end.

(** The soft delete: [.update({ ativo: false })] on the row of the user. *)
Definition delete (accountId userId : string) (semLinha : string) (error : option string)
    : Efeito (Resultado unit) :=
  existente ← consulta (selectAccount accountId userId);
  match existente, error with
  | _, Some message => mret (Erro message)
  | None, None => mret (Erro semLinha)
  | Some existente, None =>
      modifica (set_accounts
                  <[accountId := mkAccount (acc_user_id existente) (acc_tipo_conta existente)
                                           (acc_saldo_atual existente) false]>) ;;
      mret (Ok tt)
  end.

End Account.

Module AccountController.

(** [body] has one of the three types, so the [switch] reaches a schema. *)
Definition create (userId : string) (body : AccountData) (novoId : string)
    (accountError detalhesError : option string) : Efeito (Resposta AccountComDetalhes) :=
  if accountSchema body
  then
    r ← Account.create userId body novoId accountError detalhesError;
    match r with
    | Erro message => mret (mkResposta 400 false message None)
    | Ok account => mret (mkResposta 201 true "Conta criada com sucesso" (Some account))
    end
  else mret (mkResposta 400 false "Dados inválidos" None).

(** [updateAccountSchema] on its numeric fields; the texts are taken to
    pass. *)
Definition updateAccountSchema (body : UpdateAccountData) : bool :=
  from_option (λ v, 0 <=? v) true (ua_limite_total body) &&
  from_option (λ v, 0 <=? v) true (ua_limite_disponivel body) &&
  from_option (λ v, (1 <=? v) && (v <=? 31)) true (ua_vencimento_fatura body) &&
  from_option (λ v, (1 <=? v) && (v <=? 31)) true (ua_melhor_data_compra body).

Definition update (id userId : string) (body : UpdateAccountData)
    (semLinha erroNulo : string) (accountError detalhesError : option string)
    : Efeito (Resposta AccountComDetalhes) :=
  existingAccount ← Account.findById id userId;
  match existingAccount with
  | None => mret (mkResposta 404 false "Conta não encontrada" None)
  | Some (_, existingAccount, _) =>
      if from_option
           (λ saldo,
              (bool_decide (acc_tipo_conta existingAccount = conta_corrente) ||
               bool_decide (acc_tipo_conta existingAccount = dinheiro_vivo)) &&
              (saldo <? 0))
           false (ua_saldo_atual body)
      then mret (mkResposta 400 false
                   "Saldo não pode ser negativo para este tipo de conta" None)
      else if updateAccountSchema body
      then
        r ← Account.update id userId body semLinha erroNulo accountError detalhesError;
        match r with
        | Erro message => mret (mkResposta 400 false message None)
        | Ok account =>
            mret (mkResposta 200 true "Conta atualizada com sucesso" (Some account))
        end
      else mret (mkResposta 400 false "Dados inválidos" None)
  end.

End AccountController.

(** The patch that only sets the available limit of a card. *)
Definition soLimiteDisponivel (limite : Z) : UpdateAccountData :=
  mkUpdateAccountData None None None None None None None None None (Some limite)
                      None None None.

(** The patch that only sets the balance. *)
Definition soSaldo (saldo : Z) : UpdateAccountData :=
  mkUpdateAccountData None (Some saldo) None None None None None None None None
                      None None None.
(** ** The state monad *)

Lemma bind_apply {A B} (m : Efeito A) (f : A → Efeito B) db :
  (m ≫= f) db = f (eval m db) (exec m db).
Proof. unfold mbind, Efeito_bind, eval, exec. by destruct (m db). Qed.

Lemma exec_bind {A B} (m : Efeito A) (f : A → Efeito B) db :
  exec (m ≫= f) db = exec (f (eval m db)) (exec m db).
Proof. unfold exec at 1. by rewrite bind_apply. Qed.

Lemma eval_bind {A B} (m : Efeito A) (f : A → Efeito B) db :
  eval (m ≫= f) db = eval (f (eval m db)) (exec m db).
Proof. unfold eval at 1. by rewrite bind_apply. Qed.

Lemma exec_mret {A} (a : A) db : exec (mret a) db = db.
Proof. done. Qed.

Lemma eval_mret {A} (a : A) db : eval (mret a) db = a.
Proof. done. Qed.

Lemma exec_consulta {A} (f : DB → A) db : exec (consulta f) db = db.
Proof. done. Qed.

Lemma eval_consulta {A} (f : DB → A) db : eval (consulta f) db = f db.
Proof. done. Qed.

Lemma exec_modifica f db : exec (modifica f) db = f db.
Proof. done. Qed.

Lemma exec_quando b m db : exec (quando b m) db = if b then exec m db else db.
Proof. by destruct b. Qed.

Lemma efeito_eta {A} (m : Efeito A) db : m db = (eval m db, exec m db).
Proof. unfold eval, exec. by destruct (m db). Qed.

Create Rewrite HintDb efeito.
#[global] Hint Rewrite @exec_bind @eval_bind @exec_mret @eval_mret @exec_consulta @eval_consulta
  exec_modifica exec_quando : efeito.

Ltac passo := autorewrite with efeito; cbn [fst snd].

(** ** Effect of each mutator on the store *)

Lemma set_accounts_alter_None f a db :
  gzen_accounts db !! a = None → set_accounts (alter f a) db = db.
Proof.
  intros E. destruct db as [acs ? ? ? ?]; unfold set_accounts; cbn in *. f_equal.
  apply map_eq. intros k. rewrite lookup_alter. case_decide; subst; [rewrite E|]; done.
Qed.

Lemma exec_updateAccountBalance a v op db :
  exec (updateAccountBalance a v op) db = set_accounts (alter (ajustaSaldo v op) a) db.
Proof.
  unfold updateAccountBalance. passo.
  destruct (gzen_accounts db !! a) as [acc|] eqn:E; passo.
  - unfold set_accounts. f_equal.
    apply map_eq. intros k. rewrite lookup_alter, lookup_insert.
    case_decide; subst; [rewrite E|]; done.
  - by rewrite set_accounts_alter_None.
Qed.

Lemma set_cartoes_alter_None f c db :
  gzen_cartao_credito db !! c = None → set_cartoes (alter f c) db = db.
Proof.
  intros E. destruct db as [? cs ? ? ?]; unfold set_cartoes; cbn in *. f_equal.
  apply map_eq. intros k. rewrite lookup_alter. case_decide; subst; [rewrite E|]; done.
Qed.

Lemma exec_updateLimiteDisponivel f c cartao limite db :
  gzen_cartao_credito db !! c = Some cartao →
  f cartao = mkCartao (limite_total cartao) limite →
  exec (updateLimiteDisponivel (Some c) limite) db = set_cartoes (alter f c) db.
Proof.
  intros E Hf. unfold updateLimiteDisponivel. passo. unfold set_cartoes. f_equal.
  rewrite E. apply map_eq. intros k. rewrite lookup_alter, lookup_insert.
  case_decide; subst; [rewrite E, <- Hf|]; done.
Qed.

Lemma exec_updateOrcamento tz u data v tipo op db :
  exec (updateOrcamento tz u data v tipo op) db = passoOrcamento tz u data v tipo op db.
Proof.
  unfold updateOrcamento, passoOrcamento, chaveOrcamento, periodoDe. passo.
  destruct (gzen_orcamento db !! _) as [o|] eqn:E; passo;
    unfold set_orcamento; rewrite E; [|done].
  by destruct tipo.
Qed.

Lemma exec_passoCartao (g : Cartao → Z) f cartaoId db :
  (∀ cartao, f cartao = mkCartao (limite_total cartao) (g cartao)) →
  exec (cartao ← consulta (selectCartao cartaoId);
        match cartao with
        | Some cartao => updateLimiteDisponivel cartaoId (g cartao)
        | None => mret tt
        end) db = noCartao f cartaoId db.
Proof.
  intros Hf. passo. destruct cartaoId as [c|]; [|done]. unfold selectCartao, noCartao.
  destruct (gzen_cartao_credito db !! c) as [cartao|] eqn:E.
  - by apply (exec_updateLimiteDisponivel f c cartao).
  - by rewrite set_cartoes_alter_None.
Qed.

Lemma exec_processarPagamentoFatura despesa db :
  exec (Despesa.processarPagamentoFatura despesa) db =
  noCartao (restauraLimite (dp_valor despesa)) (dp_cartao_origem_id despesa)
    (set_accounts (alter (ajustaSaldo (dp_valor despesa) OpSubtract)
                         (dp_account_id despesa)) db).
Proof.
  unfold Despesa.processarPagamentoFatura, Despesa.updateAccountBalance.
  rewrite exec_bind, exec_updateAccountBalance.
  by apply (exec_passoCartao (λ c, Z.min (limite_disponivel c + dp_valor despesa) (limite_total c))).
Qed.

Lemma exec_processarDespesa tz despesa u db :
  exec (Despesa.processarDespesa tz despesa u) db =
  passoOrcamento tz u (dp_data_despesa despesa) (dp_valor despesa) TDespesa OpAdd
    (passoContaDespesa OpSubtract despesa db).
Proof.
  unfold Despesa.processarDespesa, Despesa.updateOrcamento, Despesa.updateAccountBalance,
    passoContaDespesa.
  rewrite exec_bind, exec_updateOrcamento. f_equal.
  destruct (ehPagamentoFatura despesa).
  - apply exec_processarPagamentoFatura.
  - apply exec_updateAccountBalance.
Qed.

Lemma exec_reverterDespesa tz despesa u db :
  exec (Despesa.reverterDespesa tz despesa u) db =
  passoOrcamento tz u (dp_data_despesa despesa) (dp_valor despesa) TDespesa OpSubtract
    (passoContaDespesa OpAdd despesa db).
Proof.
  unfold Despesa.reverterDespesa, Despesa.updateOrcamento, Despesa.updateAccountBalance,
    passoContaDespesa.
  rewrite exec_bind, exec_updateOrcamento. f_equal.
  destruct (ehPagamentoFatura despesa); [|apply exec_updateAccountBalance].
  rewrite exec_bind, exec_updateAccountBalance.
  by apply (exec_passoCartao (λ c, Z.max (limite_disponivel c - dp_valor despesa) 0)).
Qed.

Lemma alter_ausente `{Countable K} {V} (f : V → V) (k : K) (m : gmap K V) :
  m !! k = None → alter f k m = m.
Proof.
  intros E. apply map_eq. intros j. rewrite lookup_alter.
  case_decide; subst; [rewrite E|]; done.
Qed.

Lemma gzen_accounts_passoContaDespesa op despesa db :
  gzen_accounts (passoContaDespesa op despesa db) =
  alter (ajustaSaldo (dp_valor despesa) op) (dp_account_id despesa) (gzen_accounts db).
Proof.
  unfold passoContaDespesa, noCartao.
  destruct (ehPagamentoFatura despesa); [|done].
  by destruct (dp_cartao_origem_id despesa).
Qed.

Lemma gzen_orcamento_passoContaDespesa op despesa db :
  gzen_orcamento (passoContaDespesa op despesa db) = gzen_orcamento db.
Proof.
  unfold passoContaDespesa, noCartao.
  destruct (ehPagamentoFatura despesa); [|done].
  by destruct (dp_cartao_origem_id despesa).
Qed.

Lemma gzen_despesas_passoContaDespesa op despesa db :
  gzen_despesas (passoContaDespesa op despesa db) = gzen_despesas db.
Proof.
  unfold passoContaDespesa, noCartao.
  destruct (ehPagamentoFatura despesa); [|done].
  by destruct (dp_cartao_origem_id despesa).
Qed.

Lemma saldoDe_alter v op a b (db : DB) :
  acc_saldo_atual <$> alter (ajustaSaldo v op) a (gzen_accounts db) !! b =
  if decide (a = b)
  then (λ s, match op with OpAdd => s + v | OpSubtract => s - v end) <$> saldoDe db b
  else saldoDe db b.
Proof.
  unfold saldoDe. rewrite lookup_alter.
  case_decide; subst; [|done]. by destruct (gzen_accounts db !! b).
Qed.

Lemma saldoDe_passoContaDespesa op despesa db a :
  saldoDe (passoContaDespesa op despesa db) a =
  if decide (dp_account_id despesa = a)
  then (λ s, match op with
             | OpAdd => s + dp_valor despesa
             | OpSubtract => s - dp_valor despesa
             end) <$> saldoDe db a
  else saldoDe db a.
Proof.
  unfold saldoDe at 1. rewrite gzen_accounts_passoContaDespesa. apply saldoDe_alter.
Qed.

Lemma saldoDe_passoOrcamento tz u data v tipo op db a :
  saldoDe (passoOrcamento tz u data v tipo op db) a = saldoDe db a.
Proof. done. Qed.

Lemma saldoDe_set_despesas f db a : saldoDe (set_despesas f db) a = saldoDe db a.
Proof. done. Qed.

Lemma saldoDe_set_receitas f db a : saldoDe (set_receitas f db) a = saldoDe db a.
Proof. done. Qed.

(** The ledger operations, as functions on the store. *)

Lemma exec_handleBalanceUpdates tz antiga nova u db :
  exec (Despesa.handleBalanceUpdates tz antiga nova u) db =
  match confirmado (dp_status antiga), confirmado (dp_status nova) with
  | true, false => exec (Despesa.reverterDespesa tz antiga u) db
  | false, true => exec (Despesa.processarDespesa tz nova u) db
  | true, true =>
      exec (Despesa.processarDespesa tz nova u) (exec (Despesa.reverterDespesa tz antiga u) db)
  | false, false => db
  end.
Proof.
  unfold Despesa.handleBalanceUpdates. passo.
  by destruct (confirmado (dp_status antiga)), (confirmado (dp_status nova)); passo.
Qed.

Lemma findById_Some despesaId userId db despesa :
  eval (Despesa.findById despesaId userId) db = Some despesa ↔
  gzen_despesas db !! despesaId = Some despesa ∧ dp_user_id despesa = userId.
Proof.
  unfold Despesa.findById. passo.
  destruct (gzen_despesas db !! despesaId) as [d|]; [|by split; [|intros []]].
  destruct (bool_decide_reflect (dp_user_id d = userId)) as [Hu|Hu].
  - split; [by intros [= ->]|by intros [[= ->] _]].
  - split; [done|]. by intros [[= ->] ?].
Qed.

Lemma create_ok tz userId despesaData novoId db :
  let despesa :=
    mkDespesa novoId userId (dd_account_id despesaData) (dd_valor despesaData)
              (dd_data_despesa despesaData) (dd_status despesaData) true
              (dd_eh_pagamento_fatura despesaData) (dd_cartao_origem_id despesaData) in
  eval (Despesa.create tz userId despesaData novoId None) db = Ok despesa ∧
  exec (Despesa.create tz userId despesaData novoId None) db =
  if confirmado (dd_status despesaData)
  then exec (Despesa.processarDespesa tz despesa userId)
            (set_despesas <[novoId := despesa]> db)
  else set_despesas <[novoId := despesa]> db.
Proof. unfold Despesa.create, dataSaoPauloISO. passo. done. Qed.

Lemma update_ok tz despesaId userId updateData db antiga :
  eval (Despesa.findById despesaId userId) db = Some antiga →
  let nova := Despesa.aplicaUpdate updateData antiga in
  eval (Despesa.update tz despesaId userId updateData None) db = Ok nova ∧
  exec (Despesa.update tz despesaId userId updateData None) db =
  exec (Despesa.handleBalanceUpdates tz antiga nova userId)
       (set_despesas <[despesaId := nova]> db).
Proof. intros E. unfold Despesa.update. passo. rewrite E. passo. done. Qed.

Lemma delete_ok tz despesaId userId db despesa :
  eval (Despesa.findById despesaId userId) db = Some despesa →
  eval (Despesa.delete tz despesaId userId None) db = Ok tt ∧
  exec (Despesa.delete tz despesaId userId None) db =
  if confirmado (dp_status despesa)
  then exec (Despesa.reverterDespesa tz despesa userId)
            (set_despesas <[despesaId := Despesa.com_ativo_false despesa]> db)
  else set_despesas <[despesaId := Despesa.com_ativo_false despesa]> db.
Proof. intros E. unfold Despesa.delete. passo. rewrite E. passo. done. Qed.


(** The income variant. *)

Lemma exec_saldo_orcamento tz u op receita db :
  exec (updateAccountBalance (rc_account_id receita) (rc_valor receita) op ;;
        updateOrcamento tz u (rc_data_receita receita) (rc_valor receita) TReceita op) db =
  passoReceita tz u op receita db.
Proof. by rewrite exec_bind, exec_updateOrcamento, exec_updateAccountBalance. Qed.

Lemma exec_handleBalanceUpdates_receita tz antiga nova u db :
  exec (Receita.handleBalanceUpdates tz antiga nova u) db =
  match confirmado (rc_status antiga), confirmado (rc_status nova) with
  | true, false => passoReceita tz u OpSubtract antiga db
  | false, true => passoReceita tz u OpAdd nova db
  | true, true => passoReceita tz u OpAdd nova (passoReceita tz u OpSubtract antiga db)
  | false, false => db
  end.
Proof.
  unfold Receita.handleBalanceUpdates, Receita.updateAccountBalance, Receita.updateOrcamento.
  rewrite !exec_bind, !exec_quando.
  destruct (confirmado (rc_status antiga)), (confirmado (rc_status nova)); cbn [andb negb];
    rewrite ?exec_bind, ?exec_updateOrcamento, ?exec_updateAccountBalance; done.
Qed.

Lemma findById_receita_Some receitaId userId db receita :
  eval (Receita.findById receitaId userId) db = Some receita ↔
  gzen_receitas db !! receitaId = Some receita ∧ rc_user_id receita = userId.
Proof.
  unfold Receita.findById. passo.
  destruct (gzen_receitas db !! receitaId) as [d|]; [|by split; [|intros []]].
  destruct (bool_decide_reflect (rc_user_id d = userId)) as [Hu|Hu].
  - split; [by intros [= ->]|by intros [[= ->] _]].
  - split; [done|]. by intros [[= ->] ?].
Qed.

Lemma create_receita_ok tz userId receitaData novoId db :
  let receita :=
    mkReceita novoId userId (rd_account_id receitaData) (rd_valor receitaData)
              (rd_data_receita receitaData) (rd_status receitaData) true
              (rd_eh_salario receitaData) in
  eval (Receita.create tz userId receitaData novoId None) db = Ok receita ∧
  exec (Receita.create tz userId receitaData novoId None) db =
  if confirmado (rd_status receitaData)
  then passoReceita tz userId OpAdd receita (set_receitas <[novoId := receita]> db)
  else set_receitas <[novoId := receita]> db.
Proof.
  unfold Receita.create, dataSaoPauloISO, Receita.updateAccountBalance, Receita.updateOrcamento.
  cbn zeta. split; [by passo|].
  rewrite !exec_bind, exec_quando, exec_mret, exec_modifica. cbn [rc_status].
  destruct (confirmado (rd_status receitaData)); [|done].
  apply (exec_saldo_orcamento tz userId OpAdd (mkReceita _ _ _ _ _ _ _ _)).
Qed.

Lemma update_receita_ok tz receitaId userId updateData db antiga :
  eval (Receita.findById receitaId userId) db = Some antiga →
  let nova := Receita.aplicaUpdate updateData antiga in
  eval (Receita.update tz receitaId userId updateData None) db = Ok nova ∧
  exec (Receita.update tz receitaId userId updateData None) db =
  exec (Receita.handleBalanceUpdates tz antiga nova userId)
       (set_receitas <[receitaId := nova]> db).
Proof. intros E. unfold Receita.update. passo. rewrite E. passo. done. Qed.

Lemma delete_receita_ok tz receitaId userId db receita :
  eval (Receita.findById receitaId userId) db = Some receita →
  eval (Receita.delete tz receitaId userId None) db = Ok tt ∧
  exec (Receita.delete tz receitaId userId None) db =
  if confirmado (rc_status receita)
  then passoReceita tz userId OpSubtract receita
         (set_receitas <[receitaId := Receita.com_ativo_false receita]> db)
  else set_receitas <[receitaId := Receita.com_ativo_false receita]> db.
Proof.
  intros E. unfold Receita.delete, Receita.updateAccountBalance, Receita.updateOrcamento.
  split; [passo; rewrite E; by passo|].
  rewrite exec_bind, E, !exec_bind, exec_quando, exec_mret, exec_modifica.
  destruct (confirmado (rc_status receita)); [|done].
  apply exec_saldo_orcamento.
Qed.

(** ** Budget invariant *)

Lemma proximoOrcamento_novo_invariante tipo op v :
  invariante (proximoOrcamento tipo op v None).
Proof. unfold invariante. destruct tipo; cbn; lia. Qed.

Lemma proximoOrcamento_invariante tipo op v o :
  match tipo with
  | TReceita => receita_total (proximoOrcamento tipo op v (Some o)) ≠ 0
  | TDespesa => despesa_total (proximoOrcamento tipo op v (Some o)) ≠ 0
  end →
  invariante (proximoOrcamento tipo op v (Some o)).
Proof.
  unfold invariante, proximoOrcamento, js_or.
  destruct tipo; cbn [receita_total despesa_total saldo_atual]; intros Hnz;
    (destruct (_ =? 0) eqn:E; [apply Z.eqb_eq in E|]; done).
Qed.

Lemma findOrCreateByPeriod_invariante userId mes ano db :
  orcamentoConsistente db →
  orcamentoConsistente (exec (Orcamento.findOrCreateByPeriod userId mes ano None) db).
Proof.
  intros Hdb. unfold Orcamento.findOrCreateByPeriod. passo.
  destruct (gzen_orcamento db !! (userId, mes, ano)) eqn:E; passo; [done|].
  intros k o. cbn. rewrite lookup_insert. case_decide; [|apply Hdb].
  by intros [= <-].
Qed.

Lemma recalcular_invariante userId mes ano error db :
  orcamentoConsistente db →
  orcamentoConsistente (exec (Orcamento.recalcular userId mes ano error) db).
Proof.
  intros Hdb. unfold Orcamento.recalcular, Orcamento.upsertTotais. passo.
  destruct error; passo; [done|].
  intros k o. cbn. rewrite lookup_insert. case_decide; [|apply Hdb].
  by intros [= <-].
Qed.

(** An incremental update keeps a consistent store consistent whenever the
    total it writes is not zero. *)
Lemma updateOrcamento_invariante tz u data v tipo op db :
  orcamentoConsistente db →
  (∀ o, gzen_orcamento db !! chaveOrcamento tz u data = Some o →
        match tipo with
        | TReceita => receita_total (proximoOrcamento tipo op v (Some o)) ≠ 0
        | TDespesa => despesa_total (proximoOrcamento tipo op v (Some o)) ≠ 0
        end) →
  orcamentoConsistente (exec (updateOrcamento tz u data v tipo op) db).
Proof.
  intros Hdb Hnz k o. rewrite exec_updateOrcamento. cbn [passoOrcamento set_orcamento
    gzen_orcamento]. rewrite lookup_insert. case_decide; [|apply Hdb].
  intros [= <-]. destruct (gzen_orcamento db !! _) as [o'|] eqn:E.
  - by apply proximoOrcamento_invariante, Hnz.
  - apply proximoOrcamento_novo_invariante.
Qed.

(** And it breaks the invariant of the row when the total it writes is zero
    and the total it read was not. *)
Lemma proximoOrcamento_total_zero tipo op v o :
  invariante o →
  match tipo with
  | TReceita => receita_total (proximoOrcamento tipo op v (Some o)) = 0 ∧ receita_total o ≠ 0
  | TDespesa => despesa_total (proximoOrcamento tipo op v (Some o)) = 0 ∧ despesa_total o ≠ 0
  end →
  ¬ invariante (proximoOrcamento tipo op v (Some o)).
Proof.
  unfold invariante, proximoOrcamento, js_or.
  destruct tipo; cbn [receita_total despesa_total saldo_atual]; intros Ho [Hz Hnz];
    rewrite Hz; cbn; lia.
Qed.


Lemma gzen_accounts_passoReceita tz u op receita db :
  gzen_accounts (passoReceita tz u op receita db) =
  alter (ajustaSaldo (rc_valor receita) op) (rc_account_id receita) (gzen_accounts db).
Proof. done. Qed.


(** ** Budget totals through the budget step *)

Lemma gzen_orcamento_passoOrcamento tz u data v tipo op db :
  gzen_orcamento (passoOrcamento tz u data v tipo op db) =
  <[chaveOrcamento tz u data :=
      proximoOrcamento tipo op v (gzen_orcamento db !! chaveOrcamento tz u data)]>
    (gzen_orcamento db).
Proof. done. Qed.

Lemma gzen_despesas_passoOrcamento tz u data v tipo op db :
  gzen_despesas (passoOrcamento tz u data v tipo op db) = gzen_despesas db.
Proof. done. Qed.


Lemma despesaTotalDe_passoOrcamento_subtract tz u data v db :
  is_Some (gzen_orcamento db !! chaveOrcamento tz u data) →
  despesaTotalDe (passoOrcamento tz u data v TDespesa OpSubtract db)
                 (chaveOrcamento tz u data) =
  despesaTotalDe db (chaveOrcamento tz u data) - v.
Proof.
  intros [o E]. unfold despesaTotalDe.
  rewrite gzen_orcamento_passoOrcamento, lookup_insert_eq, E. cbn. lia.
Qed.


Lemma receitaTotalDe_passoOrcamento_subtract tz u data v db :
  is_Some (gzen_orcamento db !! chaveOrcamento tz u data) →
  receitaTotalDe (passoOrcamento tz u data v TReceita OpSubtract db)
                 (chaveOrcamento tz u data) =
  receitaTotalDe db (chaveOrcamento tz u data) - v.
Proof.
  intros [o E]. unfold receitaTotalDe.
  rewrite gzen_orcamento_passoOrcamento, lookup_insert_eq, E. cbn. lia.
Qed.

Lemma passoOrcamento_is_Some tz u data v tipo op db :
  is_Some (gzen_orcamento (passoOrcamento tz u data v tipo op db)
           !! chaveOrcamento tz u data).
Proof. rewrite gzen_orcamento_passoOrcamento, lookup_insert_eq. by eexists. Qed.

Lemma despesaTotalDe_passoContaDespesa op despesa db k :
  despesaTotalDe (passoContaDespesa op despesa db) k = despesaTotalDe db k.
Proof. unfold despesaTotalDe. by rewrite gzen_orcamento_passoContaDespesa. Qed.

Lemma saldoDe_passoReceita tz u op receita db a :
  saldoDe (passoReceita tz u op receita db) a =
  if decide (rc_account_id receita = a)
  then (λ s, match op with
             | OpAdd => s + rc_valor receita
             | OpSubtract => s - rc_valor receita
             end) <$> saldoDe db a
  else saldoDe db a.
Proof. unfold saldoDe at 1. rewrite gzen_accounts_passoReceita. apply saldoDe_alter. Qed.

Lemma confirmado_confirmada : confirmado confirmada = true.
Proof. done. Qed.


Lemma confirmado_false s : s ≠ confirmada → confirmado s = false.
Proof. intros H. by apply bool_decide_eq_false. Qed.

Lemma confirmado_true s : s = confirmada → confirmado s = true.
Proof. by intros ->. Qed.


(** ** Soft-delete of a confirmed transaction *)

Lemma delete_confirmada tz despesaId userId db despesa :
  eval (Despesa.findById despesaId userId) db = Some despesa →
  dp_status despesa = confirmada →
  eval (Despesa.delete tz despesaId userId None) db = Ok tt ∧
  exec (Despesa.delete tz despesaId userId None) db =
    passoOrcamento tz userId (dp_data_despesa despesa) (dp_valor despesa) TDespesa OpSubtract
      (passoContaDespesa OpAdd despesa
         (set_despesas <[despesaId := Despesa.com_ativo_false despesa]> db)).
Proof.
  intros Hfind Hst. destruct (delete_ok tz despesaId userId db despesa Hfind) as [-> ->].
  by rewrite (confirmado_true _ Hst), exec_reverterDespesa.
Qed.

Lemma delete_receita_confirmada tz receitaId userId db receita :
  eval (Receita.findById receitaId userId) db = Some receita →
  rc_status receita = confirmada →
  eval (Receita.delete tz receitaId userId None) db = Ok tt ∧
  exec (Receita.delete tz receitaId userId None) db =
    passoReceita tz userId OpSubtract receita
      (set_receitas <[receitaId := Receita.com_ativo_false receita]> db).
Proof.
  intros Hfind Hst. destruct (delete_receita_ok tz receitaId userId db receita Hfind)
    as [-> ->].
  by rewrite (confirmado_true _ Hst).
Qed.

Lemma delete_confirmada_efeito tz despesaId userId db despesa :
  eval (Despesa.findById despesaId userId) db = Some despesa →
  dp_status despesa = confirmada →
  let db1 := exec (Despesa.delete tz despesaId userId None) db in
  let periodo := chaveOrcamento tz userId (dp_data_despesa despesa) in
  eval (Despesa.findById despesaId userId) db1 = Some (Despesa.com_ativo_false despesa) ∧
  saldoDe db1 (dp_account_id despesa) =
    (λ saldo, saldo + dp_valor despesa) <$> saldoDe db (dp_account_id despesa) ∧
  is_Some (gzen_orcamento db1 !! periodo) ∧
  (is_Some (gzen_orcamento db !! periodo) →
   despesaTotalDe db1 periodo = despesaTotalDe db periodo - dp_valor despesa).
Proof.
  intros Hfind Hst db1 periodo.
  destruct (delete_confirmada tz despesaId userId db despesa Hfind Hst) as [_ Hex].
  fold db1 in Hex. rewrite Hex. apply findById_Some in Hfind as [Hrow Huser].
  split_and!.
  - apply findById_Some. split; [|done].
    rewrite gzen_despesas_passoOrcamento, gzen_despesas_passoContaDespesa.
    apply lookup_insert_eq.
  - rewrite saldoDe_passoOrcamento, saldoDe_passoContaDespesa, decide_True by done.
    by rewrite saldoDe_set_despesas.
  - apply passoOrcamento_is_Some.
  - intros Hsome. unfold periodo. rewrite despesaTotalDe_passoOrcamento_subtract.
    + by rewrite despesaTotalDe_passoContaDespesa.
    + by rewrite gzen_orcamento_passoContaDespesa.
Qed.

Lemma delete_receita_confirmada_efeito tz receitaId userId db receita :
  eval (Receita.findById receitaId userId) db = Some receita →
  rc_status receita = confirmada →
  let db1 := exec (Receita.delete tz receitaId userId None) db in
  let periodo := chaveOrcamento tz userId (rc_data_receita receita) in
  eval (Receita.findById receitaId userId) db1 = Some (Receita.com_ativo_false receita) ∧
  saldoDe db1 (rc_account_id receita) =
    (λ saldo, saldo - rc_valor receita) <$> saldoDe db (rc_account_id receita) ∧
  is_Some (gzen_orcamento db1 !! periodo) ∧
  (is_Some (gzen_orcamento db !! periodo) →
   receitaTotalDe db1 periodo = receitaTotalDe db periodo - rc_valor receita).
Proof.
  intros Hfind Hst db1 periodo.
  destruct (delete_receita_confirmada tz receitaId userId db receita Hfind Hst) as [_ Hex].
  fold db1 in Hex. rewrite Hex. apply findById_receita_Some in Hfind as [Hrow Huser].
  split_and!.
  - apply findById_receita_Some. split; [|done]. apply lookup_insert_eq.
  - rewrite saldoDe_passoReceita, decide_True by done. by rewrite saldoDe_set_receitas.
  - apply passoOrcamento_is_Some.
  - intros Hsome. unfold periodo, passoReceita.
    by rewrite receitaTotalDe_passoOrcamento_subtract.
Qed.

(** ** Card limits *)

Lemma limiteDisponivelDe_processarPagamentoFatura despesa c cartao db :
  dp_cartao_origem_id despesa = Some c →
  gzen_cartao_credito db !! c = Some cartao →
  gzen_cartao_credito (exec (Despesa.processarPagamentoFatura despesa) db) !! c =
  Some (restauraLimite (dp_valor despesa) cartao).
Proof.
  intros Hc E. rewrite exec_processarPagamentoFatura, Hc. cbn.
  by rewrite lookup_alter_eq, E.
Qed.

Lemma limiteDisponivelDe_reverterDespesa tz u despesa c cartao db :
  dp_eh_pagamento_fatura despesa = true →
  dp_cartao_origem_id despesa = Some c →
  gzen_cartao_credito db !! c = Some cartao →
  gzen_cartao_credito (exec (Despesa.reverterDespesa tz despesa u) db) !! c =
  Some (reduzLimite (dp_valor despesa) cartao).
Proof.
  intros Hf Hc E. rewrite exec_reverterDespesa. unfold passoContaDespesa, ehPagamentoFatura.
  rewrite Hf, Hc. cbn. by rewrite lookup_alter_eq, E.
Qed.


(** ** Reconciliation *)

Lemma filter_ext_elem {A} (P Q : A → Prop) `{!∀ x, Decision (P x)} `{!∀ x, Decision (Q x)}
    (l : list A) :
  (∀ x, x ∈ l → P x ↔ Q x) → filter P l = filter Q l.
Proof.
  induction l as [|x l IH]; intros HPQ; [done|].
  rewrite !filter_cons.
  assert (Hx : P x ↔ Q x) by (apply HPQ; left).
  rewrite IH by (intros y Hy; apply HPQ; by right).
  destruct (decide (P x)), (decide (Q x)); tauto || done.
Qed.

Lemma reduceValor_somaDireta {A} (valor : A → Z) (rows : list A) :
  reduceValor valor rows = somaDireta valor rows.
Proof.
  unfold reduceValor, somaDireta.
  assert (H : ∀ a, foldl (λ sum x, sum + valor x) a rows =
                   a + foldr (λ x soma, valor x + soma) 0 rows).
  { induction rows as [|x l IH]; intros a; cbn; [lia|]. rewrite IH. lia. }
  rewrite H. lia.
Qed.

Lemma js_or_total v : js_or (Some v) 0 = v.
Proof. unfold js_or. destruct (Z.eqb_spec v 0); congruence. Qed.

Lemma ultimoDiaDoMes_diasNoMes ano mes :
  1 ≤ mes ≤ 12 → 1000 ≤ ano ≤ 9999 → ultimoDiaDoMes ano mes = diasNoMes ano mes.
Proof.
  intros Hm Ha. unfold ultimoDiaDoMes.
  replace ((0 <=? ano) && (ano <=? 99)) with false
    by (symmetry; apply andb_false_iff; right; apply Z.leb_gt; lia).
  rewrite Z.div_small, Z.mod_small by lia. f_equal; lia.
Qed.

Lemma intervalo_do_mes ano mes d :
  1 ≤ mes ≤ 12 → 1000 ≤ ano ≤ 9999 → data_valida d = true →
  data_leb (mkData ano mes 1) d = true ∧
  data_leb d (mkData ano mes (ultimoDiaDoMes ano mes)) = true ↔
  d_mes d = mes ∧ d_ano d = ano.
Proof.
  intros Hm Ha Hv. rewrite ultimoDiaDoMes_diasNoMes by done.
  unfold data_valida in Hv. unfold data_leb. cbn [d_ano d_mes d_dia].
  rewrite !andb_true_iff, !Z.leb_le in Hv.
  rewrite !orb_true_iff, !andb_true_iff, !orb_true_iff, !andb_true_iff,
    !Z.ltb_lt, !Z.eqb_eq, !Z.leb_le.
  split.
  - lia.
  - intros [<- <-]. lia.
Qed.

Lemma selectReceitas_direta db owner mes ano :
  1 ≤ mes ≤ 12 → 1000 ≤ ano ≤ 9999 → datasValidas db = true →
  Orcamento.selectReceitas owner (mkData ano mes 1) (mkData ano mes (ultimoDiaDoMes ano mes)) db =
  filter (receitaDoPeriodo owner mes ano) (map_to_list (gzen_receitas db)).*2.
Proof.
  intros Hm Ha [Hv _]%andb_true_iff. unfold Orcamento.selectReceitas.
  apply filter_ext_elem. intros r Hin%list_elem_of_In.
  pose proof (proj1 (forallb_forall _ _) Hv r Hin) as Hr. cbn beta in Hr.
  pose proof (intervalo_do_mes ano mes (rc_data_receita r) Hm Ha Hr) as Hint.
  unfold receitaDoPeriodo. tauto.
Qed.

Lemma selectDespesas_direta db owner mes ano :
  1 ≤ mes ≤ 12 → 1000 ≤ ano ≤ 9999 → datasValidas db = true →
  Orcamento.selectDespesas owner (mkData ano mes 1) (mkData ano mes (ultimoDiaDoMes ano mes)) db =
  filter (despesaDoPeriodo owner mes ano) (map_to_list (gzen_despesas db)).*2.
Proof.
  intros Hm Ha [_ Hv]%andb_true_iff. unfold Orcamento.selectDespesas.
  apply filter_ext_elem. intros d Hin%list_elem_of_In.
  pose proof (proj1 (forallb_forall _ _) Hv d Hin) as Hd. cbn beta in Hd.
  pose proof (intervalo_do_mes ano mes (dp_data_despesa d) Hm Ha Hd) as Hint.
  unfold despesaDoPeriodo. tauto.
Qed.

(** What [recalcular] answers and stores when the upsert succeeds. *)
Lemma recalcular_ok owner mes ano db :
  let dataInicio := mkData ano mes 1 in
  let dataFim := mkData ano mes (ultimoDiaDoMes ano mes) in
  let receitaTotal :=
    reduceValor rc_valor (Orcamento.selectReceitas owner dataInicio dataFim db) in
  let despesaTotal :=
    reduceValor dp_valor (Orcamento.selectDespesas owner dataInicio dataFim db) in
  let orcamento :=
    mkOrcamento receitaTotal despesaTotal (receitaTotal - despesaTotal)
      (match gzen_orcamento db !! (owner, mes, ano) with
       | Some o => meta_economia o
       | None => None
       end) in
  eval (Orcamento.recalcular owner mes ano None) db = Ok orcamento ∧
  exec (Orcamento.recalcular owner mes ano None) db =
    set_orcamento <[(owner, mes, ano) := orcamento]> db.
Proof.
  unfold Orcamento.recalcular, Orcamento.upsertTotais. passo.
  by rewrite !js_or_total.
Qed.


(** ** Period keys and the time zone *)

Lemma periodoDe_leste tz data : 0 ≤ tz → periodoDe tz data = (d_mes data, d_ano data).
Proof.
  intros Htz. unfold periodoDe, newDate, getMonth, getFullYear.
  replace (0 <=? tz) with true by (symmetry; by apply Z.leb_le). cbn. f_equal. lia.
Qed.

Lemma periodoDe_oeste_dia_1 tz data :
  tz < 0 → d_dia data = 1 → 1 < d_mes data →
  periodoDe tz data = (d_mes data - 1, d_ano data).
Proof.
  intros Htz Hd Hm. unfold periodoDe, newDate, getMonth, getFullYear, vespera.
  replace (0 <=? tz) with false by (symmetry; apply Z.leb_gt; lia).
  replace (1 <? d_dia data) with false by (symmetry; apply Z.ltb_ge; lia).
  replace (1 <? d_mes data) with true by (symmetry; by apply Z.ltb_lt).
  cbn. f_equal. lia.
Qed.

Lemma periodoDe_oeste_dia_maior tz data :
  tz < 0 → 1 < d_dia data → periodoDe tz data = (d_mes data, d_ano data).
Proof.
  intros Htz Hd. unfold periodoDe, newDate, getMonth, getFullYear, vespera.
  replace (0 <=? tz) with false by (symmetry; apply Z.leb_gt; lia).
  replace (1 <? d_dia data) with true by (symmetry; by apply Z.ltb_lt).
  cbn. f_equal. lia.
Qed.


(** ** The claims *)

(** C1. The invariant [saldo_atual = receita_total - despesa_total] after an
    incremental update: [updateOrcamento] recomputes the balance from
    [updates.despesa_total || orcamento.despesa_total], and a new total of
    exactly zero is falsy, so the old total is used.  Subtracting the only
    expense of a period (200, server on UTC) from a consistent row
    (0, 200, -200) stores the totals 0 and 0 with the balance -200; the same
    row is what creating and then soft-deleting a confirmed expense of 200
    leaves in a store that had no budget row. *)
Theorem updateOrcamento_total_zero_quebra_invariante :
  orcamentoConsistente
    (ex_db_ledger ∅ (ex_despesa 200 confirmada false) (ex_receita 50 pendente true)
                  (mkOrcamento 0 200 (-200) None)) ∧
  gzen_orcamento
    (exec (Despesa.updateOrcamento 0 "u" ex_data 200 TDespesa OpSubtract)
       (ex_db_ledger ∅ (ex_despesa 200 confirmada false) (ex_receita 50 pendente true)
                     (mkOrcamento 0 200 (-200) None))) !! ("u", 3, 2024) =
    Some (mkOrcamento 0 0 (-200) None) ∧
  ¬ orcamentoConsistente
      (exec (Despesa.updateOrcamento 0 "u" ex_data 200 TDespesa OpSubtract)
         (ex_db_ledger ∅ (ex_despesa 200 confirmada false) (ex_receita 50 pendente true)
                       (mkOrcamento 0 200 (-200) None))) ∧
  orcamentoConsistente (ex_db_conta 1000) ∧
  gzen_orcamento
    (exec (Despesa.delete 0 "d1" "u" None)
       (exec (Despesa.create 0 "u" (mkDespesaData "A" 200 ex_data confirmada false None)
                             "d1" None)
             (ex_db_conta 1000))) !! ("u", 3, 2024) =
    Some (mkOrcamento 0 0 (-200) None).
Proof.
  split_and!.
  - intros k o. cbn [ex_db_ledger gzen_orcamento].
    intros [_ <-]%lookup_singleton_Some. reflexivity.
  - reflexivity.
  - intros Hc.
    assert (Hinv : invariante (mkOrcamento 0 0 (-200) None))
      by (apply (Hc ("u", 3, 2024)); reflexivity).
    discriminate Hinv.
  - intros k o. cbn [ex_db_conta gzen_orcamento]. by rewrite lookup_empty.
  - reflexivity.
Qed.

(** C2. Reconciliation is idempotent and exact.  For a month 1..12 of a
    four-digit year, on a store whose transaction dates are calendar dates,
    [recalcular] (its upsert succeeding) run twice in a row answers the same
    row both times and stores it, the second run changing nothing; its
    income total is the direct sum of the amounts of the owner's active,
    confirmed incomes dated in that month, its expense total the same sum
    over the expenses, and its balance their difference. *)
Theorem recalcular_idempotente_e_exato db owner mes ano :
  1 ≤ mes ≤ 12 → 1000 ≤ ano ≤ 9999 → datasValidas db = true →
  let db1 := exec (Orcamento.recalcular owner mes ano None) db in
  let db2 := exec (Orcamento.recalcular owner mes ano None) db1 in
  ∃ orcamento,
    eval (Orcamento.recalcular owner mes ano None) db = Ok orcamento ∧
    eval (Orcamento.recalcular owner mes ano None) db1 = Ok orcamento ∧
    gzen_orcamento db1 !! (owner, mes, ano) = Some orcamento ∧
    db2 = db1 ∧
    receita_total orcamento = somaDiretaReceitas db owner mes ano ∧
    despesa_total orcamento = somaDiretaDespesas db owner mes ano ∧
    saldo_atual orcamento = receita_total orcamento - despesa_total orcamento.
Proof.
  intros Hm Ha Hv db1 db2.
  destruct (recalcular_ok owner mes ano db) as [Hev Hex]. cbn zeta in Hev, Hex.
  set (orcamento := mkOrcamento _ _ _ _) in Hev, Hex.
  fold db1 in Hex.
  destruct (recalcular_ok owner mes ano db1) as [Hev1 Hex1]. cbn zeta in Hev1, Hex1.
  fold db2 in Hex1.
  assert (Hsame : mkOrcamento
            (reduceValor rc_valor (Orcamento.selectReceitas owner (mkData ano mes 1)
               (mkData ano mes (ultimoDiaDoMes ano mes)) db1))
            (reduceValor dp_valor (Orcamento.selectDespesas owner (mkData ano mes 1)
               (mkData ano mes (ultimoDiaDoMes ano mes)) db1))
            (reduceValor rc_valor (Orcamento.selectReceitas owner (mkData ano mes 1)
               (mkData ano mes (ultimoDiaDoMes ano mes)) db1) -
             reduceValor dp_valor (Orcamento.selectDespesas owner (mkData ano mes 1)
               (mkData ano mes (ultimoDiaDoMes ano mes)) db1))
            (match gzen_orcamento db1 !! (owner, mes, ano) with
             | Some o => meta_economia o
             | None => None
             end) = orcamento).
  { rewrite Hex. unfold Orcamento.selectReceitas, Orcamento.selectDespesas.
    cbn [set_orcamento gzen_receitas gzen_despesas gzen_orcamento].
    rewrite lookup_insert_eq. unfold orcamento. cbn [meta_economia].
    by destruct (gzen_orcamento db !! (owner, mes, ano)). }
  rewrite Hsame in Hev1, Hex1.
  exists orcamento. split_and!; [done|done| | | | |done].
  - rewrite Hex. cbn. apply lookup_insert_eq.
  - rewrite Hex1, Hex. unfold set_orcamento. cbn. f_equal. apply insert_insert_eq.
  - unfold orcamento, somaDiretaReceitas. cbn [receita_total].
    by rewrite reduceValor_somaDireta, selectReceitas_direta.
  - unfold orcamento, somaDiretaDespesas. cbn [despesa_total].
    by rewrite reduceValor_somaDireta, selectDespesas_direta.
Qed.

Lemma recalcular_idempotente_e_exato_witness :
  datasValidas (ex_db_ledger ∅ (ex_despesa 200 confirmada true) (ex_receita 50 confirmada true)
                             (mkOrcamento 0 0 0 (Some 10))) = true ∧
  eval (Orcamento.recalcular "u" 3 2024 None)
       (ex_db_ledger ∅ (ex_despesa 200 confirmada true) (ex_receita 50 confirmada true)
                     (mkOrcamento 0 0 0 (Some 10))) =
    Ok (mkOrcamento 50 200 (-150) (Some 10)) ∧
  ∃ orcamento,
    eval (Orcamento.recalcular "u" 3 2024 None)
         (exec (Orcamento.recalcular "u" 3 2024 None)
            (ex_db_ledger ∅ (ex_despesa 200 confirmada true) (ex_receita 50 confirmada true)
                          (mkOrcamento 0 0 0 (Some 10)))) = Ok orcamento ∧
    receita_total orcamento =
      somaDiretaReceitas
        (ex_db_ledger ∅ (ex_despesa 200 confirmada true) (ex_receita 50 confirmada true)
                      (mkOrcamento 0 0 0 (Some 10))) "u" 3 2024 ∧
    despesa_total orcamento =
      somaDiretaDespesas
        (ex_db_ledger ∅ (ex_despesa 200 confirmada true) (ex_receita 50 confirmada true)
                      (mkOrcamento 0 0 0 (Some 10))) "u" 3 2024.
Proof.
  set (db := ex_db_ledger ∅ (ex_despesa 200 confirmada true) (ex_receita 50 confirmada true)
                          (mkOrcamento 0 0 0 (Some 10))).
  assert (Hv : datasValidas db = true) by reflexivity.
  assert (Hm : 1 ≤ 3 ≤ 12) by lia.
  assert (Ha : 1000 ≤ 2024 ≤ 9999) by lia.
  destruct (recalcular_idempotente_e_exato db "u" 3 2024 Hm Ha Hv)
    as (o & _ & H2 & _ & _ & Hr & Hd & _).
  split; [exact Hv|]. split; [reflexivity|].
  exists o. split; [exact H2|]. split; [exact Hr|exact Hd].
Defined.

(** C3. For an invoice payment of value v against a card with
    limits (available, total): the forward step sets the available limit to
    min (available + v) total and the reverse step sets it to
    max (available - v) 0.  When the forward step clamped
    (available + v > total), forward then reverse leaves
    max (total - v) 0: strictly less than before when the available limit
    was positive, and still 0 when it was 0. *)
Theorem pagamento_fatura_ida_e_volta tz db userId despesa cartaoId cartao :
  dp_eh_pagamento_fatura despesa = true →
  dp_cartao_origem_id despesa = Some cartaoId →
  gzen_cartao_credito db !! cartaoId = Some cartao →
  let v := dp_valor despesa in
  let db1 := exec (Despesa.processarPagamentoFatura despesa) db in
  let db2 := exec (Despesa.reverterDespesa tz despesa userId) db1 in
  limiteDisponivelDe db1 cartaoId =
    Some (Z.min (limite_disponivel cartao + v) (limite_total cartao)) ∧
  limiteDisponivelDe (exec (Despesa.reverterDespesa tz despesa userId) db) cartaoId =
    Some (Z.max (limite_disponivel cartao - v) 0) ∧
  (limite_disponivel cartao + v > limite_total cartao →
   ∃ depois,
     limiteDisponivelDe db2 cartaoId = Some depois ∧
     depois = Z.max (limite_total cartao - v) 0 ∧
     (0 < limite_disponivel cartao → depois < limite_disponivel cartao) ∧
     (limite_disponivel cartao = 0 → depois = 0)).
Proof.
  intros Hf Hc E v db1 db2.
  pose proof (limiteDisponivelDe_processarPagamentoFatura despesa cartaoId cartao db Hc E)
    as H1. fold db1 in H1.
  pose proof (limiteDisponivelDe_reverterDespesa tz userId despesa cartaoId _ db1 Hf Hc H1)
    as H2. fold db2 in H2.
  pose proof (limiteDisponivelDe_reverterDespesa tz userId despesa cartaoId _ db Hf Hc E)
    as H3.
  unfold limiteDisponivelDe. rewrite H1, H2, H3. cbn. fold v.
  split_and!; [done|done|]. intros Hclamp.
  eexists. split; [reflexivity|]. split_and!; lia.
Qed.

Lemma pagamento_fatura_ida_e_volta_witness :
  limiteDisponivelDe (ex_db_cartao 5000 5000 3000 3000) "C" = Some 3000 ∧
  limiteDisponivelDe
    (exec (Despesa.processarPagamentoFatura (ex_pagamento 3000))
          (ex_db_cartao 5000 5000 3000 3000)) "C" = Some 5000 ∧
  limiteDisponivelDe
    (exec (Despesa.reverterDespesa 0 (ex_pagamento 3000) "u")
       (exec (Despesa.processarPagamentoFatura (ex_pagamento 3000))
             (ex_db_cartao 5000 5000 3000 3000))) "C" = Some 2000.
Proof.
  assert (E : gzen_cartao_credito (ex_db_cartao 5000 5000 3000 3000) !! "C" =
              Some (mkCartao 5000 3000)) by reflexivity.
  destruct (pagamento_fatura_ida_e_volta 0 (ex_db_cartao 5000 5000 3000 3000) "u"
              (ex_pagamento 3000) "C" (mkCartao 5000 3000) eq_refl eq_refl E)
    as (H1 & _ & H2).
  split; [reflexivity|]. split; [exact H1|].
  assert (Hclamp : 3000 + 3000 > 5000) by lia.
  destruct (H2 Hclamp) as (depois & Hdepois & -> & _). exact Hdepois.
Defined.

(** C3, the strict decrease does not hold on a card with no available limit
    left: with
    total 100, available 0 and a payment of 200 the forward step clamps
    (0 + 200 > 100) to 100, the reverse step gives max (100 - 200) 0 = 0,
    which is the limit before the payment and not strictly lower. *)
Lemma pagamento_fatura_limite_zero_contraexemplo :
  limiteDisponivelDe (ex_db_cartao 1000 100 0 200) "C" = Some 0 ∧
  0 + dp_valor (ex_pagamento 200) > 100 ∧
  limiteDisponivelDe
    (exec (Despesa.processarPagamentoFatura (ex_pagamento 200))
          (ex_db_cartao 1000 100 0 200)) "C" = Some 100 ∧
  ¬ (∃ depois,
       limiteDisponivelDe
         (exec (Despesa.reverterDespesa 0 (ex_pagamento 200) "u")
            (exec (Despesa.processarPagamentoFatura (ex_pagamento 200))
                  (ex_db_cartao 1000 100 0 200))) "C" = Some depois ∧
       depois < 0).
Proof.
  split_and!; [reflexivity|reflexivity|reflexivity|].
  intros (depois & Hd & Hlt).
  assert (Hzero : limiteDisponivelDe
            (exec (Despesa.reverterDespesa 0 (ex_pagamento 200) "u")
               (exec (Despesa.processarPagamentoFatura (ex_pagamento 200))
                     (ex_db_cartao 1000 100 0 200))) "C" = Some 0) by reflexivity.
  rewrite Hzero in Hd. injection Hd as <-. lia.
Qed.







(** C7. A balance mutation on an account that cannot be found does nothing
    and raises nothing: the store is unchanged, and a [create], [update] or
    [delete] whose accounts are all missing still answers success, with the
    account table as it was.  Expense and income variant. *)
Theorem conta_inexistente_nao_propaga_erro tz db accountId :
  gzen_accounts db !! accountId = None →
  (∀ valor operation,
     Despesa.updateAccountBalance accountId valor operation db = (tt, db) ∧
     Receita.updateAccountBalance accountId valor operation db = (tt, db)) ∧
  (∀ userId despesaData novoId,
     dd_account_id despesaData = accountId →
     (∃ despesa, eval (Despesa.create tz userId despesaData novoId None) db = Ok despesa) ∧
     gzen_accounts (exec (Despesa.create tz userId despesaData novoId None) db) =
       gzen_accounts db) ∧
  (∀ despesaId userId updateData antiga,
     eval (Despesa.findById despesaId userId) db = Some antiga →
     dp_account_id antiga = accountId →
     gzen_accounts db !! dp_account_id (Despesa.aplicaUpdate updateData antiga) = None →
     eval (Despesa.update tz despesaId userId updateData None) db =
       Ok (Despesa.aplicaUpdate updateData antiga) ∧
     gzen_accounts (exec (Despesa.update tz despesaId userId updateData None) db) =
       gzen_accounts db) ∧
  (∀ despesaId userId despesa,
     eval (Despesa.findById despesaId userId) db = Some despesa →
     dp_account_id despesa = accountId →
     eval (Despesa.delete tz despesaId userId None) db = Ok tt ∧
     gzen_accounts (exec (Despesa.delete tz despesaId userId None) db) = gzen_accounts db) ∧
  (∀ userId receitaData novoId,
     rd_account_id receitaData = accountId →
     (∃ receita, eval (Receita.create tz userId receitaData novoId None) db = Ok receita) ∧
     gzen_accounts (exec (Receita.create tz userId receitaData novoId None) db) =
       gzen_accounts db) ∧
  (∀ receitaId userId updateData antiga,
     eval (Receita.findById receitaId userId) db = Some antiga →
     rc_account_id antiga = accountId →
     gzen_accounts db !! rc_account_id (Receita.aplicaUpdate updateData antiga) = None →
     eval (Receita.update tz receitaId userId updateData None) db =
       Ok (Receita.aplicaUpdate updateData antiga) ∧
     gzen_accounts (exec (Receita.update tz receitaId userId updateData None) db) =
       gzen_accounts db) ∧
  (∀ receitaId userId receita,
     eval (Receita.findById receitaId userId) db = Some receita →
     rc_account_id receita = accountId →
     eval (Receita.delete tz receitaId userId None) db = Ok tt ∧
     gzen_accounts (exec (Receita.delete tz receitaId userId None) db) = gzen_accounts db).
Proof.
  intros Hnone.
  assert (Halter : ∀ f, alter f accountId (gzen_accounts db) = gzen_accounts db)
    by (intros f; by apply alter_ausente).
  split_and!.
  - intros valor operation. unfold Despesa.updateAccountBalance, Receita.updateAccountBalance.
    rewrite efeito_eta, exec_updateAccountBalance, set_accounts_alter_None by done.
    by destruct (eval _ db).
  - intros userId despesaData novoId Hacc.
    destruct (create_ok tz userId despesaData novoId db) as [-> ->]. split; [by eexists|].
    destruct (confirmado _); [|done].
    rewrite exec_processarDespesa. cbn [passoOrcamento set_orcamento gzen_accounts].
    rewrite gzen_accounts_passoContaDespesa. cbn [dp_account_id]. rewrite Hacc.
    by apply alter_ausente.
  - intros despesaId userId updateData antiga Hfind Hant Hnov.
    destruct (update_ok tz despesaId userId updateData db antiga Hfind) as [-> ->].
    split; [done|]. rewrite exec_handleBalanceUpdates.
    destruct (confirmado (dp_status antiga)), (confirmado (dp_status _));
      rewrite ?exec_processarDespesa, ?exec_reverterDespesa;
      cbn [passoOrcamento set_orcamento gzen_accounts];
      rewrite ?gzen_accounts_passoContaDespesa;
      cbn [passoOrcamento set_orcamento gzen_accounts];
      rewrite ?gzen_accounts_passoContaDespesa, ?Hant;
      cbn [set_despesas gzen_accounts];
      rewrite ?Halter, ?(alter_ausente _ _ _ Hnov), ?Halter; done.
  - intros despesaId userId despesa Hfind Hacc.
    destruct (delete_ok tz despesaId userId db despesa Hfind) as [-> ->].
    split; [done|]. destruct (confirmado _); [|done].
    rewrite exec_reverterDespesa. cbn [passoOrcamento set_orcamento gzen_accounts].
    rewrite gzen_accounts_passoContaDespesa, Hacc. by apply alter_ausente.
  - intros userId receitaData novoId Hacc.
    destruct (create_receita_ok tz userId receitaData novoId db) as [-> ->].
    split; [by eexists|]. destruct (confirmado _); [|done].
    rewrite gzen_accounts_passoReceita. cbn [rc_account_id]. rewrite Hacc.
    by apply alter_ausente.
  - intros receitaId userId updateData antiga Hfind Hant Hnov.
    destruct (update_receita_ok tz receitaId userId updateData db antiga Hfind) as [-> ->].
    split; [done|]. rewrite exec_handleBalanceUpdates_receita.
    destruct (confirmado (rc_status antiga)), (confirmado (rc_status _));
      rewrite ?gzen_accounts_passoReceita, ?Hant;
      cbn [set_receitas gzen_accounts];
      rewrite ?Halter, ?(alter_ausente _ _ _ Hnov), ?Halter; done.
  - intros receitaId userId receita Hfind Hacc.
    destruct (delete_receita_ok tz receitaId userId db receita Hfind) as [-> ->].
    split; [done|]. destruct (confirmado _); [|done].
    rewrite gzen_accounts_passoReceita, Hacc. by apply alter_ausente.
Qed.

Lemma conta_inexistente_nao_propaga_erro_witness :
  gzen_accounts (ex_db_ledger ∅ (ex_despesa 50 confirmada true)
                              (ex_receita 50 confirmada true)
                              (mkOrcamento 50 50 0 None)) !! "A" = None ∧
  Despesa.updateAccountBalance "A" 50 OpSubtract
    (ex_db_ledger ∅ (ex_despesa 50 confirmada true) (ex_receita 50 confirmada true)
                  (mkOrcamento 50 50 0 None)) =
    (tt, ex_db_ledger ∅ (ex_despesa 50 confirmada true) (ex_receita 50 confirmada true)
                      (mkOrcamento 50 50 0 None)) ∧
  eval (Despesa.update 0 "d1" "u" (mkUpdateDespesaData None (Some 70) None None None None) None)
       (ex_db_ledger ∅ (ex_despesa 50 confirmada true) (ex_receita 50 confirmada true)
                     (mkOrcamento 50 50 0 None)) = Ok (ex_despesa 70 confirmada true) ∧
  eval (Despesa.delete 0 "d1" "u" None)
       (ex_db_ledger ∅ (ex_despesa 50 confirmada true) (ex_receita 50 confirmada true)
                     (mkOrcamento 50 50 0 None)) = Ok tt ∧
  eval (Receita.delete 0 "r1" "u" None)
       (ex_db_ledger ∅ (ex_despesa 50 confirmada true) (ex_receita 50 confirmada true)
                     (mkOrcamento 50 50 0 None)) = Ok tt.
Proof.
  set (db := ex_db_ledger ∅ (ex_despesa 50 confirmada true) (ex_receita 50 confirmada true)
                          (mkOrcamento 50 50 0 None)).
  assert (Hnone : gzen_accounts db !! "A" = None) by reflexivity.
  destruct (conta_inexistente_nao_propaga_erro 0 db "A" Hnone)
    as (Hmut & _ & Hupd & Hdel & _ & _ & Hdelr).
  split; [exact Hnone|]. split; [apply Hmut|].
  split; [|split].
  - apply (Hupd "d1" "u" (mkUpdateDespesaData None (Some 70) None None None None)
                (ex_despesa 50 confirmada true)); reflexivity.
  - apply (Hdel "d1" "u" (ex_despesa 50 confirmada true)); reflexivity.
  - apply (Hdelr "r1" "u" (ex_receita 50 confirmada true)); reflexivity.
Defined.

(** C8. When the primary write of the transaction row fails (the insert of
    [create], the update of [update], the write of the [ativo] flag of
    [delete]), the operation answers an error and the store is left as it
    was: no balance, card limit or budget total is touched.  The error is
    the one of the storage layer, or "not found" when the row was never
    there.  Expense and income variant. *)
Theorem falha_primaria_sem_efeitos
    tz userId id novoId despesaData updateDespesa receitaData updateReceita message db :
  Despesa.create tz userId despesaData novoId (Some message) db = (Erro message, db) ∧
  Despesa.update tz id userId updateDespesa (Some message) db =
    (Erro (match eval (Despesa.findById id userId) db with
           | Some _ => message
           | None => "Despesa não encontrada"
           end), db) ∧
  Despesa.delete tz id userId (Some message) db =
    (Erro (match eval (Despesa.findById id userId) db with
           | Some _ => message
           | None => "Despesa não encontrada"
           end), db) ∧
  Receita.create tz userId receitaData novoId (Some message) db = (Erro message, db) ∧
  Receita.update tz id userId updateReceita (Some message) db =
    (Erro (match eval (Receita.findById id userId) db with
           | Some _ => message
           | None => "Receita não encontrada"
           end), db) ∧
  Receita.delete tz id userId (Some message) db =
    (Erro (match eval (Receita.findById id userId) db with
           | Some _ => message
           | None => "Receita não encontrada"
           end), db).
Proof.
  split_and!; try done; rewrite efeito_eta.
  - unfold Despesa.update. passo. by destruct (eval (Despesa.findById id userId) db).
  - unfold Despesa.delete. passo. by destruct (eval (Despesa.findById id userId) db).
  - unfold Receita.update. passo. by destruct (eval (Receita.findById id userId) db).
  - unfold Receita.delete. passo. by destruct (eval (Receita.findById id userId) db).
Qed.

(** C9. The period a transaction is rolled into: [updateOrcamento] reads the
    month and the year of [new Date(data)] in the server's local time, so on
    a server west of Greenwich a date on the first of a month lands in the
    month before.  On a server at UTC-3 (Sao Paulo, -180 minutes), the
    creation of a confirmed expense of 200 dated 2024-03-01 writes the budget
    row of (2, 2024) and none for (3, 2024), while [Orcamento.recalcular]
    for (3, 2024) counts that same expense in March. *)
Theorem periodo_depende_do_fuso :
  periodoDe (-180) (mkData 2024 3 1) = (2, 2024) ∧
  periodoDe 0 (mkData 2024 3 1) = (3, 2024) ∧
  gzen_orcamento
    (exec (Despesa.create (-180) "u"
             (mkDespesaData "A" 200 (mkData 2024 3 1) confirmada false None) "d1" None)
          (ex_db_conta 1000)) !! ("u", 3, 2024) = None ∧
  gzen_orcamento
    (exec (Despesa.create (-180) "u"
             (mkDespesaData "A" 200 (mkData 2024 3 1) confirmada false None) "d1" None)
          (ex_db_conta 1000)) !! ("u", 2, 2024) = Some (mkOrcamento 0 200 (-200) None) ∧
  eval (Orcamento.recalcular "u" 3 2024 None)
    (exec (Despesa.create (-180) "u"
             (mkDespesaData "A" 200 (mkData 2024 3 1) confirmada false None) "d1" None)
          (ex_db_conta 1000)) = Ok (mkOrcamento 0 200 (-200) None).
Proof. split_and!; reflexivity. Qed.

(** C10. Delete is not idempotent on a confirmed transaction: the lookup of
    [delete] does not filter on [ativo].  For a confirmed row that is
    already soft-deleted the row is found, [delete] answers success, and the
    effect is reversed once more: the balance of its account moves by the
    amount and so does the total of its period (when that period has its
    row).  And for any confirmed row, a [delete] followed by a second
    [delete] succeeds twice, the second moving the balance and the period
    total by the same amount again.  Expense and income variant. *)
Theorem delete_repetido_reverte_de_novo tz db userId :
  (∀ despesaId despesa,
     gzen_despesas db !! despesaId = Some despesa →
     dp_user_id despesa = userId →
     dp_status despesa = confirmada →
     let periodo := chaveOrcamento tz userId (dp_data_despesa despesa) in
     let db1 := exec (Despesa.delete tz despesaId userId None) db in
     let db2 := exec (Despesa.delete tz despesaId userId None) db1 in
     (dp_ativo despesa = false →
      eval (Despesa.findById despesaId userId) db = Some despesa ∧
      eval (Despesa.delete tz despesaId userId None) db = Ok tt ∧
      saldoDe db1 (dp_account_id despesa) =
        (λ saldo, saldo + dp_valor despesa) <$> saldoDe db (dp_account_id despesa) ∧
      (is_Some (gzen_orcamento db !! periodo) →
       despesaTotalDe db1 periodo = despesaTotalDe db periodo - dp_valor despesa)) ∧
     eval (Despesa.delete tz despesaId userId None) db = Ok tt ∧
     dp_ativo <$> gzen_despesas db1 !! despesaId = Some false ∧
     eval (Despesa.delete tz despesaId userId None) db1 = Ok tt ∧
     saldoDe db2 (dp_account_id despesa) =
       (λ saldo, saldo + dp_valor despesa) <$> saldoDe db1 (dp_account_id despesa) ∧
     despesaTotalDe db2 periodo = despesaTotalDe db1 periodo - dp_valor despesa) ∧
  (∀ receitaId receita,
     gzen_receitas db !! receitaId = Some receita →
     rc_user_id receita = userId →
     rc_status receita = confirmada →
     let periodo := chaveOrcamento tz userId (rc_data_receita receita) in
     let db1 := exec (Receita.delete tz receitaId userId None) db in
     let db2 := exec (Receita.delete tz receitaId userId None) db1 in
     (rc_ativo receita = false →
      eval (Receita.findById receitaId userId) db = Some receita ∧
      eval (Receita.delete tz receitaId userId None) db = Ok tt ∧
      saldoDe db1 (rc_account_id receita) =
        (λ saldo, saldo - rc_valor receita) <$> saldoDe db (rc_account_id receita) ∧
      (is_Some (gzen_orcamento db !! periodo) →
       receitaTotalDe db1 periodo = receitaTotalDe db periodo - rc_valor receita)) ∧
     eval (Receita.delete tz receitaId userId None) db = Ok tt ∧
     rc_ativo <$> gzen_receitas db1 !! receitaId = Some false ∧
     eval (Receita.delete tz receitaId userId None) db1 = Ok tt ∧
     saldoDe db2 (rc_account_id receita) =
       (λ saldo, saldo - rc_valor receita) <$> saldoDe db1 (rc_account_id receita) ∧
     receitaTotalDe db2 periodo = receitaTotalDe db1 periodo - rc_valor receita).
Proof.
  split.
  - intros despesaId despesa Hrow Huser Hst periodo db1 db2.
    assert (Hfind : eval (Despesa.findById despesaId userId) db = Some despesa)
      by by apply findById_Some.
    destruct (delete_confirmada tz despesaId userId db despesa Hfind Hst) as [Hev _].
    destruct (delete_confirmada_efeito tz despesaId userId db despesa Hfind Hst)
      as (Hfind1 & Hsaldo1 & Hsome1 & Htotal1).
    fold db1 in Hfind1, Hsaldo1, Hsome1, Htotal1. fold periodo in Hsome1, Htotal1.
    destruct (delete_confirmada tz despesaId userId db1 _ Hfind1 Hst) as [Hev1 _].
    destruct (delete_confirmada_efeito tz despesaId userId db1 _ Hfind1 Hst)
      as (_ & Hsaldo2 & _ & Htotal2).
    split_and!; try done.
    + apply findById_Some in Hfind1 as [-> _]. done.
    + by apply Htotal2.
  - intros receitaId receita Hrow Huser Hst periodo db1 db2.
    assert (Hfind : eval (Receita.findById receitaId userId) db = Some receita)
      by by apply findById_receita_Some.
    destruct (delete_receita_confirmada tz receitaId userId db receita Hfind Hst) as [Hev _].
    destruct (delete_receita_confirmada_efeito tz receitaId userId db receita Hfind Hst)
      as (Hfind1 & Hsaldo1 & Hsome1 & Htotal1).
    fold db1 in Hfind1, Hsaldo1, Hsome1, Htotal1. fold periodo in Hsome1, Htotal1.
    destruct (delete_receita_confirmada tz receitaId userId db1 _ Hfind1 Hst) as [Hev1 _].
    destruct (delete_receita_confirmada_efeito tz receitaId userId db1 _ Hfind1 Hst)
      as (_ & Hsaldo2 & _ & Htotal2).
    split_and!; try done.
    + apply findById_receita_Some in Hfind1 as [-> _]. done.
    + by apply Htotal2.
Qed.

Lemma delete_repetido_reverte_de_novo_witness :
  gzen_despesas
    (ex_db_ledger {[ "A" := ex_conta 1000 ]} (ex_despesa 200 confirmada false)
                  (ex_receita 50 confirmada false) (mkOrcamento 50 200 (-150) None))
    !! "d1" = Some (ex_despesa 200 confirmada false) ∧
  eval (Despesa.delete 0 "d1" "u" None)
    (ex_db_ledger {[ "A" := ex_conta 1000 ]} (ex_despesa 200 confirmada false)
                  (ex_receita 50 confirmada false) (mkOrcamento 50 200 (-150) None)) =
    Ok tt ∧
  saldoDe
    (exec (Despesa.delete 0 "d1" "u" None)
       (ex_db_ledger {[ "A" := ex_conta 1000 ]} (ex_despesa 200 confirmada false)
                     (ex_receita 50 confirmada false) (mkOrcamento 50 200 (-150) None)))
    "A" = Some 1200 ∧
  despesaTotalDe
    (exec (Despesa.delete 0 "d1" "u" None)
       (ex_db_ledger {[ "A" := ex_conta 1000 ]} (ex_despesa 200 confirmada false)
                     (ex_receita 50 confirmada false) (mkOrcamento 50 200 (-150) None)))
    ("u", 3, 2024) = 0 ∧
  saldoDe
    (exec (Receita.delete 0 "r1" "u" None)
       (ex_db_ledger {[ "A" := ex_conta 1000 ]} (ex_despesa 200 confirmada false)
                     (ex_receita 50 confirmada false) (mkOrcamento 50 200 (-150) None)))
    "A" = Some 950.
Proof.
  set (db := ex_db_ledger {[ "A" := ex_conta 1000 ]} (ex_despesa 200 confirmada false)
                          (ex_receita 50 confirmada false) (mkOrcamento 50 200 (-150) None)).
  assert (Hrow : gzen_despesas db !! "d1" = Some (ex_despesa 200 confirmada false))
    by reflexivity.
  assert (Hrec : gzen_receitas db !! "r1" = Some (ex_receita 50 confirmada false))
    by reflexivity.
  assert (Horc : is_Some (gzen_orcamento db !! ("u", 3, 2024)))
    by (exists (mkOrcamento 50 200 (-150) None); reflexivity).
  destruct (delete_repetido_reverte_de_novo 0 db "u") as [Hd Hr].
  destruct (Hd "d1" (ex_despesa 200 confirmada false) Hrow eq_refl eq_refl)
    as (Hdel & _).
  destruct (Hdel eq_refl) as (_ & Hok & H1 & H2).
  destruct (Hr "r1" (ex_receita 50 confirmada false) Hrec eq_refl eq_refl) as (Hdelr & _).
  destruct (Hdelr eq_refl) as (_ & _ & H3 & _).
  split; [exact Hrow|]. split; [exact Hok|]. split; [exact H1|].
  split; [exact (H2 Horc)|exact H3].
Defined.

(** * Further properties of the code *)

(** ** Further properties of the mutators *)

Lemma alter_alter_id `{Countable K} {V} (f g : V → V) (k : K) (m : gmap K V) :
  (∀ x, m !! k = Some x → f (g x) = x) → alter f k (alter g k m) = m.
Proof.
  intros Hfg. apply map_eq. intros j.
  destruct (decide (k = j)) as [->|Hne]; [|by rewrite !lookup_alter_ne].
  rewrite !lookup_alter_eq. destruct (m !! j) as [x|] eqn:E; [|done].
  cbn. f_equal. by apply Hfg.
Qed.

Lemma set_accounts_set_accounts f g db :
  set_accounts f (set_accounts g db) = set_accounts (f ∘ g) db.
Proof. done. Qed.

Lemma set_accounts_id f db :
  f (gzen_accounts db) = gzen_accounts db → set_accounts f db = db.
Proof. intros Hf. destruct db. unfold set_accounts. cbn in *. by rewrite Hf. Qed.

Lemma ajustaSaldo_inverso v account :
  ajustaSaldo v OpSubtract (ajustaSaldo v OpAdd account) = account ∧
  ajustaSaldo v OpAdd (ajustaSaldo v OpSubtract account) = account.
Proof.
  destruct account. unfold ajustaSaldo, com_saldo. cbn. split; f_equal; lia.
Qed.

(** X1. The balance mutation changes nothing but the balance of the one
    account, and a credit followed by a debit of the same amount (or a debit
    followed by a credit) gives back the very store it started from, whether
    the account exists or not. *)
Theorem updateAccountBalance_ida_e_volta accountId valor operation db :
  (∀ outra, outra ≠ accountId →
     gzen_accounts (exec (updateAccountBalance accountId valor operation) db) !! outra =
     gzen_accounts db !! outra) ∧
  (∀ conta conta',
     gzen_accounts db !! accountId = Some conta →
     gzen_accounts (exec (updateAccountBalance accountId valor operation) db) !! accountId =
       Some conta' →
     acc_user_id conta' = acc_user_id conta ∧ acc_tipo_conta conta' = acc_tipo_conta conta ∧
     acc_ativo conta' = acc_ativo conta) ∧
  exec (updateAccountBalance accountId valor OpSubtract)
       (exec (updateAccountBalance accountId valor OpAdd) db) = db ∧
  exec (updateAccountBalance accountId valor OpAdd)
       (exec (updateAccountBalance accountId valor OpSubtract) db) = db.
Proof.
  rewrite !exec_updateAccountBalance. split_and!.
  - intros outra Hne. cbn. by rewrite lookup_alter_ne.
  - intros conta conta'. cbn. rewrite lookup_alter_eq. intros -> [= <-]. done.
  - rewrite set_accounts_set_accounts. apply set_accounts_id. cbn.
    apply alter_alter_id. intros x _. apply ajustaSaldo_inverso.
  - rewrite set_accounts_set_accounts. apply set_accounts_id. cbn.
    apply alter_alter_id. intros x _. apply ajustaSaldo_inverso.
Qed.

Lemma updateAccountBalance_ida_e_volta_witness :
  gzen_accounts (ex_db_conta 1000) !! "A" = Some (ex_conta 1000) ∧
  acc_ativo <$> gzen_accounts (exec (updateAccountBalance "A" 30 OpAdd) (ex_db_conta 1000))
                !! "A" = Some true ∧
  exec (updateAccountBalance "A" 30 OpSubtract)
       (exec (updateAccountBalance "A" 30 OpAdd) (ex_db_conta 1000)) = ex_db_conta 1000.
Proof.
  destruct (updateAccountBalance_ida_e_volta "A" 30 OpAdd (ex_db_conta 1000))
    as (_ & Hcampos & Hvolta & _).
  assert (Hantes : gzen_accounts (ex_db_conta 1000) !! "A" = Some (ex_conta 1000))
    by reflexivity.
  assert (Hdepois : gzen_accounts (exec (updateAccountBalance "A" 30 OpAdd) (ex_db_conta 1000))
                    !! "A" = Some (ex_conta 1030)) by reflexivity.
  destruct (Hcampos _ _ Hantes Hdepois) as (_ & _ & Hativo).
  split; [exact Hantes|]. split; [by rewrite Hdepois|exact Hvolta].
Defined.

(** ** Card limits under the invoice-payment steps *)

Lemma gzen_cartao_passoContaDespesa op despesa db :
  gzen_cartao_credito (passoContaDespesa op despesa db) =
  if ehPagamentoFatura despesa
  then match dp_cartao_origem_id despesa with
       | Some c => alter (match op with
                          | OpSubtract => restauraLimite (dp_valor despesa)
                          | OpAdd => reduzLimite (dp_valor despesa)
                          end) c (gzen_cartao_credito db)
       | None => gzen_cartao_credito db
       end
  else gzen_cartao_credito db.
Proof.
  unfold passoContaDespesa, noCartao.
  destruct (ehPagamentoFatura despesa); [|done].
  by destruct (dp_cartao_origem_id despesa).
Qed.

Lemma gzen_cartao_passoOrcamento tz u data v tipo op db :
  gzen_cartao_credito (passoOrcamento tz u data v tipo op db) = gzen_cartao_credito db.
Proof. done. Qed.

Lemma gzen_accounts_passoOrcamento tz u data v tipo op db :
  gzen_accounts (passoOrcamento tz u data v tipo op db) = gzen_accounts db.
Proof. done. Qed.

Lemma ehPagamentoFatura_true despesa c :
  dp_eh_pagamento_fatura despesa = true → dp_cartao_origem_id despesa = Some c →
  ehPagamentoFatura despesa = true.
Proof. intros Hf Hc. unfold ehPagamentoFatura. rewrite Hf, Hc. done. Qed.

(** X2. The card limit stays within its bounds.  For an invoice payment
    against an existing card, neither step changes [limite_total]; the
    forward step never leaves the available limit above the total and the
    reverse step never leaves it below zero; and when the payment value is
    not negative and the card had 0 <= available <= total, it still has
    after either step.  Cards other than the paid one are not touched. *)
Theorem limite_do_cartao_dentro_dos_limites tz db userId despesa cartaoId cartao :
  dp_eh_pagamento_fatura despesa = true →
  dp_cartao_origem_id despesa = Some cartaoId →
  gzen_cartao_credito db !! cartaoId = Some cartao →
  ∃ ida volta,
    gzen_cartao_credito (exec (Despesa.processarDespesa tz despesa userId) db) !! cartaoId =
      Some ida ∧
    gzen_cartao_credito (exec (Despesa.reverterDespesa tz despesa userId) db) !! cartaoId =
      Some volta ∧
    limite_total ida = limite_total cartao ∧ limite_total volta = limite_total cartao ∧
    limite_disponivel ida ≤ limite_total cartao ∧
    0 ≤ limite_disponivel volta ∧
    (0 ≤ dp_valor despesa → 0 ≤ limite_disponivel cartao ≤ limite_total cartao →
     0 ≤ limite_disponivel ida ≤ limite_total cartao ∧
     0 ≤ limite_disponivel volta ≤ limite_total cartao) ∧
    (∀ outro, outro ≠ cartaoId →
       gzen_cartao_credito (exec (Despesa.processarDespesa tz despesa userId) db) !! outro =
         gzen_cartao_credito db !! outro ∧
       gzen_cartao_credito (exec (Despesa.reverterDespesa tz despesa userId) db) !! outro =
         gzen_cartao_credito db !! outro).
Proof.
  intros Hf Hc E. rewrite exec_processarDespesa, exec_reverterDespesa.
  rewrite !gzen_cartao_passoOrcamento, !gzen_cartao_passoContaDespesa.
  rewrite (ehPagamentoFatura_true _ _ Hf Hc), Hc.
  exists (restauraLimite (dp_valor despesa) cartao), (reduzLimite (dp_valor despesa) cartao).
  rewrite !lookup_alter_eq, E. cbn.
  split_and!; try done; try lia.
  intros outro Hne. by rewrite !lookup_alter_ne.
Qed.

Lemma limite_do_cartao_dentro_dos_limites_witness :
  gzen_cartao_credito (ex_db_cartao 5000 5000 3000 3000) !! "C" = Some (mkCartao 5000 3000) ∧
  ∃ ida,
    gzen_cartao_credito
      (exec (Despesa.processarDespesa 0 (ex_pagamento 3000) "u")
            (ex_db_cartao 5000 5000 3000 3000)) !! "C" = Some ida ∧
    0 ≤ limite_disponivel ida ≤ 5000.
Proof.
  assert (E : gzen_cartao_credito (ex_db_cartao 5000 5000 3000 3000) !! "C" =
              Some (mkCartao 5000 3000)) by reflexivity.
  destruct (limite_do_cartao_dentro_dos_limites 0 (ex_db_cartao 5000 5000 3000 3000) "u"
              (ex_pagamento 3000) "C" (mkCartao 5000 3000) eq_refl eq_refl E)
    as (ida & volta & Hida & _ & _ & _ & _ & _ & Hlim & _).
  split; [exact E|]. exists ida. split; [exact Hida|].
  assert (Hv : 0 ≤ dp_valor (ex_pagamento 3000)) by (cbn; lia).
  assert (Hc : 0 ≤ limite_disponivel (mkCartao 5000 3000) ≤ limite_total (mkCartao 5000 3000))
    by (cbn; lia).
  exact (proj1 (Hlim Hv Hc)).
Defined.

(** X3. An invoice payment that the forward step did not clamp is undone
    exactly.  When the card had a non-negative available limit and the
    payment fits under the total limit, applying the expense and then
    reversing it leaves the account table and the card table exactly as
    they were. *)
Theorem pagamento_fatura_sem_corte_desfaz tz db userId despesa cartaoId cartao :
  dp_eh_pagamento_fatura despesa = true →
  dp_cartao_origem_id despesa = Some cartaoId →
  gzen_cartao_credito db !! cartaoId = Some cartao →
  0 ≤ limite_disponivel cartao →
  limite_disponivel cartao + dp_valor despesa ≤ limite_total cartao →
  let db2 := exec (Despesa.reverterDespesa tz despesa userId)
               (exec (Despesa.processarDespesa tz despesa userId) db) in
  gzen_accounts db2 = gzen_accounts db ∧
  gzen_cartao_credito db2 = gzen_cartao_credito db.
Proof.
  intros Hf Hc E Hpos Hfit. cbn zeta.
  rewrite exec_processarDespesa, exec_reverterDespesa. split.
  - rewrite gzen_accounts_passoOrcamento, gzen_accounts_passoContaDespesa,
      gzen_accounts_passoOrcamento, gzen_accounts_passoContaDespesa.
    apply alter_alter_id. intros x _. apply ajustaSaldo_inverso.
  - rewrite gzen_cartao_passoOrcamento, gzen_cartao_passoContaDespesa,
      gzen_cartao_passoOrcamento, gzen_cartao_passoContaDespesa.
    rewrite (ehPagamentoFatura_true _ _ Hf Hc), Hc.
    apply alter_alter_id. intros x Hx. rewrite E in Hx. injection Hx as <-.
    destruct cartao as [total disp]. unfold reduzLimite, restauraLimite. cbn in *.
    f_equal. lia.
Qed.

Lemma pagamento_fatura_sem_corte_desfaz_witness :
  gzen_cartao_credito (ex_db_cartao 2000 5000 3000 1000) !! "C" = Some (mkCartao 5000 3000) ∧
  saldoDe (exec (Despesa.processarDespesa 0 (ex_pagamento 1000) "u")
                (ex_db_cartao 2000 5000 3000 1000)) "A" = Some 1000 ∧
  limiteDisponivelDe (exec (Despesa.processarDespesa 0 (ex_pagamento 1000) "u")
                           (ex_db_cartao 2000 5000 3000 1000)) "C" = Some 4000 ∧
  gzen_cartao_credito
    (exec (Despesa.reverterDespesa 0 (ex_pagamento 1000) "u")
       (exec (Despesa.processarDespesa 0 (ex_pagamento 1000) "u")
             (ex_db_cartao 2000 5000 3000 1000))) =
    gzen_cartao_credito (ex_db_cartao 2000 5000 3000 1000).
Proof.
  assert (E : gzen_cartao_credito (ex_db_cartao 2000 5000 3000 1000) !! "C" =
              Some (mkCartao 5000 3000)) by reflexivity.
  assert (Hpos : 0 ≤ limite_disponivel (mkCartao 5000 3000)) by (cbn; lia).
  assert (Hfit : limite_disponivel (mkCartao 5000 3000) + dp_valor (ex_pagamento 1000) ≤
                 limite_total (mkCartao 5000 3000)) by (cbn; lia).
  destruct (pagamento_fatura_sem_corte_desfaz 0 (ex_db_cartao 2000 5000 3000 1000) "u"
              (ex_pagamento 1000) "C" (mkCartao 5000 3000) eq_refl eq_refl E Hpos Hfit)
    as [_ Hcartoes].
  split; [exact E|]. split; [reflexivity|]. split; [reflexivity|exact Hcartoes].
Defined.

(** ** The budget step and its neighbours *)

(** X4. An incremental budget update touches one row only: the rows of
    every other period and of every other user are as they were, no row
    disappears, the row of the period exists afterwards, its savings goal is
    the one it had, and no other table changes. *)
Theorem updateOrcamento_so_o_periodo tz userId data valor tipo operation db :
  let db' := exec (updateOrcamento tz userId data valor tipo operation) db in
  let periodo := chaveOrcamento tz userId data in
  (∀ outro, outro ≠ periodo → gzen_orcamento db' !! outro = gzen_orcamento db !! outro) ∧
  is_Some (gzen_orcamento db' !! periodo) ∧
  (∀ o o', gzen_orcamento db !! periodo = Some o → gzen_orcamento db' !! periodo = Some o' →
           meta_economia o' = meta_economia o) ∧
  gzen_accounts db' = gzen_accounts db ∧
  gzen_cartao_credito db' = gzen_cartao_credito db ∧
  gzen_despesas db' = gzen_despesas db ∧
  gzen_receitas db' = gzen_receitas db.
Proof.
  cbn zeta. rewrite exec_updateOrcamento. split_and!; try done.
  - intros outro Hne. rewrite gzen_orcamento_passoOrcamento. by rewrite lookup_insert_ne.
  - apply passoOrcamento_is_Some.
  - intros o o' Ho. rewrite gzen_orcamento_passoOrcamento, lookup_insert_eq, Ho.
    intros [= <-]. by destruct tipo.
Qed.

Lemma updateOrcamento_so_o_periodo_witness :
  gzen_orcamento
    (exec (updateOrcamento 0 "u" ex_data 70 TReceita OpAdd)
       (ex_db_ledger ∅ (ex_despesa 200 confirmada true) (ex_receita 50 confirmada true)
                     (mkOrcamento 50 200 (-150) (Some 10)))) !! ("u", 4, 2024) = None ∧
  meta_economia <$>
    gzen_orcamento
      (exec (updateOrcamento 0 "u" ex_data 70 TReceita OpAdd)
         (ex_db_ledger ∅ (ex_despesa 200 confirmada true) (ex_receita 50 confirmada true)
                       (mkOrcamento 50 200 (-150) (Some 10)))) !! ("u", 3, 2024) =
    Some (Some 10).
Proof.
  set (db := ex_db_ledger ∅ (ex_despesa 200 confirmada true) (ex_receita 50 confirmada true)
                          (mkOrcamento 50 200 (-150) (Some 10))).
  destruct (updateOrcamento_so_o_periodo 0 "u" ex_data 70 TReceita OpAdd db)
    as (Houtro & [o' Ho'] & Hmeta & _).
  assert (Hne : ("u", 4, 2024) ≠ chaveOrcamento 0 "u" ex_data) by discriminate.
  split.
  - rewrite (Houtro _ Hne). reflexivity.
  - change ("u", 3, 2024) with (chaveOrcamento 0 "u" ex_data).
    rewrite Ho'. cbn. do 2 f_equal.
    apply (Hmeta (mkOrcamento 50 200 (-150) (Some 10)) o'); [reflexivity|exact Ho'].
Defined.

(** X5. Reversal on a period that has no budget row adds instead of
    subtracting: the insert branch of [updateOrcamento] does not look at the
    operation.  Soft-deleting a confirmed expense (or income) whose period
    has no row creates the row with the amount as its expense (income)
    total, where an existing row would have lost that amount. *)
Theorem delete_sem_linha_de_orcamento_soma tz db userId :
  (∀ despesaId despesa,
     eval (Despesa.findById despesaId userId) db = Some despesa →
     dp_status despesa = confirmada →
     gzen_orcamento db !! chaveOrcamento tz userId (dp_data_despesa despesa) = None →
     gzen_orcamento (exec (Despesa.delete tz despesaId userId None) db)
       !! chaveOrcamento tz userId (dp_data_despesa despesa) =
     Some (mkOrcamento 0 (dp_valor despesa) (- dp_valor despesa) None)) ∧
  (∀ receitaId receita,
     eval (Receita.findById receitaId userId) db = Some receita →
     rc_status receita = confirmada →
     gzen_orcamento db !! chaveOrcamento tz userId (rc_data_receita receita) = None →
     gzen_orcamento (exec (Receita.delete tz receitaId userId None) db)
       !! chaveOrcamento tz userId (rc_data_receita receita) =
     Some (mkOrcamento (rc_valor receita) 0 (rc_valor receita) None)).
Proof.
  split.
  - intros despesaId despesa Hfind Hst Hnone.
    destruct (delete_confirmada tz despesaId userId db despesa Hfind Hst) as [_ ->].
    rewrite gzen_orcamento_passoOrcamento, lookup_insert_eq,
      gzen_orcamento_passoContaDespesa.
    cbn [set_despesas gzen_orcamento]. by rewrite Hnone.
  - intros receitaId receita Hfind Hst Hnone.
    destruct (delete_receita_confirmada tz receitaId userId db receita Hfind Hst) as [_ ->].
    unfold passoReceita. rewrite gzen_orcamento_passoOrcamento, lookup_insert_eq.
    cbn [set_accounts set_receitas gzen_orcamento]. by rewrite Hnone.
Qed.

Lemma delete_sem_linha_de_orcamento_soma_witness :
  eval (Despesa.findById "d1" "u")
       (mkDB ∅ ∅ {[ "d1" := ex_despesa 200 confirmada true ]} ∅ ∅) =
    Some (ex_despesa 200 confirmada true) ∧
  despesaTotalDe
    (exec (Despesa.delete 0 "d1" "u" None)
          (mkDB ∅ ∅ {[ "d1" := ex_despesa 200 confirmada true ]} ∅ ∅)) ("u", 3, 2024) = 200.
Proof.
  set (db := mkDB ∅ ∅ {[ "d1" := ex_despesa 200 confirmada true ]} ∅ ∅).
  assert (Hfind : eval (Despesa.findById "d1" "u") db = Some (ex_despesa 200 confirmada true))
    by reflexivity.
  destruct (delete_sem_linha_de_orcamento_soma 0 db "u") as [Hd _].
  pose proof (Hd "d1" (ex_despesa 200 confirmada true) Hfind eq_refl eq_refl) as Hrow.
  split; [exact Hfind|]. unfold despesaTotalDe.
  change ("u", 3, 2024) with (chaveOrcamento 0 "u" (dp_data_despesa (ex_despesa 200 confirmada true))).
  rewrite Hrow. reflexivity.
Defined.

(** ** The ledger operations *)

(** X6. An update that starts and ends at a status other than confirmed has
    no monetary effect, whatever fields it changes: it succeeds, stores the
    patched row, and leaves every account, card and budget row as it was.
    Expense and income variant. *)
Theorem update_sem_confirmacao_nao_tem_efeito tz db userId :
  (∀ despesaId updateData antiga,
     eval (Despesa.findById despesaId userId) db = Some antiga →
     dp_status antiga ≠ confirmada →
     dp_status (Despesa.aplicaUpdate updateData antiga) ≠ confirmada →
     Despesa.update tz despesaId userId updateData None db =
       (Ok (Despesa.aplicaUpdate updateData antiga),
        set_despesas <[despesaId := Despesa.aplicaUpdate updateData antiga]> db)) ∧
  (∀ receitaId updateData antiga,
     eval (Receita.findById receitaId userId) db = Some antiga →
     rc_status antiga ≠ confirmada →
     rc_status (Receita.aplicaUpdate updateData antiga) ≠ confirmada →
     Receita.update tz receitaId userId updateData None db =
       (Ok (Receita.aplicaUpdate updateData antiga),
        set_receitas <[receitaId := Receita.aplicaUpdate updateData antiga]> db)).
Proof.
  split.
  - intros despesaId updateData antiga Hfind Hant Hnov. rewrite efeito_eta.
    destruct (update_ok tz despesaId userId updateData db antiga Hfind) as [-> ->].
    rewrite exec_handleBalanceUpdates.
    by rewrite (confirmado_false _ Hant), (confirmado_false _ Hnov).
  - intros receitaId updateData antiga Hfind Hant Hnov. rewrite efeito_eta.
    destruct (update_receita_ok tz receitaId userId updateData db antiga Hfind) as [-> ->].
    rewrite exec_handleBalanceUpdates_receita.
    by rewrite (confirmado_false _ Hant), (confirmado_false _ Hnov).
Qed.

Lemma update_sem_confirmacao_nao_tem_efeito_witness :
  eval (Despesa.findById "d1" "u")
       (ex_db_ledger {[ "A" := ex_conta 1000 ]} (ex_despesa 300 pendente true)
                     (ex_receita 50 pendente true) (mkOrcamento 0 0 0 None)) =
    Some (ex_despesa 300 pendente true) ∧
  derivado
    (exec (Despesa.update 0 "d1" "u"
             (mkUpdateDespesaData None (Some 900) None (Some cancelada) None None) None)
       (ex_db_ledger {[ "A" := ex_conta 1000 ]} (ex_despesa 300 pendente true)
                     (ex_receita 50 pendente true) (mkOrcamento 0 0 0 None))) =
  derivado (ex_db_ledger {[ "A" := ex_conta 1000 ]} (ex_despesa 300 pendente true)
                         (ex_receita 50 pendente true) (mkOrcamento 0 0 0 None)).
Proof.
  set (db := ex_db_ledger {[ "A" := ex_conta 1000 ]} (ex_despesa 300 pendente true)
                          (ex_receita 50 pendente true) (mkOrcamento 0 0 0 None)).
  assert (Hfind : eval (Despesa.findById "d1" "u") db = Some (ex_despesa 300 pendente true))
    by reflexivity.
  destruct (update_sem_confirmacao_nao_tem_efeito 0 db "u") as [Hd _].
  assert (Hant : dp_status (ex_despesa 300 pendente true) ≠ confirmada) by discriminate.
  assert (Hnov : dp_status (Despesa.aplicaUpdate
                   (mkUpdateDespesaData None (Some 900) None (Some cancelada) None None)
                   (ex_despesa 300 pendente true)) ≠ confirmada) by discriminate.
  pose proof (Hd "d1" _ _ Hfind Hant Hnov) as Heq.
  split; [exact Hfind|]. unfold exec. rewrite Heq. reflexivity.
Defined.

(** X7. Soft-delete only flags the row.  A successful [delete] keeps the row
    in its table with [ativo = false] and every other column as it was, and
    changes no other row of the ledger; when the row was not confirmed it
    also leaves every account, card and budget row as it was.  Expense and
    income variant. *)
Theorem delete_apenas_marca tz db userId :
  (∀ despesaId despesa,
     eval (Despesa.findById despesaId userId) db = Some despesa →
     let db' := exec (Despesa.delete tz despesaId userId None) db in
     eval (Despesa.delete tz despesaId userId None) db = Ok tt ∧
     gzen_despesas db' = <[despesaId := Despesa.com_ativo_false despesa]> (gzen_despesas db) ∧
     gzen_receitas db' = gzen_receitas db ∧
     (dp_status despesa ≠ confirmada → derivado db' = derivado db)) ∧
  (∀ receitaId receita,
     eval (Receita.findById receitaId userId) db = Some receita →
     let db' := exec (Receita.delete tz receitaId userId None) db in
     eval (Receita.delete tz receitaId userId None) db = Ok tt ∧
     gzen_receitas db' = <[receitaId := Receita.com_ativo_false receita]> (gzen_receitas db) ∧
     gzen_despesas db' = gzen_despesas db ∧
     gzen_cartao_credito db' = gzen_cartao_credito db ∧
     (rc_status receita ≠ confirmada → derivado db' = derivado db)).
Proof.
  split.
  - intros despesaId despesa Hfind. cbn zeta.
    destruct (delete_ok tz despesaId userId db despesa Hfind) as [-> ->].
    destruct (confirmado (dp_status despesa)) eqn:Hc.
    + rewrite exec_reverterDespesa. split_and!; [done| | |].
      * by rewrite gzen_despesas_passoOrcamento, gzen_despesas_passoContaDespesa.
      * unfold passoContaDespesa, noCartao.
        destruct (ehPagamentoFatura despesa); [|done].
        by destruct (dp_cartao_origem_id despesa).
      * intros Hst. by rewrite (confirmado_false _ Hst) in Hc.
    + done.
  - intros receitaId receita Hfind. cbn zeta.
    destruct (delete_receita_ok tz receitaId userId db receita Hfind) as [-> ->].
    destruct (confirmado (rc_status receita)) eqn:Hc; [|done].
    split_and!; try done. intros Hst. by rewrite (confirmado_false _ Hst) in Hc.
Qed.

Lemma delete_apenas_marca_witness :
  eval (Despesa.findById "d1" "u")
       (ex_db_ledger {[ "A" := ex_conta 1000 ]} (ex_despesa 300 pendente true)
                     (ex_receita 50 pendente true) (mkOrcamento 0 0 0 None)) =
    Some (ex_despesa 300 pendente true) ∧
  gzen_despesas
    (exec (Despesa.delete 0 "d1" "u" None)
       (ex_db_ledger {[ "A" := ex_conta 1000 ]} (ex_despesa 300 pendente true)
                     (ex_receita 50 pendente true) (mkOrcamento 0 0 0 None))) !! "d1" =
    Some (ex_despesa 300 pendente false) ∧
  derivado
    (exec (Despesa.delete 0 "d1" "u" None)
       (ex_db_ledger {[ "A" := ex_conta 1000 ]} (ex_despesa 300 pendente true)
                     (ex_receita 50 pendente true) (mkOrcamento 0 0 0 None))) =
  derivado (ex_db_ledger {[ "A" := ex_conta 1000 ]} (ex_despesa 300 pendente true)
                         (ex_receita 50 pendente true) (mkOrcamento 0 0 0 None)).
Proof.
  set (db := ex_db_ledger {[ "A" := ex_conta 1000 ]} (ex_despesa 300 pendente true)
                          (ex_receita 50 pendente true) (mkOrcamento 0 0 0 None)).
  assert (Hfind : eval (Despesa.findById "d1" "u") db = Some (ex_despesa 300 pendente true))
    by reflexivity.
  destruct (delete_apenas_marca 0 db "u") as [Hd _].
  destruct (Hd "d1" _ Hfind) as (_ & Hrows & _ & Hder).
  assert (Hst : dp_status (ex_despesa 300 pendente true) ≠ confirmada) by discriminate.
  split; [exact Hfind|]. split; [|exact (Hder Hst)].
  rewrite Hrows. apply lookup_insert_eq.
Defined.

(** X8. A transaction is reachable only through its owner.  [findById]
    answers a row exactly when the table holds it under that id with that
    [user_id]; for an id that is absent or belongs to another user,
    [update] and [delete] answer the not-found error and leave the store as
    it was, whether or not the write would have succeeded.  Expense and
    income variant. *)
Theorem so_o_dono_alcanca tz db userId id :
  (eval (Despesa.findById id userId) db = None ↔
   ∀ despesa, gzen_despesas db !! id = Some despesa → dp_user_id despesa ≠ userId) ∧
  (eval (Despesa.findById id userId) db = None →
   ∀ updateData error,
     Despesa.update tz id userId updateData error db = (Erro "Despesa não encontrada", db) ∧
     Despesa.delete tz id userId error db = (Erro "Despesa não encontrada", db)) ∧
  (eval (Receita.findById id userId) db = None ↔
   ∀ receita, gzen_receitas db !! id = Some receita → rc_user_id receita ≠ userId) ∧
  (eval (Receita.findById id userId) db = None →
   ∀ updateData error,
     Receita.update tz id userId updateData error db = (Erro "Receita não encontrada", db) ∧
     Receita.delete tz id userId error db = (Erro "Receita não encontrada", db)).
Proof.
  split_and!.
  - unfold Despesa.findById. rewrite eval_consulta.
    destruct (gzen_despesas db !! id) as [d|]; [|by split].
    destruct (bool_decide_reflect (dp_user_id d = userId)) as [Hu|Hu].
    + split; [done|]. intros H. by destruct (H d eq_refl).
    + split; [|done]. by intros _ d' [= <-].
  - intros Hnone updateData error.
    rewrite (efeito_eta (Despesa.update _ _ _ _ _)), (efeito_eta (Despesa.delete _ _ _ _)).
    unfold Despesa.update, Despesa.delete. passo. by rewrite Hnone.
  - unfold Receita.findById. rewrite eval_consulta.
    destruct (gzen_receitas db !! id) as [r|]; [|by split].
    destruct (bool_decide_reflect (rc_user_id r = userId)) as [Hu|Hu].
    + split; [done|]. intros H. by destruct (H r eq_refl).
    + split; [|done]. by intros _ r' [= <-].
  - intros Hnone updateData error.
    rewrite (efeito_eta (Receita.update _ _ _ _ _)), (efeito_eta (Receita.delete _ _ _ _)).
    unfold Receita.update, Receita.delete. passo. by rewrite Hnone.
Qed.

Lemma so_o_dono_alcanca_witness :
  eval (Despesa.findById "d1" "intruso")
       (ex_db_ledger {[ "A" := ex_conta 1000 ]} (ex_despesa 300 confirmada true)
                     (ex_receita 50 pendente true) (mkOrcamento 0 300 (-300) None)) = None ∧
  Despesa.delete 0 "d1" "intruso" None
    (ex_db_ledger {[ "A" := ex_conta 1000 ]} (ex_despesa 300 confirmada true)
                  (ex_receita 50 pendente true) (mkOrcamento 0 300 (-300) None)) =
  (Erro "Despesa não encontrada",
   ex_db_ledger {[ "A" := ex_conta 1000 ]} (ex_despesa 300 confirmada true)
                (ex_receita 50 pendente true) (mkOrcamento 0 300 (-300) None)).
Proof.
  set (db := ex_db_ledger {[ "A" := ex_conta 1000 ]} (ex_despesa 300 confirmada true)
                          (ex_receita 50 pendente true) (mkOrcamento 0 300 (-300) None)).
  assert (Hnone : eval (Despesa.findById "d1" "intruso") db = None) by reflexivity.
  destruct (so_o_dono_alcanca 0 db "intruso" "d1") as (_ & Hd & _).
  split; [exact Hnone|].
  exact (proj2 (Hd Hnone (mkUpdateDespesaData None None None None None None) None)).
Defined.



Lemma aplicaUpdate_vazio despesa :
  Despesa.aplicaUpdate (mkUpdateDespesaData None None None None None None) despesa = despesa.
Proof. by destruct despesa. Qed.

(** X10. An edit that changes nothing is harmless for a plain expense.  An
    update with an empty patch of a confirmed expense that is not an invoice
    payment, whose period has its budget row, answers the row unchanged and
    leaves the ledger, every account and every card exactly as they were;
    the budget row keeps its totals and its savings goal, every other budget
    row is untouched, and the balance of the row is recomputed from the
    totals whenever the expense total is not zero. *)
Theorem edicao_vazia_de_despesa_confirmada tz db userId despesaId antiga orcamento :
  eval (Despesa.findById despesaId userId) db = Some antiga →
  dp_status antiga = confirmada →
  ehPagamentoFatura antiga = false →
  gzen_orcamento db !! chaveOrcamento tz userId (dp_data_despesa antiga) = Some orcamento →
  let vazio := mkUpdateDespesaData None None None None None None in
  let db' := exec (Despesa.update tz despesaId userId vazio None) db in
  eval (Despesa.update tz despesaId userId vazio None) db = Ok antiga ∧
  gzen_despesas db' = gzen_despesas db ∧
  gzen_receitas db' = gzen_receitas db ∧
  gzen_accounts db' = gzen_accounts db ∧
  gzen_cartao_credito db' = gzen_cartao_credito db ∧
  (∀ outro, outro ≠ chaveOrcamento tz userId (dp_data_despesa antiga) →
     gzen_orcamento db' !! outro = gzen_orcamento db !! outro) ∧
  ∃ depois,
    gzen_orcamento db' !! chaveOrcamento tz userId (dp_data_despesa antiga) = Some depois ∧
    receita_total depois = receita_total orcamento ∧
    despesa_total depois = despesa_total orcamento ∧
    meta_economia depois = meta_economia orcamento ∧
    (despesa_total orcamento ≠ 0 → invariante depois).
Proof.
  intros Hfind Hst Hplain Horc. cbn zeta.
  destruct (update_ok tz despesaId userId (mkUpdateDespesaData None None None None None None)
              db antiga Hfind) as [Hev Hex].
  rewrite aplicaUpdate_vazio in Hev, Hex. rewrite Hev, Hex. clear Hev Hex.
  rewrite exec_handleBalanceUpdates, (confirmado_true _ Hst).
  rewrite exec_processarDespesa, exec_reverterDespesa.
  apply findById_Some in Hfind as [Hrow Huser].
  set (k := chaveOrcamento tz userId (dp_data_despesa antiga)) in *.
  split_and!; [done| | | | | |].
  - rewrite gzen_despesas_passoOrcamento, gzen_despesas_passoContaDespesa,
      gzen_despesas_passoOrcamento, gzen_despesas_passoContaDespesa.
    cbn [set_despesas gzen_despesas]. by apply insert_id.
  - unfold passoContaDespesa. by rewrite Hplain.
  - rewrite gzen_accounts_passoOrcamento, gzen_accounts_passoContaDespesa,
      gzen_accounts_passoOrcamento, gzen_accounts_passoContaDespesa.
    cbn [set_despesas gzen_accounts].
    apply alter_alter_id. intros x _. apply ajustaSaldo_inverso.
  - rewrite gzen_cartao_passoOrcamento, gzen_cartao_passoContaDespesa,
      gzen_cartao_passoOrcamento, gzen_cartao_passoContaDespesa. by rewrite Hplain.
  - intros outro Hne.
    rewrite gzen_orcamento_passoOrcamento, lookup_insert_ne by done.
    rewrite gzen_orcamento_passoContaDespesa.
    rewrite gzen_orcamento_passoOrcamento, lookup_insert_ne by done.
    by rewrite gzen_orcamento_passoContaDespesa.
  - rewrite gzen_orcamento_passoOrcamento. fold k. rewrite lookup_insert_eq.
    rewrite gzen_orcamento_passoContaDespesa, gzen_orcamento_passoOrcamento. fold k.
    rewrite lookup_insert_eq, gzen_orcamento_passoContaDespesa.
    cbn [set_despesas gzen_orcamento]. rewrite Horc.
    eexists. split; [reflexivity|].
    unfold invariante, proximoOrcamento, js_or.
    cbn [receita_total despesa_total saldo_atual meta_economia].
    split_and!; [done|lia|done|]. intros Hnz.
    replace (despesa_total orcamento + dp_valor antiga * -1 + dp_valor antiga * 1)
      with (despesa_total orcamento) by lia.
    destruct (despesa_total orcamento =? 0) eqn:E; [apply Z.eqb_eq in E; lia|]. lia.
Qed.

Lemma edicao_vazia_de_despesa_confirmada_witness :
  eval (Despesa.findById "d1" "u")
       (ex_db_ledger {[ "A" := ex_conta 800 ]} (ex_despesa 200 confirmada true)
                     (ex_receita 50 pendente true) (mkOrcamento 0 200 0 (Some 10))) =
    Some (ex_despesa 200 confirmada true) ∧
  gzen_accounts
    (exec (Despesa.update 0 "d1" "u" (mkUpdateDespesaData None None None None None None) None)
       (ex_db_ledger {[ "A" := ex_conta 800 ]} (ex_despesa 200 confirmada true)
                     (ex_receita 50 pendente true) (mkOrcamento 0 200 0 (Some 10)))) =
    {[ "A" := ex_conta 800 ]} ∧
  gzen_orcamento
    (exec (Despesa.update 0 "d1" "u" (mkUpdateDespesaData None None None None None None) None)
       (ex_db_ledger {[ "A" := ex_conta 800 ]} (ex_despesa 200 confirmada true)
                     (ex_receita 50 pendente true) (mkOrcamento 0 200 0 (Some 10))))
    !! ("u", 3, 2024) = Some (mkOrcamento 0 200 (-200) (Some 10)).
Proof.
  set (db := ex_db_ledger {[ "A" := ex_conta 800 ]} (ex_despesa 200 confirmada true)
                          (ex_receita 50 pendente true) (mkOrcamento 0 200 0 (Some 10))).
  assert (Hfind : eval (Despesa.findById "d1" "u") db = Some (ex_despesa 200 confirmada true))
    by reflexivity.
  assert (Horc : gzen_orcamento db
                 !! chaveOrcamento 0 "u" (dp_data_despesa (ex_despesa 200 confirmada true)) =
                 Some (mkOrcamento 0 200 0 (Some 10))) by reflexivity.
  destruct (edicao_vazia_de_despesa_confirmada 0 db "u" "d1" (ex_despesa 200 confirmada true)
              (mkOrcamento 0 200 0 (Some 10)) Hfind eq_refl eq_refl Horc)
    as (_ & _ & _ & Hacc & _).
  split; [exact Hfind|]. split; [exact Hacc|reflexivity].
Defined.

(** ** Reconciliation as a repair *)

(** X11. Reconciliation repairs its period and nothing else.  When the
    upsert succeeds, the row of the period satisfies
    [saldo_atual = receita_total - despesa_total] whatever the store held
    before, it keeps the savings goal the period had, the rows of the other
    periods are as they were and so are the accounts, the cards and both
    ledgers; when the upsert fails, an error is answered and the store is as
    it was. *)
Theorem recalcular_repara_so_o_periodo userId mes ano db :
  let db' := exec (Orcamento.recalcular userId mes ano None) db in
  (∃ o, eval (Orcamento.recalcular userId mes ano None) db = Ok o ∧
        gzen_orcamento db' !! (userId, mes, ano) = Some o ∧
        invariante o ∧
        meta_economia o =
          (gzen_orcamento db !! (userId, mes, ano)) ≫= meta_economia) ∧
  (∀ outro, outro ≠ (userId, mes, ano) →
     gzen_orcamento db' !! outro = gzen_orcamento db !! outro) ∧
  gzen_accounts db' = gzen_accounts db ∧
  gzen_cartao_credito db' = gzen_cartao_credito db ∧
  gzen_despesas db' = gzen_despesas db ∧
  gzen_receitas db' = gzen_receitas db ∧
  (∀ message, Orcamento.recalcular userId mes ano (Some message) db = (Erro message, db)).
Proof.
  cbn zeta. destruct (recalcular_ok userId mes ano db) as [Hev Hex]. cbn zeta in Hev, Hex.
  rewrite Hev, Hex. split_and!; try done.
  - eexists. split; [reflexivity|]. cbn [set_orcamento gzen_orcamento].
    rewrite lookup_insert_eq. split; [done|]. split; [reflexivity|].
    cbn. by destruct (gzen_orcamento db !! (userId, mes, ano)).
  - intros outro Hne. cbn [set_orcamento gzen_orcamento]. by rewrite lookup_insert_ne.
Qed.

Lemma recalcular_repara_so_o_periodo_witness :
  ¬ orcamentoConsistente
      (ex_db_ledger ∅ (ex_despesa 200 confirmada false) (ex_receita 50 pendente true)
                    (mkOrcamento 0 0 (-200) (Some 10))) ∧
  gzen_orcamento
    (exec (Orcamento.recalcular "u" 3 2024 None)
       (ex_db_ledger ∅ (ex_despesa 200 confirmada false) (ex_receita 50 pendente true)
                     (mkOrcamento 0 0 (-200) (Some 10)))) !! ("u", 3, 2024) =
    Some (mkOrcamento 0 0 0 (Some 10)) ∧
  gzen_orcamento
    (exec (Orcamento.recalcular "u" 3 2024 None)
       (ex_db_ledger ∅ (ex_despesa 200 confirmada false) (ex_receita 50 pendente true)
                     (mkOrcamento 0 0 (-200) (Some 10)))) !! ("u", 4, 2024) = None.
Proof.
  set (db := ex_db_ledger ∅ (ex_despesa 200 confirmada false) (ex_receita 50 pendente true)
                          (mkOrcamento 0 0 (-200) (Some 10))).
  destruct (recalcular_repara_so_o_periodo "u" 3 2024 db) as (_ & Houtro & _).
  assert (Hne : ("u", 4, 2024) ≠ ("u", 3, 2024)) by discriminate.
  split; [|split; [reflexivity|]].
  - intros Hc.
    assert (Hinv : invariante (mkOrcamento 0 0 (-200) (Some 10)))
      by (apply (Hc ("u", 3, 2024)); reflexivity).
    discriminate Hinv.
  - rewrite (Houtro _ Hne). reflexivity.
Defined.

(** ** Incremental totals against the ledger *)

Lemma somaDireta_Permutation {A} (valor : A → Z) (l l' : list A) :
  l ≡ₚ l' → somaDireta valor l = somaDireta valor l'.
Proof.
  unfold somaDireta. induction 1 as [|x l l' _ IH|x y l|l l' l'' _ IH1 _ IH2]; cbn;
    [done|by rewrite IH|lia|congruence].
Qed.

Lemma somaDireta_filter_insert {A} (P : A → Prop) `{!∀ x, Decision (P x)} (valor : A → Z)
    (m : gmap string A) (i : string) (x : A) :
  somaDireta valor (filter P (map_to_list (<[i := x]> m)).*2) =
  somaDireta valor (filter P (map_to_list m).*2)
  - from_option (λ y, if decide (P y) then valor y else 0) 0 (m !! i)
  + (if decide (P x) then valor x else 0).
Proof.
  assert (Hfresh : ∀ m' : gmap string A, m' !! i = None →
            ∀ z, somaDireta valor (filter P (map_to_list (<[i := z]> m')).*2) =
                 (if decide (P z) then valor z else 0) +
                 somaDireta valor (filter P (map_to_list m').*2)).
  { intros m' Hnone z.
    rewrite (somaDireta_Permutation valor _ (filter P ((i, z) :: map_to_list m').*2)).
    - rewrite fmap_cons, filter_cons. cbn [snd]. by destruct (decide (P z)).
    - by rewrite map_to_list_insert. }
  destruct (m !! i) as [y|] eqn:E; cbn.
  - rewrite <- (insert_delete_eq m i x), Hfresh by apply lookup_delete_eq.
    rewrite <- (insert_delete_id m i y E) at 2.
    rewrite (Hfresh (delete i m)) by apply lookup_delete_eq. lia.
  - rewrite Hfresh by done. lia.
Qed.

Lemma somaDiretaDespesas_insert db i d owner mes ano :
  somaDiretaDespesas (set_despesas <[i := d]> db) owner mes ano =
  somaDiretaDespesas db owner mes ano
  - from_option (parcelaDespesa owner mes ano) 0 (gzen_despesas db !! i)
  + parcelaDespesa owner mes ano d.
Proof. unfold somaDiretaDespesas. cbn. apply somaDireta_filter_insert. Qed.

Lemma somaDiretaReceitas_insert db i r owner mes ano :
  somaDiretaReceitas (set_receitas <[i := r]> db) owner mes ano =
  somaDiretaReceitas db owner mes ano
  - from_option (parcelaReceita owner mes ano) 0 (gzen_receitas db !! i)
  + parcelaReceita owner mes ano r.
Proof. unfold somaDiretaReceitas. cbn. apply somaDireta_filter_insert. Qed.

Lemma chaveOrcamento_leste tz u data :
  0 ≤ tz → chaveOrcamento tz u data = (u, d_mes data, d_ano data).
Proof. intros Htz. unfold chaveOrcamento. by rewrite periodoDe_leste. Qed.

Lemma despesaTotalDe_passoOrcamento tz u data v op db k :
  despesaTotalDe (passoOrcamento tz u data v TDespesa op db) k =
  if decide (k = chaveOrcamento tz u data)
  then match gzen_orcamento db !! k with
       | Some o => despesa_total o + v * match op with OpAdd => 1 | OpSubtract => -1 end
       | None => v
       end
  else despesaTotalDe db k.
Proof.
  unfold despesaTotalDe. rewrite gzen_orcamento_passoOrcamento.
  destruct (decide (k = chaveOrcamento tz u data)) as [->|Hne].
  - rewrite lookup_insert_eq. by destruct (gzen_orcamento db !! _).
  - by rewrite lookup_insert_ne.
Qed.

Lemma receitaTotalDe_passoOrcamento tz u data v op db k :
  receitaTotalDe (passoOrcamento tz u data v TReceita op db) k =
  if decide (k = chaveOrcamento tz u data)
  then match gzen_orcamento db !! k with
       | Some o => receita_total o + v * match op with OpAdd => 1 | OpSubtract => -1 end
       | None => v
       end
  else receitaTotalDe db k.
Proof.
  unfold receitaTotalDe. rewrite gzen_orcamento_passoOrcamento.
  destruct (decide (k = chaveOrcamento tz u data)) as [->|Hne].
  - rewrite lookup_insert_eq. by destruct (gzen_orcamento db !! _).
  - by rewrite lookup_insert_ne.
Qed.

Lemma receitaTotalDe_passoOrcamento_despesa tz u data v op db k :
  receitaTotalDe (passoOrcamento tz u data v TDespesa op db) k = receitaTotalDe db k.
Proof.
  unfold receitaTotalDe. rewrite gzen_orcamento_passoOrcamento.
  destruct (decide (k = chaveOrcamento tz u data)) as [->|Hne].
  - rewrite lookup_insert_eq. by destruct (gzen_orcamento db !! _).
  - by rewrite lookup_insert_ne.
Qed.

Lemma despesaTotalDe_passoOrcamento_receita tz u data v op db k :
  despesaTotalDe (passoOrcamento tz u data v TReceita op db) k = despesaTotalDe db k.
Proof.
  unfold despesaTotalDe. rewrite gzen_orcamento_passoOrcamento.
  destruct (decide (k = chaveOrcamento tz u data)) as [->|Hne].
  - rewrite lookup_insert_eq. by destruct (gzen_orcamento db !! _).
  - by rewrite lookup_insert_ne.
Qed.

(** The budget step of applying an active expense adds to each period what
    the row adds to its direct sum; the step of reversing it takes the same
    away, provided the row of its period exists. *)
Lemma despesaTotalDe_aplica tz despesa db owner mes ano :
  0 ≤ tz → dp_ativo despesa = true → dp_status despesa = confirmada →
  despesaTotalDe (passoOrcamento tz (dp_user_id despesa) (dp_data_despesa despesa)
                    (dp_valor despesa) TDespesa OpAdd db) (owner, mes, ano) =
  despesaTotalDe db (owner, mes, ano) + parcelaDespesa owner mes ano despesa.
Proof.
  intros Htz Hativo Hst. rewrite despesaTotalDe_passoOrcamento, chaveOrcamento_leste by done.
  unfold parcelaDespesa, despesaDoPeriodo, despesaTotalDe.
  destruct (decide ((owner, mes, ano) = _)) as [[= -> -> ->]|Hne].
  - rewrite decide_True by done. destruct (gzen_orcamento db !! _); cbn; lia.
  - rewrite decide_False; [lia|]. intros (<- & _ & _ & <- & <-). done.
Qed.

Lemma despesaTotalDe_reverte tz despesa db owner mes ano :
  0 ≤ tz → dp_ativo despesa = true → dp_status despesa = confirmada →
  is_Some (gzen_orcamento db
           !! chaveOrcamento tz (dp_user_id despesa) (dp_data_despesa despesa)) →
  despesaTotalDe (passoOrcamento tz (dp_user_id despesa) (dp_data_despesa despesa)
                    (dp_valor despesa) TDespesa OpSubtract db) (owner, mes, ano) =
  despesaTotalDe db (owner, mes, ano) - parcelaDespesa owner mes ano despesa.
Proof.
  intros Htz Hativo Hst [o Ho].
  rewrite despesaTotalDe_passoOrcamento. rewrite chaveOrcamento_leste in * by done.
  unfold parcelaDespesa, despesaDoPeriodo, despesaTotalDe.
  destruct (decide ((owner, mes, ano) = _)) as [[= -> -> ->]|Hne].
  - rewrite decide_True by done. rewrite Ho; cbn; lia.
  - rewrite decide_False; [lia|]. intros (<- & _ & _ & <- & <-). done.
Qed.

Lemma parcelaDespesa_nao_confirmada owner mes ano despesa :
  dp_status despesa ≠ confirmada → parcelaDespesa owner mes ano despesa = 0.
Proof.
  intros Hst. unfold parcelaDespesa. rewrite decide_False; [done|].
  by intros (_ & _ & ? & _).
Qed.

Lemma parcelaDespesa_inativa owner mes ano despesa :
  dp_ativo despesa = false → parcelaDespesa owner mes ano despesa = 0.
Proof.
  intros Hat. unfold parcelaDespesa. rewrite decide_False; [done|].
  intros (_ & ? & _). congruence.
Qed.

Lemma confirmado_cases s : (confirmado s = true ∧ s = confirmada) ∨
                           (confirmado s = false ∧ s ≠ confirmada).
Proof.
  unfold confirmado. destruct (bool_decide_reflect (s = confirmada)); [by left|by right].
Qed.

(** X12. The incremental expense totals keep pace with the ledger.  On a
    server at or east of UTC, for every period whose stored expense total
    equals the direct sum over the owner's active, confirmed expenses of
    that month: it still does after the creation of an expense under a fresh
    id, after the soft-delete of an active expense, and after the update of
    an active expense, provided the period of a confirmed row being reversed
    has its budget row. *)
Theorem despesas_incrementais_acompanham tz db userId owner mes ano :
  0 ≤ tz →
  despesasAcompanham db owner mes ano →
  (∀ despesaData novoId,
     gzen_despesas db !! novoId = None →
     despesasAcompanham (exec (Despesa.create tz userId despesaData novoId None) db)
                        owner mes ano) ∧
  (∀ despesaId despesa,
     eval (Despesa.findById despesaId userId) db = Some despesa →
     dp_ativo despesa = true →
     (dp_status despesa = confirmada →
      is_Some (gzen_orcamento db !! chaveOrcamento tz userId (dp_data_despesa despesa))) →
     despesasAcompanham (exec (Despesa.delete tz despesaId userId None) db) owner mes ano) ∧
  (∀ despesaId updateData antiga,
     eval (Despesa.findById despesaId userId) db = Some antiga →
     dp_ativo antiga = true →
     (dp_status antiga = confirmada →
      is_Some (gzen_orcamento db !! chaveOrcamento tz userId (dp_data_despesa antiga))) →
     despesasAcompanham (exec (Despesa.update tz despesaId userId updateData None) db)
                        owner mes ano).
Proof.
  intros Htz Hac. unfold despesasAcompanham in *. split_and!.
  - intros despesaData novoId Hfresh.
    destruct (create_ok tz userId despesaData novoId db) as [_ ->]. cbn zeta.
    set (despesa := mkDespesa _ _ _ _ _ _ _ _ _).
    destruct (confirmado_cases (dd_status despesaData)) as [[-> Hst]|[-> Hst]].
    + rewrite exec_processarDespesa.
      change userId with (dp_user_id despesa) at 1.
      rewrite despesaTotalDe_aplica by done.
      rewrite despesaTotalDe_passoContaDespesa.
      unfold somaDiretaDespesas. rewrite gzen_despesas_passoOrcamento,
        gzen_despesas_passoContaDespesa.
      fold (somaDiretaDespesas (set_despesas <[novoId := despesa]> db) owner mes ano).
      rewrite somaDiretaDespesas_insert, Hfresh. cbn [from_option].
      change (despesaTotalDe (set_despesas ?f db) ?k) with (despesaTotalDe db k). lia.
    + rewrite somaDiretaDespesas_insert, Hfresh. cbn [from_option].
      rewrite (parcelaDespesa_nao_confirmada _ _ _ despesa) by done.
      change (despesaTotalDe (set_despesas ?f db) ?k) with (despesaTotalDe db k). lia.
  - intros despesaId despesa Hfind Hativo Hrow.
    destruct (delete_ok tz despesaId userId db despesa Hfind) as [_ ->].
    apply findById_Some in Hfind as [Hlook Huser].
    destruct (confirmado_cases (dp_status despesa)) as [[-> Hst]|[-> Hst]].
    + rewrite exec_reverterDespesa. rewrite <- Huser in *.
      rewrite despesaTotalDe_reverte; [|done..|].
      * rewrite despesaTotalDe_passoContaDespesa.
        unfold somaDiretaDespesas. rewrite gzen_despesas_passoOrcamento,
          gzen_despesas_passoContaDespesa.
        fold (somaDiretaDespesas
                (set_despesas <[despesaId := Despesa.com_ativo_false despesa]> db)
                owner mes ano).
        rewrite somaDiretaDespesas_insert, Hlook. cbn [from_option].
        rewrite (parcelaDespesa_inativa _ _ _ (Despesa.com_ativo_false despesa)) by done.
        change (despesaTotalDe (set_despesas ?f db) ?k) with (despesaTotalDe db k). lia.
      * rewrite gzen_orcamento_passoContaDespesa. by apply Hrow.
    + rewrite somaDiretaDespesas_insert, Hlook. cbn [from_option].
      rewrite (parcelaDespesa_inativa _ _ _ (Despesa.com_ativo_false despesa)) by done.
      rewrite (parcelaDespesa_nao_confirmada _ _ _ despesa) by done.
      change (despesaTotalDe (set_despesas ?f db) ?k) with (despesaTotalDe db k). lia.
  - intros despesaId updateData antiga Hfind Hativo Hrow.
    destruct (update_ok tz despesaId userId updateData db antiga Hfind) as [_ ->].
    apply findById_Some in Hfind as [Hlook Huser].
    set (nova := Despesa.aplicaUpdate updateData antiga).
    assert (Hunova : dp_user_id nova = userId) by done.
    assert (Hanova : dp_ativo nova = true) by done.
    rewrite exec_handleBalanceUpdates.
    assert (Hdir : somaDiretaDespesas (set_despesas <[despesaId := nova]> db) owner mes ano =
                   somaDiretaDespesas db owner mes ano
                   - parcelaDespesa owner mes ano antiga + parcelaDespesa owner mes ano nova).
    { by rewrite somaDiretaDespesas_insert, Hlook. }
    destruct (confirmado_cases (dp_status antiga)) as [[-> Hsa]|[-> Hsa]],
             (confirmado_cases (dp_status nova)) as [[-> Hsn]|[-> Hsn]].
    + rewrite exec_processarDespesa, exec_reverterDespesa.
      rewrite <- Hunova at 1. rewrite despesaTotalDe_aplica by done.
      rewrite despesaTotalDe_passoContaDespesa.
      rewrite <- Huser at 1. rewrite despesaTotalDe_reverte; [|done..|].
      * rewrite despesaTotalDe_passoContaDespesa.
        unfold somaDiretaDespesas. rewrite !gzen_despesas_passoOrcamento,
          !gzen_despesas_passoContaDespesa, !gzen_despesas_passoOrcamento,
          !gzen_despesas_passoContaDespesa.
        fold (somaDiretaDespesas (set_despesas <[despesaId := nova]> db) owner mes ano).
        rewrite Hdir.
        change (despesaTotalDe (set_despesas ?f db) ?k) with (despesaTotalDe db k). lia.
      * rewrite gzen_orcamento_passoContaDespesa, Huser. by apply Hrow.
    + rewrite exec_reverterDespesa.
      rewrite <- Huser at 1. rewrite despesaTotalDe_reverte; [|done..|].
      * rewrite despesaTotalDe_passoContaDespesa.
        unfold somaDiretaDespesas. rewrite !gzen_despesas_passoOrcamento,
          !gzen_despesas_passoContaDespesa.
        fold (somaDiretaDespesas (set_despesas <[despesaId := nova]> db) owner mes ano).
        rewrite Hdir, (parcelaDespesa_nao_confirmada _ _ _ nova) by done.
        change (despesaTotalDe (set_despesas ?f db) ?k) with (despesaTotalDe db k). lia.
      * rewrite gzen_orcamento_passoContaDespesa, Huser. by apply Hrow.
    + rewrite exec_processarDespesa.
      rewrite <- Hunova at 1. rewrite despesaTotalDe_aplica by done.
      rewrite despesaTotalDe_passoContaDespesa.
      unfold somaDiretaDespesas. rewrite !gzen_despesas_passoOrcamento,
        !gzen_despesas_passoContaDespesa.
      fold (somaDiretaDespesas (set_despesas <[despesaId := nova]> db) owner mes ano).
      rewrite Hdir, (parcelaDespesa_nao_confirmada _ _ _ antiga) by done.
      change (despesaTotalDe (set_despesas ?f db) ?k) with (despesaTotalDe db k). lia.
    + rewrite Hdir, (parcelaDespesa_nao_confirmada _ _ _ antiga),
        (parcelaDespesa_nao_confirmada _ _ _ nova) by done.
      change (despesaTotalDe (set_despesas ?f db) ?k) with (despesaTotalDe db k). lia.
Qed.

Lemma despesas_incrementais_acompanham_witness :
  despesasAcompanham
    (ex_db_ledger {[ "A" := ex_conta 800 ]} (ex_despesa 200 confirmada true)
                  (ex_receita 50 confirmada true) (mkOrcamento 50 200 (-150) None))
    "u" 3 2024 ∧
  despesasAcompanham
    (exec (Despesa.delete 0 "d1" "u" None)
       (ex_db_ledger {[ "A" := ex_conta 800 ]} (ex_despesa 200 confirmada true)
                     (ex_receita 50 confirmada true) (mkOrcamento 50 200 (-150) None)))
    "u" 3 2024 ∧
  despesasAcompanham
    (exec (Despesa.create 0 "u" (mkDespesaData "A" 70 ex_data confirmada false None) "d2" None)
       (ex_db_ledger {[ "A" := ex_conta 800 ]} (ex_despesa 200 confirmada true)
                     (ex_receita 50 confirmada true) (mkOrcamento 50 200 (-150) None)))
    "u" 3 2024.
Proof.
  set (db := ex_db_ledger {[ "A" := ex_conta 800 ]} (ex_despesa 200 confirmada true)
                          (ex_receita 50 confirmada true) (mkOrcamento 50 200 (-150) None)).
  assert (Hac : despesasAcompanham db "u" 3 2024) by reflexivity.
  assert (Htz : 0 ≤ 0) by lia.
  destruct (despesas_incrementais_acompanham 0 db "u" "u" 3 2024 Htz Hac)
    as (Hcreate & Hdelete & _).
  assert (Hfind : eval (Despesa.findById "d1" "u") db = Some (ex_despesa 200 confirmada true))
    by reflexivity.
  assert (Hrow : dp_status (ex_despesa 200 confirmada true) = confirmada →
                 is_Some (gzen_orcamento db
                          !! chaveOrcamento 0 "u" (dp_data_despesa
                                                     (ex_despesa 200 confirmada true))))
    by (intros _; exists (mkOrcamento 50 200 (-150) None); reflexivity).
  split; [exact Hac|]. split.
  - exact (Hdelete "d1" _ Hfind eq_refl Hrow).
  - apply Hcreate. reflexivity.
Defined.

Lemma receitaTotalDe_aplica tz receita op db owner mes ano :
  0 ≤ tz → rc_ativo receita = true → rc_status receita = confirmada →
  (op = OpSubtract →
   is_Some (gzen_orcamento db
            !! chaveOrcamento tz (rc_user_id receita) (rc_data_receita receita))) →
  receitaTotalDe (passoReceita tz (rc_user_id receita) op receita db) (owner, mes, ano) =
  receitaTotalDe db (owner, mes, ano)
  + parcelaReceita owner mes ano receita * match op with OpAdd => 1 | OpSubtract => -1 end.
Proof.
  intros Htz Hativo Hst Hrow. unfold passoReceita.
  rewrite receitaTotalDe_passoOrcamento. rewrite chaveOrcamento_leste in * by done.
  unfold parcelaReceita, receitaDoPeriodo, receitaTotalDe.
  cbn [set_accounts gzen_orcamento].
  destruct (decide ((owner, mes, ano) = _)) as [[= -> -> ->]|Hne].
  - rewrite decide_True by done. destruct op.
    + destruct (gzen_orcamento db !! _); cbn; lia.
    + destruct (Hrow eq_refl) as [o ->]. cbn. lia.
  - rewrite decide_False; [lia|]. intros (<- & _ & _ & <- & <-). done.
Qed.

Lemma parcelaReceita_nao_confirmada owner mes ano receita :
  rc_status receita ≠ confirmada → parcelaReceita owner mes ano receita = 0.
Proof.
  intros Hst. unfold parcelaReceita. rewrite decide_False; [done|].
  by intros (_ & _ & ? & _).
Qed.

Lemma parcelaReceita_inativa owner mes ano receita :
  rc_ativo receita = false → parcelaReceita owner mes ano receita = 0.
Proof.
  intros Hat. unfold parcelaReceita. rewrite decide_False; [done|].
  intros (_ & ? & _). congruence.
Qed.

Lemma somaDiretaReceitas_passoReceita tz u op receita db owner mes ano :
  somaDiretaReceitas (passoReceita tz u op receita db) owner mes ano =
  somaDiretaReceitas db owner mes ano.
Proof. done. Qed.

(** X13. The incremental income totals keep pace with the ledger, under the
    same conditions as the expense totals: server at or east of UTC, fresh
    id on creation, active row on soft-delete and update, and the budget row
    of the period in place when a confirmed income is reversed. *)
Theorem receitas_incrementais_acompanham tz db userId owner mes ano :
  0 ≤ tz →
  receitasAcompanham db owner mes ano →
  (∀ receitaData novoId,
     gzen_receitas db !! novoId = None →
     receitasAcompanham (exec (Receita.create tz userId receitaData novoId None) db)
                        owner mes ano) ∧
  (∀ receitaId receita,
     eval (Receita.findById receitaId userId) db = Some receita →
     rc_ativo receita = true →
     (rc_status receita = confirmada →
      is_Some (gzen_orcamento db !! chaveOrcamento tz userId (rc_data_receita receita))) →
     receitasAcompanham (exec (Receita.delete tz receitaId userId None) db) owner mes ano) ∧
  (∀ receitaId updateData antiga,
     eval (Receita.findById receitaId userId) db = Some antiga →
     rc_ativo antiga = true →
     (rc_status antiga = confirmada →
      is_Some (gzen_orcamento db !! chaveOrcamento tz userId (rc_data_receita antiga))) →
     receitasAcompanham (exec (Receita.update tz receitaId userId updateData None) db)
                        owner mes ano).
Proof.
  intros Htz Hac. unfold receitasAcompanham in *. split_and!.
  - intros receitaData novoId Hfresh.
    destruct (create_receita_ok tz userId receitaData novoId db) as [_ ->]. cbn zeta.
    set (receita := mkReceita _ _ _ _ _ _ _ _).
    destruct (confirmado_cases (rd_status receitaData)) as [[-> Hst]|[-> Hst]].
    + change userId with (rc_user_id receita) at 1.
      rewrite receitaTotalDe_aplica by done.
      rewrite somaDiretaReceitas_passoReceita, somaDiretaReceitas_insert, Hfresh.
      cbn [from_option].
      change (receitaTotalDe (set_receitas ?f db) ?k) with (receitaTotalDe db k). lia.
    + rewrite somaDiretaReceitas_insert, Hfresh. cbn [from_option].
      rewrite (parcelaReceita_nao_confirmada _ _ _ receita) by done.
      change (receitaTotalDe (set_receitas ?f db) ?k) with (receitaTotalDe db k). lia.
  - intros receitaId receita Hfind Hativo Hrow.
    destruct (delete_receita_ok tz receitaId userId db receita Hfind) as [_ ->].
    apply findById_receita_Some in Hfind as [Hlook Huser].
    destruct (confirmado_cases (rc_status receita)) as [[-> Hst]|[-> Hst]].
    + rewrite <- Huser in *.
      rewrite receitaTotalDe_aplica; [|done..|by intros _; apply Hrow].
      rewrite somaDiretaReceitas_passoReceita, somaDiretaReceitas_insert, Hlook.
      cbn [from_option].
      rewrite (parcelaReceita_inativa _ _ _ (Receita.com_ativo_false receita)) by done.
      change (receitaTotalDe (set_receitas ?f db) ?k) with (receitaTotalDe db k). lia.
    + rewrite somaDiretaReceitas_insert, Hlook. cbn [from_option].
      rewrite (parcelaReceita_inativa _ _ _ (Receita.com_ativo_false receita)) by done.
      rewrite (parcelaReceita_nao_confirmada _ _ _ receita) by done.
      change (receitaTotalDe (set_receitas ?f db) ?k) with (receitaTotalDe db k). lia.
  - intros receitaId updateData antiga Hfind Hativo Hrow.
    destruct (update_receita_ok tz receitaId userId updateData db antiga Hfind) as [_ ->].
    apply findById_receita_Some in Hfind as [Hlook Huser].
    set (nova := Receita.aplicaUpdate updateData antiga).
    assert (Hunova : rc_user_id nova = userId) by done.
    assert (Hanova : rc_ativo nova = true) by done.
    rewrite exec_handleBalanceUpdates_receita.
    assert (Hdir : somaDiretaReceitas (set_receitas <[receitaId := nova]> db) owner mes ano =
                   somaDiretaReceitas db owner mes ano
                   - parcelaReceita owner mes ano antiga + parcelaReceita owner mes ano nova).
    { by rewrite somaDiretaReceitas_insert, Hlook. }
    destruct (confirmado_cases (rc_status antiga)) as [[-> Hsa]|[-> Hsa]],
             (confirmado_cases (rc_status nova)) as [[-> Hsn]|[-> Hsn]].
    + rewrite <- Hunova at 1. rewrite receitaTotalDe_aplica by done.
      rewrite <- Huser at 1.
      rewrite receitaTotalDe_aplica; [|done..|by intros _; rewrite Huser; apply Hrow].
      rewrite !somaDiretaReceitas_passoReceita, Hdir.
      change (receitaTotalDe (set_receitas ?f db) ?k) with (receitaTotalDe db k). lia.
    + rewrite <- Huser at 1.
      rewrite receitaTotalDe_aplica; [|done..|by intros _; rewrite Huser; apply Hrow].
      rewrite somaDiretaReceitas_passoReceita, Hdir,
        (parcelaReceita_nao_confirmada _ _ _ nova) by done.
      change (receitaTotalDe (set_receitas ?f db) ?k) with (receitaTotalDe db k). lia.
    + rewrite <- Hunova at 1. rewrite receitaTotalDe_aplica by done.
      rewrite somaDiretaReceitas_passoReceita, Hdir,
        (parcelaReceita_nao_confirmada _ _ _ antiga) by done.
      change (receitaTotalDe (set_receitas ?f db) ?k) with (receitaTotalDe db k). lia.
    + rewrite Hdir, (parcelaReceita_nao_confirmada _ _ _ antiga),
        (parcelaReceita_nao_confirmada _ _ _ nova) by done.
      change (receitaTotalDe (set_receitas ?f db) ?k) with (receitaTotalDe db k). lia.
Qed.

Lemma receitas_incrementais_acompanham_witness :
  receitasAcompanham
    (ex_db_ledger {[ "A" := ex_conta 800 ]} (ex_despesa 200 confirmada true)
                  (ex_receita 50 confirmada true) (mkOrcamento 50 200 (-150) None))
    "u" 3 2024 ∧
  receitasAcompanham
    (exec (Receita.update 0 "r1" "u"
             (mkUpdateReceitaData None (Some 80) (Some (mkData 2024 4 2)) None None) None)
       (ex_db_ledger {[ "A" := ex_conta 800 ]} (ex_despesa 200 confirmada true)
                     (ex_receita 50 confirmada true) (mkOrcamento 50 200 (-150) None)))
    "u" 3 2024.
Proof.
  set (db := ex_db_ledger {[ "A" := ex_conta 800 ]} (ex_despesa 200 confirmada true)
                          (ex_receita 50 confirmada true) (mkOrcamento 50 200 (-150) None)).
  assert (Hac : receitasAcompanham db "u" 3 2024) by reflexivity.
  assert (Htz : 0 ≤ 0) by lia.
  destruct (receitas_incrementais_acompanham 0 db "u" "u" 3 2024 Htz Hac)
    as (_ & _ & Hupdate).
  assert (Hfind : eval (Receita.findById "r1" "u") db = Some (ex_receita 50 confirmada true))
    by reflexivity.
  assert (Hrow : rc_status (ex_receita 50 confirmada true) = confirmada →
                 is_Some (gzen_orcamento db
                          !! chaveOrcamento 0 "u" (rc_data_receita
                                                     (ex_receita 50 confirmada true))))
    by (intros _; exists (mkOrcamento 50 200 (-150) None); reflexivity).
  split; [exact Hac|]. exact (Hupdate "r1" _ _ Hfind eq_refl Hrow).
Defined.

(** ** Monthly summaries *)

Lemma somaDireta_filter {A} (P : A → Prop) `{!∀ x, Decision (P x)} (valor : A → Z)
    (l : list A) :
  somaDireta valor (filter P l) = somaDireta (λ x, if decide (P x) then valor x else 0) l.
Proof.
  unfold somaDireta. induction l as [|x l IH]; [done|].
  rewrite filter_cons. cbn. destruct (decide (P x)); cbn; rewrite IH; lia.
Qed.

Lemma somaDireta_ext {A} (f g : A → Z) (l : list A) :
  (∀ x, x ∈ l → f x = g x) → somaDireta f l = somaDireta g l.
Proof.
  unfold somaDireta. induction l as [|x l IH]; intros Hfg; [done|]. cbn.
  rewrite (Hfg x) by left. rewrite IH; [done|]. intros y Hy. apply Hfg. by right.
Qed.

Lemma somaDireta_mais {A} (f g : A → Z) (l : list A) :
  somaDireta (λ x, f x + g x) l = somaDireta f l + somaDireta g l.
Proof. unfold somaDireta. induction l as [|x l IH]; cbn; lia. Qed.

Lemma ReceitaResumo_foldl resumo receitas :
  foldl ReceitaResumo.acumula resumo receitas =
  mkResumoReceitas
    (rr_total_confirmadas resumo +
     somaDireta rc_valor (filter (λ r, rc_status r = confirmada) receitas))
    (rr_total_pendentes resumo +
     somaDireta rc_valor (filter (λ r, rc_status r = pendente) receitas))
    (rr_total_salarios resumo +
     somaDireta rc_valor (filter (λ r, rc_eh_salario r = true) receitas))
    (rr_total_outras resumo +
     somaDireta rc_valor (filter (λ r, rc_eh_salario r = false) receitas))
    (rr_quantidade_receitas resumo).
Proof.
  revert resumo. induction receitas as [|r l IH]; intros resumo.
  - destruct resumo. cbn. f_equal; lia.
  - cbn [foldl]. rewrite IH. rewrite !filter_cons. unfold ReceitaResumo.acumula.
    cbn [rr_total_confirmadas rr_total_pendentes rr_total_salarios rr_total_outras
         rr_quantidade_receitas].
    destruct (rc_eh_salario r) eqn:Es;
      repeat first [case_decide | case_bool_decide]; try congruence;
      f_equal; unfold somaDireta; cbn [foldr]; lia.
Qed.

Lemma selectReceitas_confirmadas userId dataInicio dataFim db :
  Orcamento.selectReceitas userId dataInicio dataFim db =
  filter (λ r, rc_status r = confirmada)
         (ReceitaResumo.selectReceitas userId dataInicio dataFim db).
Proof.
  unfold Orcamento.selectReceitas, ReceitaResumo.selectReceitas.
  rewrite list_filter_filter. apply filter_ext_elem. intros r _. tauto.
Qed.


(** X14. The monthly income summary.  [Receita.getResumoMensal] reads and
    never writes.  Its confirmed total is the income total that
    [Orcamento.recalcular] computes for the same period; salaries and other
    incomes split the whole: their two totals add up to the sum of every
    active income of the month, which is also the confirmed total plus the
    pending total plus the cancelled amounts; the count is the number of
    those rows; on a query error the answer is null. *)
Theorem resumo_mensal_de_receitas userId mes ano db :
  let receitas :=
    ReceitaResumo.selectReceitas userId (mkData ano mes 1)
      (mkData ano mes (ultimoDiaDoMes ano mes)) db in
  ∃ resumo,
    ReceitaResumo.getResumoMensal userId mes ano None db = (Some resumo, db) ∧
    (∃ o, eval (Orcamento.recalcular userId mes ano None) db = Ok o ∧
          rr_total_confirmadas resumo = receita_total o) ∧
    rr_total_salarios resumo + rr_total_outras resumo = somaDireta rc_valor receitas ∧
    rr_total_confirmadas resumo + rr_total_pendentes resumo +
      somaDireta rc_valor (filter (λ r, rc_status r = cancelada) receitas) =
      somaDireta rc_valor receitas ∧
    rr_quantidade_receitas resumo = Z.of_nat (length receitas) ∧
    ∀ message,
      ReceitaResumo.getResumoMensal userId mes ano (Some message) db = (None, db).
Proof.
  intros receitas. eexists. split.
  { rewrite efeito_eta. unfold ReceitaResumo.getResumoMensal. passo.
    fold receitas. rewrite ReceitaResumo_foldl. reflexivity. }
  cbn [rr_total_confirmadas rr_total_pendentes rr_total_salarios rr_total_outras
       rr_quantidade_receitas].
  split_and!; [| | |done|done].
  - destruct (recalcular_ok userId mes ano db) as [Hev _]. cbn zeta in Hev.
    eexists. split; [exact Hev|]. cbn [receita_total].
    by rewrite selectReceitas_confirmadas, reduceValor_somaDireta.
  - rewrite !somaDireta_filter, !Z.add_0_l, <- somaDireta_mais.
    apply somaDireta_ext. intros r _.
    destruct (rc_eh_salario r); repeat case_decide; try congruence; lia.
  - rewrite !somaDireta_filter, !Z.add_0_l, <- !somaDireta_mais.
    apply somaDireta_ext. intros r _.
    destruct (rc_status r); repeat case_decide; try congruence; lia.
Qed.





(** X16. Get-or-create of a period row.  [Orcamento.findOrCreateByPeriod]
    answers the stored row and writes nothing when the period has one,
    whatever the insert would have done; otherwise it stores and answers
    the zeroed row with goal 0, or answers null with the store unchanged
    when the insert fails.  A second call answers the same row and writes
    nothing.  No other period and no other table changes, and the totals
    read from every period are the same before and after. *)
Theorem findOrCreateByPeriod_busca_ou_cria userId mes ano db :
  (∀ o createError,
     gzen_orcamento db !! (userId, mes, ano) = Some o →
     Orcamento.findOrCreateByPeriod userId mes ano createError db = (Some o, db)) ∧
  (gzen_orcamento db !! (userId, mes, ano) = None →
     Orcamento.findOrCreateByPeriod userId mes ano None db =
       (Some (mkOrcamento 0 0 0 (Some 0)),
        set_orcamento <[(userId, mes, ano) := mkOrcamento 0 0 0 (Some 0)]> db) ∧
     ∀ message,
       Orcamento.findOrCreateByPeriod userId mes ano (Some message) db = (None, db)) ∧
  (∀ createError,
     Orcamento.findOrCreateByPeriod userId mes ano createError
       (exec (Orcamento.findOrCreateByPeriod userId mes ano None) db) =
     (eval (Orcamento.findOrCreateByPeriod userId mes ano None) db,
      exec (Orcamento.findOrCreateByPeriod userId mes ano None) db)) ∧
  (∀ periodo,
     receitaTotalDe (exec (Orcamento.findOrCreateByPeriod userId mes ano None) db) periodo =
       receitaTotalDe db periodo ∧
     despesaTotalDe (exec (Orcamento.findOrCreateByPeriod userId mes ano None) db) periodo =
       despesaTotalDe db periodo ∧
     (periodo ≠ (userId, mes, ano) →
      gzen_orcamento (exec (Orcamento.findOrCreateByPeriod userId mes ano None) db)
        !! periodo = gzen_orcamento db !! periodo)) ∧
  gzen_accounts (exec (Orcamento.findOrCreateByPeriod userId mes ano None) db) =
    gzen_accounts db ∧
  gzen_cartao_credito (exec (Orcamento.findOrCreateByPeriod userId mes ano None) db) =
    gzen_cartao_credito db ∧
  gzen_despesas (exec (Orcamento.findOrCreateByPeriod userId mes ano None) db) =
    gzen_despesas db ∧
  gzen_receitas (exec (Orcamento.findOrCreateByPeriod userId mes ano None) db) =
    gzen_receitas db.
Proof.
  assert (Hsome : ∀ o createError db0,
            gzen_orcamento db0 !! (userId, mes, ano) = Some o →
            Orcamento.findOrCreateByPeriod userId mes ano createError db0 = (Some o, db0)).
  { intros o ce db0 Ho. rewrite efeito_eta. unfold Orcamento.findOrCreateByPeriod.
    passo. by rewrite Ho. }
  destruct (gzen_orcamento db !! (userId, mes, ano)) as [o|] eqn:E.
  - pose proof (Hsome o None db E) as Hrun.
    unfold exec, eval. rewrite Hrun. cbn [fst snd].
    split_and!; try done.
    + intros o' ce [= <-]. by apply Hsome.
    + intros ce. by apply Hsome.
  - assert (Hrun : Orcamento.findOrCreateByPeriod userId mes ano None db =
              (Some (mkOrcamento 0 0 0 (Some 0)),
               set_orcamento <[(userId, mes, ano) := mkOrcamento 0 0 0 (Some 0)]> db)).
    { rewrite efeito_eta. unfold Orcamento.findOrCreateByPeriod. passo. by rewrite E. }
    unfold exec, eval. rewrite Hrun. cbn [fst snd].
    split_and!; try done.
    + intros _. split; [done|]. intros message.
      rewrite efeito_eta. unfold Orcamento.findOrCreateByPeriod. passo. by rewrite E.
    + intros ce. apply Hsome. cbn. by rewrite lookup_insert_eq.
    + intros periodo. unfold receitaTotalDe, despesaTotalDe. cbn.
      destruct (decide (periodo = (userId, mes, ano))) as [->|Hne].
      * rewrite lookup_insert_eq, E. done.
      * rewrite lookup_insert_ne by done. done.
Qed.

Lemma findOrCreateByPeriod_busca_ou_cria_witness :
  Orcamento.findOrCreateByPeriod "u" 4 2024 None (ex_db_conta 10) =
    (Some (mkOrcamento 0 0 0 (Some 0)),
     set_orcamento <[("u", 4, 2024) := mkOrcamento 0 0 0 (Some 0)]> (ex_db_conta 10)) ∧
  Orcamento.findOrCreateByPeriod "u" 3 2024 (Some "falha")
    (ex_db_ledger ∅ (ex_despesa 300 confirmada true) (ex_receita 50 pendente true)
                  (mkOrcamento 0 300 (-300) None)) =
    (Some (mkOrcamento 0 300 (-300) None),
     ex_db_ledger ∅ (ex_despesa 300 confirmada true) (ex_receita 50 pendente true)
                  (mkOrcamento 0 300 (-300) None)).
Proof.
  split.
  - destruct (findOrCreateByPeriod_busca_ou_cria "u" 4 2024 (ex_db_conta 10))
      as (_ & Hnone & _).
    apply Hnone. reflexivity.
  - destruct (findOrCreateByPeriod_busca_ou_cria "u" 3 2024
                (ex_db_ledger ∅ (ex_despesa 300 confirmada true)
                   (ex_receita 50 pendente true) (mkOrcamento 0 300 (-300) None)))
      as (Hsome & _).
    apply Hsome. reflexivity.
Defined.

Lemma update_meta_ok userId mes ano body semLinha db o :
  gzen_orcamento db !! (userId, mes, ano) = Some o →
  OrcamentoMeta.update userId mes ano body semLinha None db =
    (Ok (mkOrcamento (receita_total o) (despesa_total o) (saldo_atual o)
           (match ob_meta_economia body with
            | Some meta => Some meta
            | None => meta_economia o
            end)),
     set_orcamento
       <[(userId, mes, ano) :=
           mkOrcamento (receita_total o) (despesa_total o) (saldo_atual o)
             (match ob_meta_economia body with
              | Some meta => Some meta
              | None => meta_economia o
              end)]> db).
Proof.
  intros Ho. rewrite efeito_eta. unfold OrcamentoMeta.update. passo. by rewrite Ho.
Qed.

Lemma update_meta_sem_linha userId mes ano body semLinha db :
  gzen_orcamento db !! (userId, mes, ano) = None →
  OrcamentoMeta.update userId mes ano body semLinha None db = (Erro semLinha, db).
Proof.
  intros Ho. rewrite efeito_eta. unfold OrcamentoMeta.update. passo. by rewrite Ho.
Qed.

Lemma controller_update_meta userId body semLinha db :
  OrcamentoController.update userId body semLinha None db =
  if orcamentoSchema body
  then
    match gzen_orcamento db !! (userId, ob_mes body, ob_ano body) with
    | Some o =>
        let o' :=
          mkOrcamento (receita_total o) (despesa_total o) (saldo_atual o)
            (match ob_meta_economia body with
             | Some meta => Some meta
             | None => meta_economia o
             end) in
        (mkResposta 200 true "Orçamento atualizado com sucesso" (Some o'),
         set_orcamento <[(userId, ob_mes body, ob_ano body) := o']> db)
    | None => (mkResposta 400 false semLinha None, db)
    end
  else (mkResposta 400 false "Dados inválidos" None, db).
Proof.
  unfold OrcamentoController.update. destruct (orcamentoSchema body); [|done].
  rewrite bind_apply. unfold eval, exec.
  destruct (gzen_orcamento db !! (userId, ob_mes body, ob_ano body)) as [o|] eqn:Ho.
  - by rewrite (update_meta_ok _ _ _ _ _ _ o Ho).
  - by rewrite (update_meta_sem_linha _ _ _ _ _ _ Ho).
Qed.

(** X17. The savings goal of a period.  [OrcamentoController.update]
    answers 200 exactly when the body parses and the period already has a
    row; every other request is answered 400 and changes nothing, so a goal
    cannot be set for a month that has no row yet.  On 200 only the goal of
    that row changes: it is the goal of the body, which is not negative, or
    the stored one when the body has none; the three totals, every other
    period and every other table are as before, and the reconciliation of
    that period afterwards keeps the goal. *)
Theorem meta_de_economia_so_em_periodo_existente userId body semLinha db :
  let chave := (userId, ob_mes body, ob_ano body) in
  let resposta := eval (OrcamentoController.update userId body semLinha None) db in
  let db' := exec (OrcamentoController.update userId body semLinha None) db in
  (res_status resposta = 200 ↔
   orcamentoSchema body = true ∧ is_Some (gzen_orcamento db !! chave)) ∧
  (res_status resposta ≠ 200 → res_status resposta = 400 ∧ db' = db) ∧
  (res_status resposta = 200 →
   ∃ o o',
     gzen_orcamento db !! chave = Some o ∧
     gzen_orcamento db' !! chave = Some o' ∧
     res_data resposta = Some o' ∧
     receita_total o' = receita_total o ∧
     despesa_total o' = despesa_total o ∧
     saldo_atual o' = saldo_atual o ∧
     meta_economia o' =
       match ob_meta_economia body with
       | Some meta => Some meta
       | None => meta_economia o
       end ∧
     (∀ meta, ob_meta_economia body = Some meta → 0 ≤ meta) ∧
     (∀ periodo, periodo ≠ chave →
        gzen_orcamento db' !! periodo = gzen_orcamento db !! periodo) ∧
     gzen_accounts db' = gzen_accounts db ∧
     gzen_cartao_credito db' = gzen_cartao_credito db ∧
     gzen_despesas db' = gzen_despesas db ∧
     gzen_receitas db' = gzen_receitas db ∧
     ∃ o'',
       eval (Orcamento.recalcular userId (ob_mes body) (ob_ano body) None) db' = Ok o'' ∧
       meta_economia o'' = meta_economia o').
Proof.
  cbn zeta. unfold eval, exec. rewrite controller_update_meta.
  destruct (orcamentoSchema body) eqn:Hschema;
    [destruct (gzen_orcamento db !! (userId, ob_mes body, ob_ano body)) as [o|] eqn:Ho|];
    cbn [fst snd res_status res_data].
  - split_and!; [by split|done|]. intros _.
    eexists o, _. split_and!; try done.
    + cbn. by rewrite lookup_insert_eq.
    + intros meta Hmeta. unfold orcamentoSchema in Hschema. rewrite Hmeta in Hschema.
      apply andb_prop in Hschema as [_ Hschema]. lia.
    + intros periodo Hne. cbn. by rewrite lookup_insert_ne.
    + destruct (recalcular_ok userId (ob_mes body) (ob_ano body)
                  (set_orcamento
                     <[(userId, ob_mes body, ob_ano body) :=
                         mkOrcamento (receita_total o) (despesa_total o) (saldo_atual o)
                           (match ob_meta_economia body with
                            | Some meta => Some meta
                            | None => meta_economia o
                            end)]> db)) as [Hev _].
      cbn zeta in Hev. eexists. split; [exact Hev|].
      cbn. by rewrite lookup_insert_eq.
  - split_and!; [|done|done].
    split; [done|]. intros [_ [? ?]]. done.
  - split_and!; [|done|done]. split; [done|]. by intros [? _].
Qed.

Lemma meta_de_economia_so_em_periodo_existente_witness :
  res_status
    (eval (OrcamentoController.update "u" (mkOrcamentoBody 3 2024 (Some 500)) "sem linha" None)
          (ex_db_ledger ∅ (ex_despesa 300 confirmada true) (ex_receita 50 pendente true)
                        (mkOrcamento 0 300 (-300) None))) = 200 ∧
  ∃ o o',
    gzen_orcamento
      (ex_db_ledger ∅ (ex_despesa 300 confirmada true) (ex_receita 50 pendente true)
                    (mkOrcamento 0 300 (-300) None)) !! ("u", 3, 2024) = Some o ∧
    gzen_orcamento
      (exec (OrcamentoController.update "u" (mkOrcamentoBody 3 2024 (Some 500)) "sem linha" None)
            (ex_db_ledger ∅ (ex_despesa 300 confirmada true) (ex_receita 50 pendente true)
                          (mkOrcamento 0 300 (-300) None))) !! ("u", 3, 2024) = Some o' ∧
    saldo_atual o' = saldo_atual o ∧
    meta_economia o' = Some 500.
Proof.
  assert (H200 :
    res_status
      (eval (OrcamentoController.update "u" (mkOrcamentoBody 3 2024 (Some 500)) "sem linha" None)
            (ex_db_ledger ∅ (ex_despesa 300 confirmada true) (ex_receita 50 pendente true)
                          (mkOrcamento 0 300 (-300) None))) = 200) by reflexivity.
  split; [exact H200|].
  destruct (meta_de_economia_so_em_periodo_existente "u" (mkOrcamentoBody 3 2024 (Some 500))
              "sem linha"
              (ex_db_ledger ∅ (ex_despesa 300 confirmada true) (ex_receita 50 pendente true)
                            (mkOrcamento 0 300 (-300) None))) as (_ & _ & Hok).
  destruct (Hok H200) as (o & o' & Ho & Ho' & _ & _ & _ & Hs & Hm & _).
  exists o, o'. split_and!; [exact Ho|exact Ho'|exact Hs|exact Hm].
Defined.

Lemma elem_of_selectOrcamentos userId ano db mes o :
  (mes, o) ∈ OrcamentoResumo.selectOrcamentos userId ano db ↔
  gzen_orcamento db !! (userId, mes, ano) = Some o.
Proof.
  unfold OrcamentoResumo.selectOrcamentos.
  rewrite merge_sort_Permutation, list_elem_of_omap. split.
  - intros ([[[u m] a] o'] & Hin & Hsel). apply elem_of_map_to_list in Hin.
    case_decide as Hd; [|done]. destruct Hd as [-> ->]. by injection Hsel as -> ->.
  - intros Ho. exists (userId, mes, ano, o). split; [by apply elem_of_map_to_list|].
    by rewrite decide_True.
Qed.

Lemma foldl_acumula_anual resumo orcamentos :
  let final := foldl OrcamentoResumo.acumula resumo orcamentos in
  ra_ano final = ra_ano resumo ∧
  receita_total_ano final =
    receita_total_ano resumo + somaDireta (λ orc, receita_total orc.2) orcamentos ∧
  despesa_total_ano final =
    despesa_total_ano resumo + somaDireta (λ orc, despesa_total orc.2) orcamentos ∧
  meses final = meses resumo ∧
  (is_Some (meta_economia_ano final) ↔
   is_Some (meta_economia_ano resumo) ∧
   ∀ orc, orc ∈ orcamentos → is_Some (meta_economia orc.2)).
Proof.
  revert resumo. induction orcamentos as [|orc l IH]; intros resumo; cbn zeta.
  - cbn. split_and!; try lia; try done. split; [|tauto].
    intros H. split; [done|]. intros orc Horc. by apply elem_of_nil in Horc.
  - cbn [foldl]. destruct (IH (OrcamentoResumo.acumula resumo orc))
      as (H1 & H2 & H3 & H4 & H5). cbn zeta in *.
    rewrite H1, H2, H3, H4, H5. clear H1 H2 H3 H4 H5.
    unfold OrcamentoResumo.acumula.
    cbn [ra_ano receita_total_ano despesa_total_ano meta_economia_ano meses].
    split_and!; try done.
    + unfold somaDireta. cbn [foldr]. lia.
    + unfold somaDireta. cbn [foldr]. lia.
    + split.
      * intros [Hs Hl]. destruct (meta_economia_ano resumo), (meta_economia orc.2) eqn:Em;
          try by destruct Hs.
        split; [done|]. intros orc' [->|Hin]%elem_of_cons; [by rewrite Em|by apply Hl].
      * intros [Hs Hl]. split.
        -- destruct Hs as [soma ->]. destruct (Hl orc) as [meta ->]; [left|]. done.
        -- intros orc' Hin. apply Hl. by right.
Qed.

Lemma foldl_melhor x l :
  foldl OrcamentoResumo.melhor x l ∈ x :: l ∧
  ∀ y, y ∈ x :: l →
       saldo_calculado y ≤ saldo_calculado (foldl OrcamentoResumo.melhor x l).
Proof.
  revert x. induction l as [|c l IH]; intros x; cbn [foldl].
  - split; [left|]. intros y ->%list_elem_of_singleton. lia.
  - destruct (IH (OrcamentoResumo.melhor x c)) as [Hin Hmax]. split.
    + apply elem_of_cons in Hin as [->|Hin]; [|by do 2 right].
      unfold OrcamentoResumo.melhor. case_match; [left|right; left].
    + intros y Hy.
      pose proof (Hmax (OrcamentoResumo.melhor x c) ltac:(left)) as Hm.
      apply elem_of_cons in Hy as [->|Hy].
      * unfold OrcamentoResumo.melhor in Hm at 1. case_match; lia.
      * apply elem_of_cons in Hy as [->|Hy]; [|apply Hmax; by right].
        unfold OrcamentoResumo.melhor in Hm at 1. case_match; lia.
Qed.

Lemma foldl_pior x l :
  foldl OrcamentoResumo.pior x l ∈ x :: l ∧
  ∀ y, y ∈ x :: l →
       saldo_calculado (foldl OrcamentoResumo.pior x l) ≤ saldo_calculado y.
Proof.
  revert x. induction l as [|c l IH]; intros x; cbn [foldl].
  - split; [left|]. intros y ->%list_elem_of_singleton. lia.
  - destruct (IH (OrcamentoResumo.pior x c)) as [Hin Hmin]. split.
    + apply elem_of_cons in Hin as [->|Hin]; [|by do 2 right].
      unfold OrcamentoResumo.pior. case_match; [left|right; left].
    + intros y Hy.
      pose proof (Hmin (OrcamentoResumo.pior x c) ltac:(left)) as Hm.
      apply elem_of_cons in Hy as [->|Hy].
      * unfold OrcamentoResumo.pior in Hm at 3. case_match; lia.
      * apply elem_of_cons in Hy as [->|Hy]; [|apply Hmin; by right].
        unfold OrcamentoResumo.pior in Hm at 3. case_match; lia.
Qed.

(** X18. The yearly summary.  [Orcamento.getResumoAnual] reads and never
    writes.  [meses] holds exactly the rows of the owner for that year, in
    the order of the months; the yearly income and expense totals are the
    sums over those rows and the yearly balance is their difference, which
    is the sum of the stored balances when every row is consistent; the
    yearly goal is a number exactly when every month has a goal.  With no
    row the best and the worst month are null; otherwise they are months of
    the year whose computed balance no month exceeds, respectively
    undercuts.  On a query error the answer is null. *)
Theorem resumo_anual_do_orcamento userId ano db :
  ∃ resumo,
    OrcamentoResumo.getResumoAnual userId ano None db = (Some resumo, db) ∧
    ra_ano resumo = ano ∧
    (∀ mes o, (mes, o) ∈ meses resumo ↔ gzen_orcamento db !! (userId, mes, ano) = Some o) ∧
    Sorted porMes (meses resumo) ∧
    receita_total_ano resumo = somaDireta (λ orc, receita_total orc.2) (meses resumo) ∧
    despesa_total_ano resumo = somaDireta (λ orc, despesa_total orc.2) (meses resumo) ∧
    saldo_total_ano resumo = receita_total_ano resumo - despesa_total_ano resumo ∧
    (orcamentoConsistente db →
     saldo_total_ano resumo = somaDireta (λ orc, saldo_atual orc.2) (meses resumo)) ∧
    (is_Some (meta_economia_ano resumo) ↔
     ∀ orc, orc ∈ meses resumo → is_Some (meta_economia orc.2)) ∧
    match meses resumo with
    | [] => melhor_mes resumo = None ∧ pior_mes resumo = None
    | _ :: _ =>
        ∃ best worst,
          melhor_mes resumo = Some best ∧ pior_mes resumo = Some worst ∧
          best ∈ OrcamentoResumo.comSaldo <$> meses resumo ∧
          worst ∈ OrcamentoResumo.comSaldo <$> meses resumo ∧
          ∀ orc, orc ∈ meses resumo →
                 saldo_calculado worst ≤ receita_total orc.2 - despesa_total orc.2 ∧
                 receita_total orc.2 - despesa_total orc.2 ≤ saldo_calculado best
    end ∧
    ∀ message,
      OrcamentoResumo.getResumoAnual userId ano (Some message) db = (None, db).
Proof.
  assert (Hrun : ∀ error,
            OrcamentoResumo.getResumoAnual userId ano error db =
            (eval (OrcamentoResumo.getResumoAnual userId ano error) db, db)).
  { intros error. rewrite efeito_eta at 1. f_equal.
    unfold OrcamentoResumo.getResumoAnual. passo.
    destruct error; [done|]. by case_match. }
  pose proof (Sorted_merge_sort porMes
                (omap (λ linha : string * Z * Z * OrcamentoRow,
                         let '(u, m, a, o) := linha in
                         if decide (u = userId ∧ a = ano) then Some (m, o) else None)
                      (map_to_list (gzen_orcamento db)))) as Hsorted.
  fold (OrcamentoResumo.selectOrcamentos userId ano db) in Hsorted.
  pose proof (elem_of_selectOrcamentos userId ano db) as Hmem.
  rewrite (Hrun None). setoid_rewrite Hrun.
  unfold OrcamentoResumo.getResumoAnual. passo.
  remember (OrcamentoResumo.selectOrcamentos userId ano db) as orcamentos eqn:El.
  clear El Hrun.
  assert (Hsaldo : orcamentoConsistente db →
            somaDireta (λ orc : OrcamentoDoMes, receita_total orc.2) orcamentos -
            somaDireta (λ orc : OrcamentoDoMes, despesa_total orc.2) orcamentos =
            somaDireta (λ orc : OrcamentoDoMes, saldo_atual orc.2) orcamentos).
  { intros Hdb.
    assert (Hall : ∀ orc, orc ∈ orcamentos → invariante orc.2).
    { intros [m o] Hin. apply Hmem in Hin. by apply Hdb in Hin. }
    clear Hmem Hsorted. induction orcamentos as [|orc l IH]; [done|].
    unfold somaDireta in *. cbn [foldr].
    pose proof (Hall orc ltac:(left)) as Hinv. unfold invariante in Hinv.
    specialize (IH (λ x Hx, Hall x ltac:(by right))). lia. }
  destruct (foldl_acumula_anual
              (mkResumoAnual ano 0 0 0 (Some 0) None None orcamentos) orcamentos)
    as (H1 & H2 & H3 & H4 & H5). cbn zeta in *.
  cbn [ra_ano receita_total_ano despesa_total_ano meta_economia_ano meses] in *.
  destruct orcamentos as [|orc l].
  - eexists. split; [reflexivity|]. cbn. split_and!; try done.
    split; [|done]. intros _ orc Horc. by apply elem_of_nil in Horc.
  - assert (Hlen : (0 <? Z.of_nat (length (orc :: l))) = true)
      by (apply Z.ltb_lt; cbn [length]; lia).
    rewrite Hlen. passo. eexists. split; [reflexivity|].
    cbn [ra_ano receita_total_ano despesa_total_ano saldo_total_ano meta_economia_ano
         melhor_mes pior_mes meses].
    rewrite H1, H2, H3, H4, H5.
    split_and!; try done; try lia.
    + split; [by intros [_ ?]|]. intros ?. by split.
    + cbn [fmap list_fmap reduce1].
      destruct (foldl_melhor (OrcamentoResumo.comSaldo orc)
                  (OrcamentoResumo.comSaldo <$> l)) as [Hbin Hbmax].
      destruct (foldl_pior (OrcamentoResumo.comSaldo orc)
                  (OrcamentoResumo.comSaldo <$> l)) as [Hwin Hwmin].
      eexists _, _. split_and!; [done|done|exact Hbin|exact Hwin|].
      intros x Hx.
      assert (Hcx : OrcamentoResumo.comSaldo x ∈
                OrcamentoResumo.comSaldo orc :: (OrcamentoResumo.comSaldo <$> l)).
      { change (OrcamentoResumo.comSaldo x ∈ OrcamentoResumo.comSaldo <$> orc :: l).
        by apply list_elem_of_fmap_2. }
      split; [apply (Hwmin _ Hcx)|apply (Hbmax _ Hcx)].
Qed.

Lemma resumo_anual_do_orcamento_witness :
  orcamentoConsistente
    (ex_db_ano (mkOrcamento 500 300 200 (Some 100)) (mkOrcamento 100 400 (-300) None)) ∧
  ∃ resumo,
    OrcamentoResumo.getResumoAnual "u" 2024 None
      (ex_db_ano (mkOrcamento 500 300 200 (Some 100)) (mkOrcamento 100 400 (-300) None)) =
    (Some resumo,
     ex_db_ano (mkOrcamento 500 300 200 (Some 100)) (mkOrcamento 100 400 (-300) None)) ∧
    saldo_total_ano resumo = somaDireta (λ orc, saldo_atual orc.2) (meses resumo).
Proof.
  assert (Hdb : orcamentoConsistente
            (ex_db_ano (mkOrcamento 500 300 200 (Some 100)) (mkOrcamento 100 400 (-300) None))).
  { intros periodo o Ho. cbn in Ho.
    apply lookup_insert_Some in Ho as [[_ <-]|[_ Ho]]; [reflexivity|].
    apply lookup_singleton_Some in Ho as [_ <-]. reflexivity. }
  split; [exact Hdb|].
  destruct (resumo_anual_do_orcamento "u" 2024
              (ex_db_ano (mkOrcamento 500 300 200 (Some 100)) (mkOrcamento 100 400 (-300) None)))
    as (resumo & Hrun & _ & _ & _ & _ & _ & _ & Hsaldo & _).
  exists resumo. split; [exact Hrun|exact (Hsaldo Hdb)].
Defined.

Lemma find_getUserAccounts userId db accountId (q : Account → bool)
    (f : AccountComId → bool) :
  (∀ x, f x = bool_decide (x.1 = accountId) && q x.2) →
  List.find f (eval (FinanceData.getUserAccounts userId None None) db) =
  contaDoUsuario userId q db accountId.
Proof.
  intros Hf. unfold FinanceData.getUserAccounts. passo.
  set (contas := filter _ _).
  assert (Hin : ∀ x, In x contas ↔
            gzen_accounts db !! x.1 = Some x.2 ∧
            acc_user_id x.2 = userId ∧ acc_ativo x.2 = true).
  { intros [a acc]. rewrite <- list_elem_of_In. unfold contas.
    rewrite list_elem_of_filter, elem_of_map_to_list. cbn. tauto. }
  unfold contaDoUsuario.
  destruct (List.find f contas) as [[a acc]|] eqn:Efind.
  - apply find_some in Efind as [Hx Hfx]. apply Hin in Hx as (Hlook & Hu & Hat).
    rewrite Hf in Hfx. cbn in *.
    apply andb_prop in Hfx as [Ha Hq]. apply bool_decide_eq_true in Ha as ->.
    by rewrite Hlook, Hq, Hat, bool_decide_eq_true_2.
  - destruct (gzen_accounts db !! accountId) as [acc|] eqn:Hlook; [|done].
    destruct (bool_decide_reflect (acc_user_id acc = userId)) as [Hu|]; [|done].
    destruct (acc_ativo acc) eqn:Hat; [|done].
    destruct (q acc) eqn:Hq; [|done]. exfalso.
    pose proof (find_none _ _ Efind (accountId, acc)) as Hnone.
    rewrite Hf in Hnone. cbn in Hnone.
    rewrite Hq, bool_decide_eq_true_2 in Hnone by done.
    discriminate Hnone. by apply Hin.
Qed.





Lemma despesa_update_falha tz id userId updateData message db despesa :
  eval (Despesa.findById id userId) db = Some despesa →
  Despesa.update tz id userId updateData (Some message) db = (Erro message, db).
Proof.
  intros Hfind. rewrite efeito_eta. unfold Despesa.update. passo. by rewrite Hfind.
Qed.

(** X20. Updating an expense through the controller.  When the patch names
    an account other than the stored one, [DespesaController.update]
    requires it to be an active account of the requester, and answers 400
    with the store unchanged otherwise.  The card of origin is not looked
    up: turning a confirmed expense into an invoice payment towards any
    card that has a card row is answered 200 and raises the available limit
    of that card, up to its total, whoever owns the card. *)
Theorem edicao_verifica_a_conta_mas_nao_o_cartao tz db userId id despesa :
  gzen_despesas db !! id = Some despesa →
  dp_user_id despesa = userId →
  (∀ accountId validatedData error,
     ud_account_id validatedData = Some accountId →
     accountId ≠ dp_account_id despesa →
     contaDoUsuario userId (λ _, true) db accountId = None →
     DespesaController.update tz id userId validatedData None error db =
       (mkResposta 400 false "Nova conta não encontrada ou não pertence ao usuário" None,
        db)) ∧
  (∀ cartaoId cartao,
     dp_status despesa = confirmada →
     dp_eh_pagamento_fatura despesa = false →
     gzen_cartao_credito db !! cartaoId = Some cartao →
     res_status
       (eval (DespesaController.update tz id userId
                (mkUpdateDespesaData None None None None (Some true) (Some cartaoId))
                None None) db) = 200 ∧
     gzen_cartao_credito
       (exec (DespesaController.update tz id userId
                (mkUpdateDespesaData None None None None (Some true) (Some cartaoId))
                None None) db) !! cartaoId =
       Some (restauraLimite (dp_valor despesa) cartao)).
Proof.
  intros Hrow Hu.
  assert (Hfind : eval (Despesa.findById id userId) db = Some despesa)
    by by apply findById_Some.
  assert (Hfexec : exec (Despesa.findById id userId) db = db) by done.
  split.
  - intros accountId validatedData error Hpatch Hne Hconta.
    rewrite efeito_eta. unfold DespesaController.update.
    rewrite !eval_bind, !exec_bind, Hfind, Hfexec, Hpatch.
    rewrite bool_decide_eq_true_2 by done. passo.
    rewrite (find_getUserAccounts userId db accountId (λ _, true))
      by (intros x; by rewrite andb_true_r).
    rewrite Hconta, bool_decide_eq_false_2 by by intros [? ?].
    by passo.
  - intros cartaoId cartao Hst Hfat Hcartao.
    destruct (update_ok tz id userId
                (mkUpdateDespesaData None None None None (Some true) (Some cartaoId))
                db despesa Hfind) as [Hev Hex].
    cbn zeta in Hev, Hex.
    unfold DespesaController.update.
    rewrite !eval_bind, !exec_bind, Hfind, Hfexec.
    cbn [ud_account_id]. passo. rewrite Hev. passo. cbn [res_status].
    split; [done|].
    rewrite Hex, exec_handleBalanceUpdates.
    cbn [Despesa.aplicaUpdate dp_status ud_status default from_option Datatypes.id].
    rewrite (confirmado_true _ Hst).
    rewrite exec_processarDespesa, exec_reverterDespesa.
    rewrite gzen_cartao_passoOrcamento, gzen_cartao_passoContaDespesa.
    rewrite (ehPagamentoFatura_true _ cartaoId) by done.
    cbn [Despesa.aplicaUpdate dp_cartao_origem_id dp_valor ud_valor ud_cartao_origem_id
         default from_option Datatypes.id].
    rewrite lookup_alter_eq.
    rewrite gzen_cartao_passoOrcamento, gzen_cartao_passoContaDespesa.
    unfold ehPagamentoFatura. rewrite Hfat. cbn [andb].
    cbn. by rewrite Hcartao.
Qed.

Lemma edicao_verifica_a_conta_mas_nao_o_cartao_witness :
  acc_user_id <$> gzen_accounts (ex_db_edicao "outro" 5000 3000 300) !! "C" = Some "outro" ∧
  res_status
    (eval (DespesaController.update 0 "d1" "u"
             (mkUpdateDespesaData None None None None (Some true) (Some "C")) None None)
          (ex_db_edicao "outro" 5000 3000 300)) = 200 ∧
  gzen_cartao_credito
    (exec (DespesaController.update 0 "d1" "u"
             (mkUpdateDespesaData None None None None (Some true) (Some "C")) None None)
          (ex_db_edicao "outro" 5000 3000 300)) !! "C" =
    Some (restauraLimite 300 (mkCartao 5000 3000)).
Proof.
  split; [reflexivity|].
  destruct (edicao_verifica_a_conta_mas_nao_o_cartao 0 (ex_db_edicao "outro" 5000 3000 300)
              "u" "d1" (ex_despesa 300 confirmada true) eq_refl eq_refl) as [_ Hcartao].
  exact (Hcartao "C" (mkCartao 5000 3000) eq_refl eq_refl eq_refl).
Defined.




Lemma validaPagamentoFatura_eq userId db validatedData conta :
  validaPagamentoFatura validatedData
    (eval (FinanceData.getUserAccounts userId None None) db) conta =
  if dd_eh_pagamento_fatura validatedData
  then
    match dd_cartao_origem_id validatedData with
    | None => Some "Para pagamento de fatura, informe o cartão de origem"
    | Some cartaoId =>
        match contaDoUsuario userId
                (λ acc, bool_decide (acc_tipo_conta acc = cartao_credito)) db cartaoId with
        | None => Some "Cartão de origem não encontrado ou não é um cartão de crédito"
        | Some _ =>
            if bool_decide (acc_tipo_conta conta.2 = cartao_credito)
            then Some "Não é possível pagar fatura usando outro cartão de crédito"
            else None
        end
    end
  else None.
Proof.
  unfold validaPagamentoFatura.
  destruct (dd_eh_pagamento_fatura validatedData); [|done].
  destruct (dd_cartao_origem_id validatedData) as [c|]; [|done].
  by rewrite (find_getUserAccounts userId db c
                (λ acc, bool_decide (acc_tipo_conta acc = cartao_credito))).
Qed.

Lemma despesa_controller_create_eq tz userId validatedData novoId db :
  DespesaController.create tz userId validatedData None novoId None db =
  match contaDoUsuario userId (λ _, true) db (dd_account_id validatedData) with
  | None =>
      (mkResposta 400 false "Conta não encontrada ou não pertence ao usuário" None, db)
  | Some conta =>
      match validaPagamentoFatura validatedData
              (eval (FinanceData.getUserAccounts userId None None) db) conta with
      | Some message => (mkResposta 400 false message None, db)
      | None =>
          (mkResposta 201 true "Despesa criada com sucesso"
             (Some (mkDespesa novoId userId (dd_account_id validatedData)
                      (dd_valor validatedData) (dd_data_despesa validatedData)
                      (dd_status validatedData) true
                      (dd_eh_pagamento_fatura validatedData)
                      (dd_cartao_origem_id validatedData))),
           exec (Despesa.create tz userId validatedData novoId None) db)
      end
  end.
Proof.
  rewrite efeito_eta. unfold DespesaController.create.
  rewrite !eval_bind, !exec_bind.
  assert (Hexec : exec (FinanceData.getUserAccounts userId None None) db = db) by done.
  rewrite Hexec.
  rewrite (find_getUserAccounts userId db (dd_account_id validatedData) (λ _, true))
    by (intros x; by rewrite andb_true_r).
  destruct (contaDoUsuario userId (λ _, true) db (dd_account_id validatedData))
    as [conta|]; [|by passo].
  destruct (validaPagamentoFatura _ _ _); [by passo|].
  destruct (create_ok tz userId validatedData novoId db) as [Hev _]. cbn zeta in Hev.
  rewrite !eval_bind, !exec_bind, Hev. by passo.
Qed.

Lemma contaDoUsuario_set_accounts_ne userId q db accountId outra conta :
  accountId ≠ outra →
  contaDoUsuario userId q (set_accounts <[outra := conta]> db) accountId =
  contaDoUsuario userId q db accountId.
Proof. intros Hne. unfold contaDoUsuario. cbn. by rewrite lookup_insert_ne. Qed.

(** X22. An account whose detail row failed to be written.  When the
    insert of the detail row fails, [AccountController.create] answers 400
    although the account row is stored.  For a card account with a new
    identifier this leaves an active credit card account without a card
    row: it passes the card check of [DespesaController.create], and an
    invoice payment towards it is answered 201, debits the paying account
    and restores no limit. *)
Theorem conta_sem_detalhes_fica_registrada
    tz userId body novoId message pagador conta valor data despesaId db :
  accountSchema body = true →
  ad_tipo_conta body = cartao_credito →
  ad_ativo body ≠ Some false →
  gzen_accounts db !! novoId = None →
  gzen_cartao_credito db !! novoId = None →
  gzen_accounts db !! pagador = Some conta →
  acc_user_id conta = userId →
  acc_ativo conta = true →
  acc_tipo_conta conta ≠ cartao_credito →
  let db1 := exec (AccountController.create userId body novoId None (Some message)) db in
  let pagamento := mkDespesaData pagador valor data confirmada true (Some novoId) in
  let db2 := exec (DespesaController.create tz userId pagamento None despesaId None) db1 in
  eval (AccountController.create userId body novoId None (Some message)) db =
    mkResposta 400 false message None ∧
  gzen_accounts db1 !! novoId =
    Some (mkAccount userId cartao_credito (js_or (ad_saldo_atual body) 0) true) ∧
  res_status
    (eval (DespesaController.create tz userId pagamento None despesaId None) db1) = 201 ∧
  saldoDe db2 pagador = Some (acc_saldo_atual conta - valor) ∧
  gzen_cartao_credito db2 = gzen_cartao_credito db.
Proof.
  intros Hschema Htipo Hativo Hnovo Hsem Hconta Hu Hat Hnc. cbn zeta.
  assert (Hne : pagador ≠ novoId) by (intros ->; congruence).
  assert (Hativo' : default true (ad_ativo body) = true).
  { destruct (ad_ativo body) as [[]|]; done. }
  assert (Hrun : AccountController.create userId body novoId None (Some message) db =
            (mkResposta 400 false message None,
             set_accounts
               <[novoId := mkAccount userId cartao_credito (js_or (ad_saldo_atual body) 0) true]>
               db)).
  { rewrite efeito_eta. unfold AccountController.create, Account.create.
    rewrite Hschema, Htipo, Hativo'. by passo. }
  assert (Hex1 : exec (AccountController.create userId body novoId None (Some message)) db =
            set_accounts
              <[novoId := mkAccount userId cartao_credito (js_or (ad_saldo_atual body) 0) true]>
              db) by (unfold exec; by rewrite Hrun).
  assert (Hev1 : eval (AccountController.create userId body novoId None (Some message)) db =
            mkResposta 400 false message None) by (unfold eval; by rewrite Hrun).
  rewrite Hev1, !Hex1. clear Hev1 Hex1.
  remember (set_accounts
              <[novoId := mkAccount userId cartao_credito (js_or (ad_saldo_atual body) 0) true]>
              db) as db1 eqn:Edb1.
  assert (Hnovo1 : gzen_accounts db1 !! novoId =
            Some (mkAccount userId cartao_credito (js_or (ad_saldo_atual body) 0) true)).
  { subst db1. cbn. by rewrite lookup_insert_eq. }
  assert (Hconta1 : gzen_accounts db1 !! pagador = Some conta).
  { subst db1. cbn. by rewrite lookup_insert_ne. }
  assert (Hcartoes1 : gzen_cartao_credito db1 = gzen_cartao_credito db) by by subst db1.
  assert (Hpagador : contaDoUsuario userId (λ _, true) db1 pagador = Some (pagador, conta)).
  { unfold contaDoUsuario. by rewrite Hconta1, Hu, Hat, bool_decide_eq_true_2. }
  assert (Hcartao : contaDoUsuario userId
                      (λ acc, bool_decide (acc_tipo_conta acc = cartao_credito)) db1 novoId =
            Some (novoId,
                  mkAccount userId cartao_credito (js_or (ad_saldo_atual body) 0) true)).
  { unfold contaDoUsuario. rewrite Hnovo1. cbn [acc_user_id acc_ativo acc_tipo_conta].
    by rewrite !bool_decide_eq_true_2. }
  clear Edb1 Hrun.
  split; [done|]. split; [done|].
  unfold eval, exec. rewrite despesa_controller_create_eq.
  cbn [dd_account_id]. rewrite Hpagador, validaPagamentoFatura_eq.
  cbn [dd_eh_pagamento_fatura dd_cartao_origem_id snd]. rewrite Hcartao.
  rewrite bool_decide_eq_false_2 by done. cbn [fst snd res_status].
  split; [done|].
  destruct (create_ok tz userId (mkDespesaData pagador valor data confirmada true (Some novoId))
              despesaId db1) as [_ Hex]. cbn zeta in Hex.
  rewrite Hex. cbn [dd_status]. rewrite confirmado_confirmada.
  rewrite exec_processarDespesa. split.
  - rewrite saldoDe_passoOrcamento, saldoDe_passoContaDespesa.
    cbn [dp_account_id dp_valor dd_account_id dd_valor].
    rewrite decide_True by done. rewrite saldoDe_set_despesas.
    unfold saldoDe. by rewrite Hconta1.
  - rewrite gzen_cartao_passoOrcamento, gzen_cartao_passoContaDespesa.
    cbn [ehPagamentoFatura dp_eh_pagamento_fatura dp_cartao_origem_id
         dd_eh_pagamento_fatura dd_cartao_origem_id andb].
    rewrite bool_decide_eq_true_2 by done.
    cbn [gzen_cartao_credito set_despesas]. rewrite Hcartoes1.
    by apply alter_ausente.
Qed.

Lemma conta_sem_detalhes_fica_registrada_witness :
  eval (AccountController.create "u" (mkAccountData cartao_credito None None 5000 5000) "C"
          None (Some "falha")) (ex_db_conta 1000) =
    mkResposta 400 false "falha" None ∧
  res_status
    (eval (DespesaController.create 0 "u"
             (mkDespesaData "A" 300 ex_data confirmada true (Some "C")) None "d1" None)
          (exec (AccountController.create "u" (mkAccountData cartao_credito None None 5000 5000)
                   "C" None (Some "falha")) (ex_db_conta 1000))) = 201 ∧
  gzen_cartao_credito
    (exec (DespesaController.create 0 "u"
             (mkDespesaData "A" 300 ex_data confirmada true (Some "C")) None "d1" None)
          (exec (AccountController.create "u" (mkAccountData cartao_credito None None 5000 5000)
                   "C" None (Some "falha")) (ex_db_conta 1000))) =
    gzen_cartao_credito (ex_db_conta 1000).
Proof.
  assert (Hativo : ad_ativo (mkAccountData cartao_credito None None 5000 5000) ≠ Some false)
    by discriminate.
  assert (Htipo : acc_tipo_conta (ex_conta 1000) ≠ cartao_credito) by discriminate.
  destruct (conta_sem_detalhes_fica_registrada 0 "u"
              (mkAccountData cartao_credito None None 5000 5000) "C" "falha" "A"
              (ex_conta 1000) 300 ex_data "d1" (ex_db_conta 1000)
              eq_refl eq_refl Hativo eq_refl eq_refl eq_refl eq_refl eq_refl Htipo)
    as (Hresposta & _ & H201 & _ & Hcartoes).
  split_and!; [exact Hresposta|exact H201|exact Hcartoes].
Defined.

(** X23. The limits of a new card.  [AccountController.create] accepts a
    card whose available limit exceeds its total limit, and stores the two
    limits as given.  The first invoice payment of a non-negative amount
    towards that card then lowers the available limit to the total. *)
Theorem cartao_criado_acima_do_limite userId body novoId despesa db :
  ad_tipo_conta body = cartao_credito →
  0 ≤ ad_limite_total body →
  ad_limite_total body < ad_limite_disponivel body →
  dp_cartao_origem_id despesa = Some novoId →
  0 ≤ dp_valor despesa →
  let db1 := exec (AccountController.create userId body novoId None None) db in
  res_status (eval (AccountController.create userId body novoId None None) db) = 201 ∧
  gzen_cartao_credito db1 !! novoId =
    Some (mkCartao (ad_limite_total body) (ad_limite_disponivel body)) ∧
  limiteDisponivelDe (exec (Despesa.processarPagamentoFatura despesa) db1) novoId =
    Some (ad_limite_total body).
Proof.
  intros Htipo Htotal Hacima Hcartao Hvalor. cbn zeta.
  assert (Hschema : accountSchema body = true).
  { unfold accountSchema. rewrite Htipo. apply andb_true_intro. split; lia. }
  assert (Hrun : AccountController.create userId body novoId None None db =
            (mkResposta 201 true "Conta criada com sucesso"
               (Some (novoId,
                      mkAccount userId cartao_credito (js_or (ad_saldo_atual body) 0)
                                (default true (ad_ativo body)),
                      Some (mkCartao (ad_limite_total body) (ad_limite_disponivel body)))),
             set_cartoes
               <[novoId := mkCartao (ad_limite_total body) (ad_limite_disponivel body)]>
               (set_accounts
                  <[novoId := mkAccount userId cartao_credito (js_or (ad_saldo_atual body) 0)
                                        (default true (ad_ativo body))]> db))).
  { rewrite efeito_eta. unfold AccountController.create, Account.create.
    rewrite Hschema, Htipo. by passo. }
  unfold eval, exec at 1 3. rewrite Hrun. cbn [fst snd res_status].
  assert (Hlinha :
    gzen_cartao_credito
      (set_cartoes
         <[novoId := mkCartao (ad_limite_total body) (ad_limite_disponivel body)]>
         (set_accounts
            <[novoId := mkAccount userId cartao_credito (js_or (ad_saldo_atual body) 0)
                                  (default true (ad_ativo body))]> db)) !! novoId =
    Some (mkCartao (ad_limite_total body) (ad_limite_disponivel body))).
  { cbn. by rewrite lookup_insert_eq. }
  split_and!; [done|exact Hlinha|].
  unfold limiteDisponivelDe.
  rewrite (limiteDisponivelDe_processarPagamentoFatura _ _ _ _ Hcartao Hlinha).
  cbn. f_equal. lia.
Qed.

Lemma cartao_criado_acima_do_limite_witness :
  res_status
    (eval (AccountController.create "u" (mkAccountData cartao_credito None None 1000 2000) "C"
             None None) (ex_db_conta 1000)) = 201 ∧
  limiteDisponivelDe
    (exec (Despesa.processarPagamentoFatura (ex_pagamento 100))
          (exec (AccountController.create "u" (mkAccountData cartao_credito None None 1000 2000)
                   "C" None None) (ex_db_conta 1000))) "C" = Some 1000.
Proof.
  destruct (cartao_criado_acima_do_limite "u" (mkAccountData cartao_credito None None 1000 2000)
              "C" (ex_pagamento 100) (ex_db_conta 1000)
              eq_refl ltac:(cbn; lia) ltac:(cbn; lia) eq_refl ltac:(cbn; lia))
    as (H201 & _ & Hlimite).
  split; [exact H201|exact Hlimite].
Defined.

Lemma account_delete_ok accountId userId semLinha db conta :
  gzen_accounts db !! accountId = Some conta →
  acc_user_id conta = userId →
  Account.delete accountId userId semLinha None db =
    (Ok tt,
     set_accounts
       <[accountId := mkAccount (acc_user_id conta) (acc_tipo_conta conta)
                                (acc_saldo_atual conta) false]> db).
Proof.
  intros Hconta Hu. rewrite efeito_eta. unfold Account.delete, Account.selectAccount.
  passo. by rewrite Hconta, bool_decide_eq_true_2.
Qed.

(** X24. The soft delete of an account.  [Account.delete] on an account
    of the requester clears its [ativo] flag and keeps its balance, every
    other account and every other table; a second call succeeds and
    changes nothing more, and a call by anyone else answers the error of
    the storage layer with the store unchanged.  Afterwards
    [DespesaController.create] refuses a new expense on the account, with
    the store unchanged; yet soft-deleting a confirmed expense that is
    already booked on it still credits its balance. *)
Theorem conta_removida_ainda_recebe_estornos
    tz userId accountId conta semLinha despesaId despesa db :
  gzen_accounts db !! accountId = Some conta →
  acc_user_id conta = userId →
  gzen_despesas db !! despesaId = Some despesa →
  dp_user_id despesa = userId →
  dp_account_id despesa = accountId →
  dp_status despesa = confirmada →
  let db1 := exec (Account.delete accountId userId semLinha None) db in
  eval (Account.delete accountId userId semLinha None) db = Ok tt ∧
  gzen_accounts db1 !! accountId =
    Some (mkAccount userId (acc_tipo_conta conta) (acc_saldo_atual conta) false) ∧
  (∀ outra, outra ≠ accountId → gzen_accounts db1 !! outra = gzen_accounts db !! outra) ∧
  gzen_cartao_credito db1 = gzen_cartao_credito db ∧
  gzen_despesas db1 = gzen_despesas db ∧
  gzen_receitas db1 = gzen_receitas db ∧
  gzen_orcamento db1 = gzen_orcamento db ∧
  Account.delete accountId userId semLinha None db1 = (Ok tt, db1) ∧
  (∀ outro, outro ≠ userId →
     Account.delete accountId outro semLinha None db = (Erro semLinha, db)) ∧
  (∀ validatedData novoId despesaError,
     dd_account_id validatedData = accountId →
     DespesaController.create tz userId validatedData None novoId despesaError db1 =
       (mkResposta 400 false "Conta não encontrada ou não pertence ao usuário" None, db1)) ∧
  eval (Despesa.delete tz despesaId userId None) db1 = Ok tt ∧
  saldoDe (exec (Despesa.delete tz despesaId userId None) db1) accountId =
    Some (acc_saldo_atual conta + dp_valor despesa).
Proof.
  intros Hconta Hu Hdespesa Hdu Hda Hst. cbn zeta.
  pose proof (account_delete_ok accountId userId semLinha db conta Hconta Hu) as Hrun.
  assert (Hex1 : exec (Account.delete accountId userId semLinha None) db =
            set_accounts
              <[accountId := mkAccount (acc_user_id conta) (acc_tipo_conta conta)
                                       (acc_saldo_atual conta) false]> db)
    by (unfold exec; by rewrite Hrun).
  assert (Hev1 : eval (Account.delete accountId userId semLinha None) db = Ok tt)
    by (unfold eval; by rewrite Hrun).
  rewrite Hev1, !Hex1. clear Hev1 Hex1 Hrun.
  remember (set_accounts
              <[accountId := mkAccount (acc_user_id conta) (acc_tipo_conta conta)
                                       (acc_saldo_atual conta) false]> db) as db1 eqn:Edb1.
  assert (Hconta1 : gzen_accounts db1 !! accountId =
            Some (mkAccount userId (acc_tipo_conta conta) (acc_saldo_atual conta) false)).
  { subst db1. cbn. by rewrite lookup_insert_eq, Hu. }
  assert (Hdespesa1 : gzen_despesas db1 !! despesaId = Some despesa) by by subst db1.
  split_and!; try done; try by subst db1.
  - intros outra Hne. subst db1. cbn. by rewrite lookup_insert_ne.
  - rewrite (account_delete_ok accountId userId semLinha db1 _ Hconta1 eq_refl).
    f_equal. subst db1. unfold set_accounts. cbn. f_equal.
    by rewrite insert_insert_eq, Hu.
  - intros outro Hne. rewrite efeito_eta. unfold Account.delete, Account.selectAccount.
    passo. rewrite Hconta, bool_decide_eq_false_2 by congruence. done.
  - intros validatedData novoId despesaError Hacc.
    rewrite efeito_eta. unfold DespesaController.create.
    rewrite !eval_bind, !exec_bind.
    assert (Hexec : exec (FinanceData.getUserAccounts userId None None) db1 = db1) by done.
    rewrite Hexec.
    rewrite (find_getUserAccounts userId db1 (dd_account_id validatedData) (λ _, true))
      by (intros x; by rewrite andb_true_r).
    unfold contaDoUsuario. rewrite Hacc, Hconta1. cbn [acc_user_id acc_ativo].
    rewrite andb_false_r. by passo.
  - apply (delete_ok tz despesaId userId db1 despesa). by apply findById_Some.
  - destruct (delete_ok tz despesaId userId db1 despesa) as [_ Hex];
      [by apply findById_Some|].
    rewrite Hex, (confirmado_true _ Hst), exec_reverterDespesa.
    rewrite saldoDe_passoOrcamento, saldoDe_passoContaDespesa.
    rewrite decide_True by done. rewrite saldoDe_set_despesas.
    unfold saldoDe. by rewrite Hconta1.
Qed.

Lemma conta_removida_ainda_recebe_estornos_witness :
  eval (Account.delete "A" "u" "sem linha" None)
       (ex_db_ledger {[ "A" := ex_conta 700 ]} (ex_despesa 300 confirmada true)
                     (ex_receita 50 pendente true) (mkOrcamento 0 300 (-300) None)) = Ok tt ∧
  saldoDe
    (exec (Despesa.delete 0 "d1" "u" None)
       (exec (Account.delete "A" "u" "sem linha" None)
          (ex_db_ledger {[ "A" := ex_conta 700 ]} (ex_despesa 300 confirmada true)
                        (ex_receita 50 pendente true) (mkOrcamento 0 300 (-300) None))))
    "A" = Some (700 + 300).
Proof.
  assert (Hconta :
    gzen_accounts
      (ex_db_ledger {[ "A" := ex_conta 700 ]} (ex_despesa 300 confirmada true)
                    (ex_receita 50 pendente true) (mkOrcamento 0 300 (-300) None)) !! "A" =
    Some (ex_conta 700)) by reflexivity.
  assert (Hdespesa :
    gzen_despesas
      (ex_db_ledger {[ "A" := ex_conta 700 ]} (ex_despesa 300 confirmada true)
                    (ex_receita 50 pendente true) (mkOrcamento 0 300 (-300) None)) !! "d1" =
    Some (ex_despesa 300 confirmada true)) by reflexivity.
  destruct (conta_removida_ainda_recebe_estornos 0 "u" "A" (ex_conta 700) "sem linha" "d1"
              (ex_despesa 300 confirmada true)
              (ex_db_ledger {[ "A" := ex_conta 700 ]} (ex_despesa 300 confirmada true)
                            (ex_receita 50 pendente true) (mkOrcamento 0 300 (-300) None))
              Hconta eq_refl Hdespesa eq_refl eq_refl eq_refl)
    as (Hok & _ & _ & _ & _ & _ & _ & _ & _ & _ & _ & Hsaldo).
  split; [exact Hok|exact Hsaldo].
Defined.

Lemma account_findById_ok accountId userId db conta :
  gzen_accounts db !! accountId = Some conta →
  acc_user_id conta = userId →
  Account.findById accountId userId db =
    (Some (accountId, conta, Account.detalhesDe accountId conta db), db).
Proof.
  intros Hconta Hu. rewrite efeito_eta. unfold Account.findById, Account.selectAccount.
  passo. rewrite Hconta, bool_decide_eq_true_2 by done. by passo.
Qed.

(** X25. Setting the available limit of a card.  A patch that only sets
    [limite_disponivel] passes [AccountController.update] for any
    non-negative value and is answered 200.  A value other than 0 is
    stored as given, whether or not it exceeds the total limit; the value
    0 is not stored: the store is left as it was. *)
Theorem limite_zero_nao_e_gravado
    userId accountId conta cartao limite semLinha erroNulo db :
  gzen_accounts db !! accountId = Some conta →
  acc_user_id conta = userId →
  acc_tipo_conta conta = cartao_credito →
  gzen_cartao_credito db !! accountId = Some cartao →
  0 ≤ limite →
  let resposta :=
    eval (AccountController.update accountId userId (soLimiteDisponivel limite)
            semLinha erroNulo None None) db in
  let db' :=
    exec (AccountController.update accountId userId (soLimiteDisponivel limite)
            semLinha erroNulo None None) db in
  res_status resposta = 200 ∧
  gzen_cartao_credito db' !! accountId =
    Some (mkCartao (limite_total cartao)
                   (if limite =? 0 then limite_disponivel cartao else limite)) ∧
  (limite = 0 → db' = db) ∧
  (∀ outro, outro ≠ accountId →
     gzen_cartao_credito db' !! outro = gzen_cartao_credito db !! outro) ∧
  gzen_accounts db' = gzen_accounts db.
Proof.
  intros Hconta Hu Htipo Hcartao Hlimite. cbn zeta.
  unfold AccountController.update.
  rewrite eval_bind, exec_bind.
  pose proof (account_findById_ok accountId userId db conta Hconta Hu) as Hfind.
  assert (Hfev : eval (Account.findById accountId userId) db =
            Some (accountId, conta, Account.detalhesDe accountId conta db))
    by (unfold eval; by rewrite Hfind).
  assert (Hfex : exec (Account.findById accountId userId) db = db)
    by (unfold exec; by rewrite Hfind).
  unfold AccountComDetalhes in *. rewrite Hfev, !Hfex.
  cbn [soLimiteDisponivel ua_saldo_atual from_option].
  assert (Hschema : AccountController.updateAccountSchema (soLimiteDisponivel limite) = true).
  { unfold AccountController.updateAccountSchema. cbn. rewrite !andb_true_r.
    apply Z.leb_le. lia. }
  rewrite Hschema.
  assert (Hrun : Account.update accountId userId (soLimiteDisponivel limite)
                   semLinha erroNulo None None db =
            if limite =? 0
            then (Ok (accountId, conta, Some cartao), db)
            else (Ok (accountId, conta,
                      Some (mkCartao (limite_total cartao) limite)),
                  set_cartoes <[accountId := mkCartao (limite_total cartao) limite]> db)).
  { assert (Hbase : Account.temBaseData (soLimiteDisponivel limite) = false) by reflexivity.
    assert (Hdet : Account.temDetalhes (soLimiteDisponivel limite) cartao_credito =
                   negb (limite =? 0)) by (cbn; by rewrite !orb_false_r).
    assert (Hap : ∀ c, Account.aplicaDetalhes (soLimiteDisponivel limite) c =
                       mkCartao (limite_total c) limite) by reflexivity.
    rewrite efeito_eta. unfold Account.update, Account.selectAccount.
    passo. rewrite Hconta, bool_decide_eq_true_2 by done.
    rewrite Hbase. passo. rewrite Htipo, Hdet.
    destruct (limite =? 0) eqn:Ez; cbn [negb]; passo.
    - unfold Account.detalhesDe. by rewrite Htipo, Hcartao.
    - rewrite Hcartao. passo. by rewrite Hap. }
  assert (Hev : eval (Account.update accountId userId (soLimiteDisponivel limite)
                        semLinha erroNulo None None) db =
            Ok (accountId, conta,
                Some (if limite =? 0 then cartao
                      else mkCartao (limite_total cartao) limite)))
    by (unfold eval; rewrite Hrun; by destruct (limite =? 0)).
  assert (Hex : exec (Account.update accountId userId (soLimiteDisponivel limite)
                        semLinha erroNulo None None) db =
            if limite =? 0 then db
            else set_cartoes <[accountId := mkCartao (limite_total cartao) limite]> db)
    by (unfold exec; rewrite Hrun; by destruct (limite =? 0)).
  unfold AccountComDetalhes in *.
  rewrite eval_bind, exec_bind, Hev, !Hex. passo. cbn [res_status].
  destruct (limite =? 0) eqn:Ez.
  - split_and!; try done. rewrite Hcartao. by destruct cartao.
  - split_and!; try done.
    + cbn. by rewrite lookup_insert_eq.
    + intros ->. done.
    + intros outro Hne. cbn. by rewrite lookup_insert_ne.
Qed.

Lemma limite_zero_nao_e_gravado_witness :
  res_status
    (eval (AccountController.update "C" "u" (soLimiteDisponivel 0) "sem linha" "nulo"
             None None) (ex_db_contas "u" 1000 5000 3000)) = 200 ∧
  exec (AccountController.update "C" "u" (soLimiteDisponivel 0) "sem linha" "nulo"
          None None) (ex_db_contas "u" 1000 5000 3000) =
    ex_db_contas "u" 1000 5000 3000.
Proof.
  assert (Hconta : gzen_accounts (ex_db_contas "u" 1000 5000 3000) !! "C" =
                   Some (mkAccount "u" cartao_credito 0 true)) by reflexivity.
  assert (Hcartao : gzen_cartao_credito (ex_db_contas "u" 1000 5000 3000) !! "C" =
                    Some (mkCartao 5000 3000)) by reflexivity.
  destruct (limite_zero_nao_e_gravado "u" "C" (mkAccount "u" cartao_credito 0 true)
              (mkCartao 5000 3000) 0 "sem linha" "nulo" (ex_db_contas "u" 1000 5000 3000)
              Hconta eq_refl eq_refl Hcartao ltac:(lia))
    as (H200 & _ & Hdb & _).
  split; [exact H200|exact (Hdb eq_refl)].
Defined.

(** X26. Negative balances.  [AccountController.update] refuses to set a
    negative balance on a current account or a cash account, with the store
    unchanged.  [DespesaController.create] has no such check: a confirmed
    expense above the balance of an active account of the requester is
    answered 201 and leaves that balance negative. *)
Theorem saldo_negativo_so_pelo_livro
    tz userId accountId conta saldo valor data novoId semLinha erroNulo db :
  gzen_accounts db !! accountId = Some conta →
  acc_user_id conta = userId →
  acc_ativo conta = true →
  acc_tipo_conta conta ≠ cartao_credito →
  saldo < 0 →
  acc_saldo_atual conta < valor →
  (∀ accountError detalhesError,
     AccountController.update accountId userId (soSaldo saldo) semLinha erroNulo
       accountError detalhesError db =
     (mkResposta 400 false "Saldo não pode ser negativo para este tipo de conta" None, db)) ∧
  res_status
    (eval (DespesaController.create tz userId
             (mkDespesaData accountId valor data confirmada false None) None novoId None)
          db) = 201 ∧
  ∃ depois,
    saldoDe
      (exec (DespesaController.create tz userId
               (mkDespesaData accountId valor data confirmada false None) None novoId None)
            db) accountId = Some depois ∧
    depois < 0.
Proof.
  intros Hconta Hu Hat Htipo Hneg Hacima.
  split.
  - intros accountError detalhesError. rewrite efeito_eta.
    unfold AccountController.update.
    rewrite eval_bind, exec_bind.
    pose proof (account_findById_ok accountId userId db conta Hconta Hu) as Hfind.
    assert (Hfev : eval (Account.findById accountId userId) db =
              Some (accountId, conta, Account.detalhesDe accountId conta db))
      by (unfold eval; by rewrite Hfind).
    assert (Hfex : exec (Account.findById accountId userId) db = db)
      by (unfold exec; by rewrite Hfind).
    unfold AccountComDetalhes in *. rewrite Hfev, !Hfex. cbn [soSaldo ua_saldo_atual from_option].
    assert (Hguarda : (bool_decide (acc_tipo_conta conta = conta_corrente) ||
                       bool_decide (acc_tipo_conta conta = dinheiro_vivo)) &&
                      (saldo <? 0) = true).
    { apply andb_true_intro. split; [|by apply Z.ltb_lt].
      destruct (acc_tipo_conta conta); done. }
    rewrite Hguarda. by passo.
  - unfold eval, exec. rewrite despesa_controller_create_eq.
    cbn [dd_account_id]. unfold contaDoUsuario at 1 2.
    rewrite Hconta, Hu, Hat, bool_decide_eq_true_2 by done. cbn [andb].
    rewrite !validaPagamentoFatura_eq. cbn [dd_eh_pagamento_fatura fst snd res_status].
    split; [done|].
    destruct (create_ok tz userId (mkDespesaData accountId valor data confirmada false None)
                novoId db) as [_ Hex]. cbn zeta in Hex.
    rewrite Hex. cbn [dd_status]. rewrite confirmado_confirmada.
    rewrite exec_processarDespesa, saldoDe_passoOrcamento, saldoDe_passoContaDespesa.
    cbn [dp_account_id dp_valor dd_account_id dd_valor].
    rewrite decide_True by done. rewrite saldoDe_set_despesas.
    unfold saldoDe. rewrite Hconta. cbn. eexists. split; [done|]. lia.
Qed.

Lemma saldo_negativo_so_pelo_livro_witness :
  AccountController.update "A" "u" (soSaldo (-1)) "sem linha" "nulo" None None
    (ex_db_conta 100) =
    (mkResposta 400 false "Saldo não pode ser negativo para este tipo de conta" None,
     ex_db_conta 100) ∧
  ∃ depois,
    saldoDe
      (exec (DespesaController.create 0 "u"
               (mkDespesaData "A" 300 ex_data confirmada false None) None "d1" None)
            (ex_db_conta 100)) "A" = Some depois ∧
    depois < 0.
Proof.
  assert (Htipo : acc_tipo_conta (ex_conta 100) ≠ cartao_credito) by discriminate.
  destruct (saldo_negativo_so_pelo_livro 0 "u" "A" (ex_conta 100) (-1) 300 ex_data "d1"
              "sem linha" "nulo" (ex_db_conta 100)
              eq_refl eq_refl eq_refl Htipo ltac:(lia) ltac:(cbn; lia))
    as (Hupdate & _ & Hsaldo).
  split; [exact (Hupdate None None)|exact Hsaldo].
Defined.
